(** * Suraksha Yatra AI service: risk scoring, anomaly detection, trends

    A shallow embedding of the analytical core of [ai-service/]:
    [ml_models/risk_predictor.py], [ml_models/anomaly_detector.py],
    [ml_models/pattern_analyzer.py] and the parts of
    [database/mongodb_client.py] they call.

    Conventions of the embedding.
    - Python floats are read as exact rationals ([Q]); every decimal literal
      of the source is the rational it denotes.  Rounding error of binary
      floating point, NaN and infinities are outside the model.
    - A Python exception is a value [Raise e] of the [result] type; a
      [try/except Exception] block is [try_except].
    - Python dicts are association lists in insertion order, which is the
      order Python iterates them in.
    - The clock ([datetime.now()], [datetime.utcnow()]), the random number
      generator and the document store are inputs of the functions that read
      them.
    - Third-party libraries (geopy, numpy, scikit-learn, datetime parsing)
      are interfaces: type classes whose fields are the library functions
      and the few facts about them that the proofs rely on. *)

From Stdlib Require Import ZArith QArith Qminmax Qabs Qround.
From Stdlib Require Import String Ascii DecimalString Bool Lia Lqa.
From Stdlib Require Import List Sorted Permutation.
Import ListNotations.
Open Scope string_scope.
Open Scope Q_scope.

(* ================================================================== *)
(** * Python prelude *)
(* ================================================================== *)

Module Exn.

Inductive exn : Type :=
| KeyError | ValueError | TypeError | ZeroDivisionError | LibraryError.

Inductive result (A : Type) : Type :=
| Ok (a : A)
| Raise (e : exn).

Arguments Ok {A} a.
Arguments Raise {A} e.

Definition bind {A B : Type} (c : result A) (k : A -> result B) : result B :=
  match c with
  | Ok a => k a
  | Raise e => Raise e
  end.

(** [try: body / except Exception: handler] *)
Definition try_except {A : Type} (body : result A) (handler : A) : A :=
  match body with
  | Ok a => a
  | Raise _ => handler
  end.

End Exn.

Import Exn.

Notation "x <- c ;; k" := (bind c (fun x => k))
  (at level 61, c at next level, right associativity).

Module Py.

Definition Qltb (a b : Q) : bool := negb (Qle_bool b a).

(** An [int] used as a float *)
Definition of_nat (n : nat) : Q := inject_Z (Z.of_nat n).

(** [a / b] on Python floats: division by zero raises. *)
Definition truediv (a b : Q) : result Q :=
  if Qeq_bool b 0 then Raise ZeroDivisionError else Ok (a / b).

(** The built-ins [min(a, b)] and [max(a, b)] keep their first argument
    unless the second is strictly smaller (larger); [Qmin] and [Qmax] are
    defined the same way. *)
Definition min (a b : Q) : Q := Qmin a b.
Definition max (a b : Q) : Q := Qmax a b.

(** [sum(l)] *)
Definition sum (l : list Q) : Q := fold_left Qplus l 0.

(** [max(l)] of a non-empty list; [ValueError] on the empty list. *)
Definition max_list (l : list Q) : result Q :=
  match l with
  | [] => Raise ValueError
  | x :: r => Ok (fold_left max r x)
  end.

(** [int(x)]: truncation toward zero. *)
Definition int (x : Q) : Z := Z.quot (Qnum x) (QDen x).

(** [round(x, ndigits)]: to the nearest multiple of [10^-ndigits], ties to
    the even one. *)
Definition round_half_even (y : Q) : Z :=
  let f := Qfloor y in
  let frac := y - inject_Z f in
  if Qltb frac (1#2) then f
  else if Qltb (1#2) frac then (f + 1)%Z
  else if Z.even f then f else (f + 1)%Z.

Definition round (x : Q) (ndigits : nat) : Q :=
  let scale := inject_Z (10 ^ Z.of_nat ndigits) in
  inject_Z (round_half_even (x * scale)) / scale.

(** [a % b] on floats, for [b > 0]: the result lies in [[0, b)]. *)
Definition fmod (a b : Q) : Q := a - b * inject_Z (Qfloor (a / b)).

(** [str(n)] of an integer *)
Definition str_int (n : Z) : string := NilZero.string_of_int (Z.to_int n).

Fixpoint zeros (n : nat) : string :=
  match n with
  | O => EmptyString
  | S m => String "0" (zeros m)
  end.

(** [f"{n:0{width}d}"] for [n >= 0] *)
Definition zfill (width : nat) (n : Z) : string :=
  let s := str_int n in
  (zeros (width - String.length s) ++ s)%string.

(** [f"{x:.{digits}f}"] for [digits > 0] *)
Definition format_fixed (digits : nat) (x : Q) : string :=
  let scale := (10 ^ Z.of_nat digits)%Z in
  let r := Z.abs (round_half_even (x * inject_Z scale)) in
  ((if Qltb x 0 then "-" else "") ++ str_int (r / scale) ++ "."
   ++ zfill digits (r mod scale))%string.

(** [l[-n:]] for [n > 0] *)
Definition lastn {A : Type} (n : nat) (l : list A) : list A :=
  skipn (length l - n) l.

(** [l[i:j]] for [0 <= i <= j] *)
Definition slice {A : Type} (i j : nat) (l : list A) : list A :=
  firstn (j - i) (skipn i l).

(** [l[::k]] for [k > 0] *)
Fixpoint every_nth_aux {A : Type} (k skip : nat) (l : list A) : list A :=
  match l with
  | [] => []
  | x :: r =>
      match skip with
      | O => x :: every_nth_aux k (k - 1) r
      | S s => every_nth_aux k s r
      end
  end.

Definition every_nth {A : Type} (k : nat) (l : list A) : list A :=
  every_nth_aux k 0 l.

(** [range(start, stop, step)] for [step > 0] *)
Fixpoint range_aux (fuel : nat) (i stop step : Z) : list Z :=
  match fuel with
  | O => []
  | S f => if (i <? stop)%Z then i :: range_aux f (i + step) stop step else []
  end.

Definition range (start stop step : Z) : list Z :=
  range_aux (Z.to_nat (stop - start)) start stop step.

(** Dicts with string or integer keys, in insertion order. *)
Section Dict.
Context {K V : Type} (eqb : K -> K -> bool).

Definition dict : Type := list (K * V).

Fixpoint get (d : dict) (k : K) : option V :=
  match d with
  | [] => None
  | (k', v) :: r => if eqb k k' then Some v else get r k
  end.

Definition get_default (d : dict) (k : K) (dflt : V) : V :=
  match get d k with
  | Some v => v
  | None => dflt
  end.

Definition contains (d : dict) (k : K) : bool :=
  match get d k with
  | Some _ => true
  | None => false
  end.

(** [d[k] = f(d.get(k, dflt))], keeping the position of an existing key *)
Fixpoint update (d : dict) (k : K) (dflt : V) (f : V -> V) : dict :=
  match d with
  | [] => [(k, f dflt)]
  | (k', v) :: r =>
      if eqb k k' then (k', f v) :: r else (k', v) :: update r k dflt f
  end.

End Dict.

(** A [defaultdict(int)] filled by [d[key(x)] += 1] over a list. *)
Definition count_by {K A : Type} (eqb : K -> K -> bool) (key : A -> K)
  (l : list A) : list (K * nat) :=
  fold_left (fun d x => update eqb d (key x) O S) l [].

(** Stable sort of integers, ascending: [sorted(keys)]. *)
Fixpoint insert_Z (x : Z) (l : list Z) : list Z :=
  match l with
  | [] => [x]
  | y :: r => if (x <=? y)%Z then x :: l else y :: insert_Z x r
  end.

Definition sorted_Z (l : list Z) : list Z := fold_right insert_Z [] l.

(** Stable sort by a rational key, descending:
    [l.sort(key=key, reverse=True)]; elements with equal keys keep their
    order. *)
Section SortDesc.
Context {A : Type} (key : A -> Q).

Fixpoint insert_desc (x : A) (l : list A) : list A :=
  match l with
  | [] => [x]
  | y :: r =>
      if Qle_bool (key y) (key x) then x :: l else y :: insert_desc x r
  end.

Definition sort_desc (l : list A) : list A := fold_right insert_desc [] l.

End SortDesc.

End Py.


(* ================================================================== *)
(** * Dates and times *)
(* ================================================================== *)

Module Datetime.

(** A [datetime]: the wall-clock reading in seconds since the epoch of its
    own calendar, and its UTC offset when it is timezone-aware. *)
Record datetime : Type := mk_datetime {
  wall : Q;
  utcoffset : option Q
}.

Definition naive (t : Q) : datetime := mk_datetime t None.

(** [.hour] *)
Definition hour (d : datetime) : Z := (Qfloor (wall d / 3600) mod 24)%Z.

(** [.date()], as the number of days since the epoch *)
Definition date (d : datetime) : Z := Qfloor (wall d / 86400).

(** [.weekday()], Monday is 0; day 0 of the epoch was a Thursday *)
Definition weekday (d : datetime) : Z := ((date d + 3) mod 7)%Z.

(** [.month] of the proleptic Gregorian calendar *)
Definition month (d : datetime) : Z :=
  let z := (date d + 719468)%Z in
  let era := (z / 146097)%Z in
  let doe := (z - era * 146097)%Z in
  let yoe := ((doe - doe / 1460 + doe / 36524 - doe / 146096) / 365)%Z in
  let doy := (doe - (365 * yoe + yoe / 4 - yoe / 100))%Z in
  let mp := ((5 * doy + 2) / 153)%Z in
  if (mp <? 10)%Z then (mp + 3)%Z else (mp - 9)%Z.

(** [(a - b).total_seconds()]; mixing naive and aware operands raises. *)
Definition sub_seconds (a b : datetime) : result Q :=
  match utcoffset a, utcoffset b with
  | None, None => Ok (wall a - wall b)
  | Some oa, Some ob => Ok ((wall a - oa) - (wall b - ob))
  | _, _ => Raise TypeError
  end.

(** A [createdAt] field holds a datetime object (documents read from the
    store) or an ISO string (documents received as JSON). *)
Inductive timefield : Type :=
| TDatetime (d : datetime)
| TStr (s : string).

End Datetime.

Import Datetime.

(* ================================================================== *)
(** * Third-party libraries *)
(* ================================================================== *)

(** A coordinate pair [(lat, lng)] as passed to geopy. *)
Definition latlng : Type := (Q * Q)%type.

(** geopy: [geodesic(a, b).kilometers].  [latlng] stands for the pairs
    geopy accepts as coordinates, on which the distance is defined; a
    distance is never negative. *)
Class GeoLib : Type := {
  geodesic : latlng -> latlng -> Q;
  geodesic_nonneg : forall a b, 0 <= geodesic a b
}.

(** datetime parsing: [datetime.fromisoformat(s.replace('Z', '+00:00'))]
    and [datetime.strptime(s, '%H:%M')]; both raise on malformed text. *)
Class TimeLib : Type := {
  fromisoformat : string -> result datetime;
  strptime_HM : string -> result datetime
}.

(** numpy: the functions whose values are not rational expressions of
    their arguments.  [np.std] is a square root, hence never negative. *)
Class NumLib : Type := {
  np_std : list Q -> Q;
  np_std_nonneg : forall l, 0 <= np_std l;
  np_percentile : list Q -> Q -> Q;
  np_sqrt : Q -> Q;
  np_radians : Q -> Q;
  np_degrees : Q -> Q;
  np_sin : Q -> Q;
  np_cos : Q -> Q;
  np_arctan2 : Q -> Q -> Q
}.

(** scikit-learn: [DBSCAN(eps, min_samples).fit(points).labels_], one
    label per point, [-1] for noise. *)
Class ClusterLib : Type := {
  dbscan_labels : Q -> nat -> list (Q * Q) -> list Z;
  dbscan_labels_length :
    forall eps min_samples points,
      length (dbscan_labels eps min_samples points) = length points
}.

Module Np.

(** [np.mean], [np.var] (population variance) and [np.max] of a non-empty
    list; the callers guard the empty case. *)
Definition mean (l : list Q) : Q := Py.sum l / inject_Z (Z.of_nat (length l)).

Definition var (l : list Q) : Q :=
  let m := mean l in
  mean (map (fun x => (x - m) * (x - m)) l).

Definition amax (l : list Q) : Q :=
  match l with
  | [] => 0
  | x :: r => fold_left Qmax r x
  end.

(** [np.arange(n)] *)
Definition arange (n : nat) : list Q :=
  map (fun i => inject_Z (Z.of_nat i)) (seq 0 n).

(** Modelled from the spec: [np.polyfit(x, y, 1)[0]] is numpy code; the
    spec says "fit a least-squares line", whose slope is
    [(n * Sxy - Sx * Sy) / (n * Sxx - Sx * Sx)]. *)
Definition polyfit_slope (x y : list Q) : Q :=
  let n := inject_Z (Z.of_nat (length x)) in
  let sx := Py.sum x in
  let sy := Py.sum y in
  let sxy := Py.sum (map (fun p => fst p * snd p) (combine x y)) in
  let sxx := Py.sum (map (fun a => a * a) x) in
  (n * sxy - sx * sy) / (n * sxx - sx * sx).

End Np.

(* ================================================================== *)
(** * Data model *)
(* ================================================================== *)

(** A location document.  [location.coordinates] is a GeoJSON pair
    [[lng, lat]]; [createdAt] and [speed] are read with [.get] and may be
    absent. *)
Record LocationSample : Type := mk_loc {
  loc_coordinates : Q * Q;
  loc_createdAt : option timefield;
  loc_speed : option Q
}.

(** An incident document; every field is read defensively somewhere in the
    source, so every field may be absent. *)
Record Incident : Type := mk_incident {
  inc_coordinates : option (Q * Q);
  inc_severity : option string;
  inc_type : option string;
  inc_createdAt : option datetime
}.

(** [coords[1], coords[0]]: the (lat, lng) pair of a GeoJSON pair. *)
Definition lat_lng (c : Q * Q) : latlng := (snd c, fst c).

(** A sequence of clock readings: [clock k] is what the k-th call of
    [datetime.utcnow()] (or [datetime.now()]) returns, counted from 0. *)
Definition clock : Type := nat -> datetime.

Definition shift (k : nat) (c : clock) : clock := fun n => c (k + n)%nat.

(* ================================================================== *)
(** * database/mongodb_client.py *)
(* ================================================================== *)

Module DatabaseClient.

Record User : Type := mk_user { user_id : string }.

(** The collections, through the queries the client issues.  A [Raise]
    is a driver or server error. *)
Record Store : Type := mk_store {
  (** [incidents.find({location: {$near: ..., $maxDistance: m}})],
      arguments longitude, latitude, metres *)
  find_incidents_near : Q -> Q -> Q -> result (list Incident);
  (** [incidents.find({createdAt: {$gte: start}, location: {$geoWithin: box}})] *)
  find_incidents_since : datetime -> option ((Q * Q) * (Q * Q)) ->
                         result (list Incident);
  (** [userlocations.find({userId, createdAt >= start}).sort('createdAt', 1)] *)
  find_user_locations : string -> datetime -> result (list LocationSample);
  (** [users.find_one({_id})] *)
  find_user : string -> result (option User)
}.

(** [datetime.utcnow() - timedelta(days=days)] *)
Definition days_before (now : datetime) (days : Z) : datetime :=
  mk_datetime (wall now - inject_Z (days * 86400)) (utcoffset now).

Definition get_historical_incidents (st : Store) (utcnow : datetime)
  (days : Z) (location_bounds : option ((Q * Q) * (Q * Q))) : list Incident :=
  try_except (find_incidents_since st (days_before utcnow days) location_bounds)
             [].

Definition get_user_movement_patterns (st : Store) (utcnow : datetime)
  (user : string) (days : Z) : list LocationSample :=
  try_except (find_user_locations st user (days_before utcnow days)) [].

Record AreaStats : Type := mk_area_stats {
  total_incidents : nat;
  severity_distribution : list (string * nat);
  type_distribution : list (string * nat);
  incidents : list Incident
}.

Definition or_unknown (o : option string) : string :=
  match o with
  | Some s => s
  | None => "unknown"
  end.

Definition get_area_incident_stats (st : Store) (latitude longitude : Q)
  (radius_km : Q) : AreaStats :=
  try_except
    (found <- find_incidents_near st longitude latitude (radius_km * 1000) ;;
     Ok {| total_incidents := length found;
           severity_distribution :=
             Py.count_by String.eqb (fun i => or_unknown (inc_severity i)) found;
           type_distribution :=
             Py.count_by String.eqb (fun i => or_unknown (inc_type i)) found;
           incidents := found |})
    {| total_incidents := 0;
       severity_distribution := [];
       type_distribution := [];
       incidents := [] |}.

Record Route : Type := mk_route {
  route_id : nat;
  start_location : Q * Q;
  frequency : nat
}.

(** [enumerate(start_points[:5])] over [locations[::10]] *)
Fixpoint routes_from (i : nat) (freq : nat) (starts : list LocationSample)
  : list Route :=
  match starts with
  | [] => []
  | s :: r => mk_route i (loc_coordinates s) freq :: routes_from (S i) freq r
  end.

Definition _identify_common_routes (locations : list LocationSample)
  : list Route :=
  if (10 <? length locations)%nat then
    routes_from 0 (length locations / 10)%nat
                (firstn 5 (Py.every_nth 10 locations))
  else [].

Record Profile : Type := mk_profile {
  user_info : User;
  common_routes : list Route
}.

(** Only [movement_stats.common_routes] of the profile is read by the
    callers modelled here. *)
Definition get_user_profile (st : Store) (utcnow : datetime) (user : string)
  : option Profile :=
  try_except
    (u <- find_user st user ;;
     match u with
     | Some info =>
         let recent_locations := get_user_movement_patterns st utcnow user 30 in
         Ok (Some (mk_profile info (_identify_common_routes recent_locations)))
     | None => Ok None
     end)
    None.

End DatabaseClient.

Import DatabaseClient.

(* ================================================================== *)
(** * ml_models/risk_predictor.py *)
(* ================================================================== *)

Module RiskPredictor.

(** The trained pair [(self.scaler, self.model)]: [scaler.transform] and
    [model.predict(...)[0]] on one feature row.  Either may raise. *)
Record Regressor : Type := mk_regressor {
  transform : list Q -> result (list Q);
  predict : list Q -> result Q
}.

(** Draws of [np.random.exponential(scale)] and [np.random.uniform(lo, hi)]. *)
Record Rng : Type := mk_rng {
  exponential : Q -> Q;
  uniform : Q -> Q -> Q
}.

Definition feature_columns : list string :=
  [ "hour"; "day_of_week"; "month"; "historical_incidents_count";
    "population_density"; "weather_risk_score"; "distance_to_hospital";
    "distance_to_police"; "average_speed"; "route_complexity" ].

Definition get_risk_level (risk_score : Q) : string :=
  if Qle_bool 0.8 risk_score then "critical"
  else if Qle_bool 0.6 risk_score then "high"
  else if Qle_bool 0.4 risk_score then "medium"
  else "low".

Definition _get_time_risk_multiplier (hour : Z) : Q :=
  if ((hour >=? 22) || (hour <=? 5))%Z then 1.3
  else if ((hour >=? 6) && (hour <=? 8) || (hour >=? 17) && (hour <=? 19))%Z
       then 1.1
  else 1.0.

Definition lower_ascii (c : ascii) : ascii :=
  let n := nat_of_ascii c in
  if ((65 <=? n) && (n <=? 90))%nat then ascii_of_nat (n + 32) else c.

Fixpoint lower (s : string) : string :=
  match s with
  | EmptyString => EmptyString
  | String c r => String (lower_ascii c) (lower r)
  end.

Definition weather_risks : list (string * Q) :=
  [ ("clear", 0.1); ("cloudy", 0.2); ("rain", 0.6); ("heavy_rain", 0.8);
    ("storm", 0.9); ("fog", 0.7); ("snow", 0.8) ].

Definition _calculate_weather_risk (weather_conditions : option string) : Q :=
  match weather_conditions with
  | None => 0.3
  | Some "" => 0.3
  | Some w => Py.get_default String.eqb weather_risks (lower w) 0.3
  end.

Definition _estimate_distance_to_service (rng : Rng) (service_type : string)
  : Q :=
  if String.eqb service_type "hospital" then Py.min (exponential rng 5) 20
  else if String.eqb service_type "police" then Py.min (exponential rng 3) 15
  else 10.

Definition _estimate_population_density (rng : Rng) : Q :=
  uniform rng 0.2 0.8.

Definition _estimate_average_speed (distance : Q) (hour : Z) : Q :=
  if ((hour >=? 7) && (hour <=? 9) || (hour >=? 17) && (hour <=? 19))%Z
  then Py.max 20 (40 - distance * 2)
  else Py.max 30 (60 - distance).

Section WithGeo.
Context {geo : GeoLib} {tl : TimeLib}.

(** [_calculate_default_risk]; [now] is its reading of [datetime.now()]. *)
Definition _calculate_default_risk (now : datetime)
  (start_coords end_coords : latlng) : Q :=
  let distance := geodesic start_coords end_coords in
  let hour := Datetime.hour now in
  let distance_risk := Py.min (distance / 100) 0.3 in
  let time_risk := _get_time_risk_multiplier hour * 0.3 in
  let base_risk := 0.4 in
  Py.min (distance_risk + time_risk + base_risk) 1.0.

(** [prepare_features]; returns the feature dict and the number of clock
    readings it consumed. *)
Definition prepare_features (st : Store) (rng : Rng) (now : clock)
  (start_coords end_coords : latlng)
  (time_of_day weather_conditions : option string)
  : list (string * Q) * nat :=
  let time_part : result ((Z * Z * Z) * nat) :=
    match time_of_day with
    | None =>
        let current_time := now 0%nat in
        Ok ((Datetime.hour current_time, Datetime.weekday current_time,
             Datetime.month current_time), 1%nat)
    | Some s =>
        time_obj <- strptime_HM s ;;
        Ok ((Datetime.hour time_obj, Datetime.weekday (now 0%nat),
             Datetime.month (now 1%nat)), 2%nat)
    end in
  match time_part with
  | Raise _ => (map (fun col => (col, 0.5)) feature_columns, 0%nat)
  | Ok ((hour, day_of_week, month), reads) =>
      let mid_lat := (fst start_coords + fst end_coords) / 2 in
      let mid_lng := (snd start_coords + snd end_coords) / 2 in
      let area_stats := get_area_incident_stats st mid_lat mid_lng 2 in
      let historical_incidents_count := total_incidents area_stats in
      let route_distance := geodesic start_coords end_coords in
      let weather_risk_score := _calculate_weather_risk weather_conditions in
      let distance_to_hospital := _estimate_distance_to_service rng "hospital" in
      let distance_to_police := _estimate_distance_to_service rng "police" in
      let route_complexity := Py.min (route_distance / 10) 1.0 in
      let population_density := _estimate_population_density rng in
      let average_speed := _estimate_average_speed route_distance hour in
      ([ ("hour", inject_Z hour);
         ("day_of_week", inject_Z day_of_week);
         ("month", inject_Z month);
         ("historical_incidents_count",
          inject_Z (Z.of_nat historical_incidents_count));
         ("population_density", population_density);
         ("weather_risk_score", weather_risk_score);
         ("distance_to_hospital", distance_to_hospital);
         ("distance_to_police", distance_to_police);
         ("average_speed", average_speed);
         ("route_complexity", route_complexity) ], reads)
  end.

(** [features[col] for col in self.feature_columns] *)
Fixpoint feature_row (features : list (string * Q)) (cols : list string)
  : result (list Q) :=
  match cols with
  | [] => Ok []
  | c :: r =>
      match Py.get String.eqb features c with
      | None => Raise KeyError
      | Some v => row <- feature_row features r ;; Ok (v :: row)
      end
  end.

(** [predict_route_risk].  [model] is [None] while no regressor has been
    trained or loaded.  The call of [store_prediction] is left out: it
    swallows its own failures and returns nothing, so it cannot change the
    value returned here. *)
Definition predict_route_risk (model : option Regressor) (st : Store)
  (rng : Rng) (now : clock) (start_coords end_coords : latlng)
  (time_of_day weather_conditions : option string) : Q :=
  match model with
  | None => _calculate_default_risk (now 0%nat) start_coords end_coords
  | Some m =>
      let '(features, reads) :=
        prepare_features st rng now start_coords end_coords
                         time_of_day weather_conditions in
      try_except
        (feature_array <- feature_row features feature_columns ;;
         feature_array_scaled <- transform m feature_array ;;
         risk_score <- predict m feature_array_scaled ;;
         Ok (Py.max 0 (Py.min 1 risk_score)))
        (_calculate_default_risk (now reads) start_coords end_coords)
  end.

End WithGeo.

Definition severity_weights : list (string * Q) :=
  [ ("critical", 1.0); ("high", 0.8); ("medium", 0.5); ("low", 0.2) ].

(** [sum(w.get(severity, 0.5) * count for severity, count in dist.items())] *)
Definition weighted_count (dist : list (string * nat)) : Q :=
  Py.sum (map (fun sc => Py.get_default String.eqb severity_weights (fst sc) 0.5
                         * inject_Z (Z.of_nat (snd sc))) dist).




End RiskPredictor.

(* ================================================================== *)
(** * ml_models/anomaly_detector.py *)
(* ================================================================== *)

Module AnomalyDetector.

(** The result dict of the anomaly tests.  [diagnostics] holds the numeric
    entries that come with some results ([features], [z_score],
    [current_speed_kmh], ...); the ['timestamp'] entry, a formatted clock
    reading, is left out. *)
Record AnomalyResult : Type := mk_result {
  is_anomaly : bool;
  confidence : Q;
  reason : string;
  diagnostics : list (string * Q)
}.

(** The values of the request's [context] dict. *)
Inductive jvalue : Type :=
| JNull
| JBool (b : bool)
| JNum (q : Q)
| JStr (s : string).

Definition truthy (v : jvalue) : bool :=
  match v with
  | JNull => false
  | JBool b => b
  | JNum q => negb (Qeq_bool q 0)
  | JStr s => negb (String.eqb s "")
  end.

Definition detection_error : AnomalyResult :=
  mk_result false 0.0 "Detection error" [].

Section WithLibs.
Context {geo : GeoLib} {tl : TimeLib} {nl : NumLib}.

(** [if isinstance(t, str): t = datetime.fromisoformat(...)] *)
Definition as_datetime (t : timefield) : result datetime :=
  match t with
  | TDatetime d => Ok d
  | TStr s => fromisoformat s
  end.

(** [loc.get('createdAt', datetime.utcnow())]: the default is evaluated,
    hence the clock read, whether or not the key is present. *)
Definition created_or (l : LocationSample) (now : datetime) : timefield :=
  match loc_createdAt l with
  | Some t => t
  | None => TDatetime now
  end.

(** The loop of [_extract_movement_features] from index [i] on, [prev_loc]
    being [locations[i-1]] and [k] the number of clock readings so far.
    Returns [(distances, time_intervals, speeds)]. *)
Fixpoint pair_loop (utcnow : clock) (k : nat) (prev_loc : LocationSample)
  (rest : list LocationSample) : result (list Q * list Q * list Q) :=
  match rest with
  | [] => Ok ([], [], [])
  | curr_loc :: rest' =>
      let prev_coords := lat_lng (loc_coordinates prev_loc) in
      let curr_coords := lat_lng (loc_coordinates curr_loc) in
      let distance := geodesic prev_coords curr_coords in
      let prev_time := created_or prev_loc (utcnow k) in
      let curr_time := created_or curr_loc (utcnow (S k)) in
      prev_time <- as_datetime prev_time ;;
      curr_time <- as_datetime curr_time ;;
      time_diff <- sub_seconds curr_time prev_time ;;
      r <- pair_loop utcnow (S (S k)) curr_loc rest' ;;
      let '(distances, time_intervals, speeds) := r in
      Ok (distance :: distances,
          time_diff :: time_intervals,
          if Py.Qltb 0 time_diff
          then (distance * 1000) / time_diff :: speeds
          else speeds)
  end.

Definition _calculate_bearing (point1 point2 : Q * Q) : Q :=
  let lat1 := np_radians (snd point1) in
  let lon1 := np_radians (fst point1) in
  let lat2 := np_radians (snd point2) in
  let lon2 := np_radians (fst point2) in
  let dlon := lon2 - lon1 in
  let y := np_sin dlon * np_cos lat2 in
  let x := np_cos lat1 * np_sin lat2
           - np_sin lat1 * np_cos lat2 * np_cos dlon in
  let bearing := np_arctan2 y x in
  let bearing := np_degrees bearing in
  Py.fmod (bearing + 360) 360.

(** The loop of [_count_direction_changes] over consecutive triples. *)
Fixpoint direction_loop (locations : list LocationSample) : nat :=
  match locations with
  | a :: r =>
      match r with
      | b :: c :: _ =>
          let bearing1 := _calculate_bearing (loc_coordinates a)
                                             (loc_coordinates b) in
          let bearing2 := _calculate_bearing (loc_coordinates b)
                                             (loc_coordinates c) in
          let angle_diff := Qabs (bearing2 - bearing1) in
          let angle_diff := if Py.Qltb 180 angle_diff
                            then 360 - angle_diff else angle_diff in
          ((if Py.Qltb 45 angle_diff then 1 else 0) + direction_loop r)%nat
      | _ => O
      end
  | [] => O
  end.

Definition _count_direction_changes (locations : list LocationSample) : nat :=
  if (length locations <? 3)%nat then O else direction_loop locations.

Definition is_empty {A : Type} (l : list A) : bool :=
  match l with
  | [] => true
  | _ => false
  end.

Definition _extract_movement_features (utcnow : clock)
  (locations : list LocationSample) : result (list (string * Q)) :=
  match locations with
  | first :: (_ :: _) as rest =>
      r <- pair_loop utcnow 0 first rest ;;
      let '(distances, time_intervals, speeds) := r in
      Ok [ ("avg_speed", if is_empty speeds then 0 else Np.mean speeds);
           ("max_speed", if is_empty speeds then 0 else Np.amax speeds);
           ("speed_variance", if is_empty speeds then 0 else Np.var speeds);
           ("total_distance", Py.sum distances);
           ("avg_time_interval",
            if is_empty time_intervals then 0 else Np.mean time_intervals);
           ("max_time_gap",
            if is_empty time_intervals then 0 else Np.amax time_intervals);
           ("num_stops",
            Py.of_nat (length (filter (fun speed => Py.Qltb speed 0.1) speeds)));
           ("direction_changes", Py.of_nat (_count_direction_changes locations)) ]
  | _ => Ok []
  end.

(** The body both scoring loops share: the z-score of one current feature
    against the historical vectors, when one is computed. *)
Definition feature_z_score (historical_features : list (list (string * Q)))
  (feature : string * Q) : option Q :=
  let '(feature_name, current_value) := feature in
  match historical_features with
  | [] => None
  | first :: _ =>
      if Py.contains String.eqb first feature_name then
        let historical_values :=
          flat_map (fun hf => match Py.get String.eqb hf feature_name with
                              | Some v => [v]
                              | None => []
                              end) historical_features in
        if (1 <? length historical_values)%nat then
          let mean_val := Np.mean historical_values in
          let std_val := np_std historical_values in
          if Py.Qltb 0 std_val
          then Some (Qabs ((current_value - mean_val) / std_val))
          else None
        else None
      else None
  end.

Definition option_to_list {A : Type} (o : option A) : list A :=
  match o with
  | Some a => [a]
  | None => []
  end.

Definition _calculate_movement_anomaly_score
  (current_features : list (string * Q))
  (historical_features : list (list (string * Q))) : Q :=
  if is_empty historical_features then 0.0
  else
    let z_scores :=
      flat_map (fun f => option_to_list (feature_z_score historical_features f))
               current_features in
    match z_scores with
    | [] => 0.0
    | z :: zs =>
        let max_z_score := fold_left Py.max zs z in
        Py.min (max_z_score / 3) 1.0
    end.

Definition feature_descriptions : list (string * string) :=
  [ ("avg_speed", "unusual average speed");
    ("max_speed", "unusual maximum speed");
    ("speed_variance", "unusual speed variation");
    ("total_distance", "unusual travel distance");
    ("direction_changes", "unusual movement pattern");
    ("num_stops", "unusual number of stops") ].

Definition _determine_movement_anomaly_reason
  (current_features : list (string * Q))
  (historical_features : list (list (string * Q))) : string :=
  if is_empty historical_features
  then "No historical patterns for comparison"
  else
    let step (acc : Q * option string) (f : string * Q) :=
      match feature_z_score historical_features f with
      | Some z => if Py.Qltb (fst acc) z then (z, Some (fst f)) else acc
      | None => acc
      end in
    match snd (fold_left step current_features (0, None)) with
    | Some anomalous_feature =>
        Py.get_default String.eqb feature_descriptions anomalous_feature
                       ("unusual " ++ anomalous_feature)%string
    | None => "Movement pattern within normal range"
    end.

(** Clock readings of [_extract_movement_features] on [n] samples. *)
Definition extract_reads (n : nat) : nat := (2 * (n - 1))%nat.

(** [[extract(h[i:i+n]) for i in range(0, len(h) - n + 1, n)
      if i + n <= len(h)]], the k-th call reading the clock from
    [k * extract_reads n] on. *)
Fixpoint window_features (utcnow : clock) (n : nat)
  (historical_patterns : list LocationSample) (starts : list Z) (k : nat)
  : result (list (list (string * Q))) :=
  match starts with
  | [] => Ok []
  | i :: starts' =>
      if (i + Z.of_nat n <=? Z.of_nat (length historical_patterns))%Z then
        f <- _extract_movement_features
               (shift (k * extract_reads n) utcnow)
               (Py.slice (Z.to_nat i) (Z.to_nat i + n) historical_patterns) ;;
        fs <- window_features utcnow n historical_patterns starts' (S k) ;;
        Ok (f :: fs)
      else window_features utcnow n historical_patterns starts' k
  end.

(** [detect_movement_anomaly].  [utcnow 0] is read by the store query, the
    following readings by the feature extractions.  The call of
    [store_prediction] is left out, as in [predict_route_risk]. *)
Definition detect_movement_anomaly (st : Store) (utcnow : clock)
  (user : string) (locations : list LocationSample) : AnomalyResult :=
  let n := length locations in
  if (n <? 3)%nat then
    mk_result false 0.0 "Insufficient location data" []
  else
    let historical_patterns :=
      get_user_movement_patterns st (utcnow 0%nat) user 30 in
    if (length historical_patterns <? 10)%nat then
      mk_result false 0.0 "Insufficient historical data" []
    else
      try_except
        (current_features <-
           _extract_movement_features (shift 1 utcnow) locations ;;
         historical_features <-
           window_features (shift (1 + extract_reads n) utcnow) n
             historical_patterns
             (Py.range 0 (Z.of_nat (length historical_patterns)
                          - Z.of_nat n + 1) (Z.of_nat n)) 0 ;;
         if (length historical_features <? 5)%nat then
           Ok (mk_result false 0.0 "Insufficient historical patterns" [])
         else
           let anomaly_score :=
             _calculate_movement_anomaly_score current_features
                                               historical_features in
           let reason :=
             _determine_movement_anomaly_reason current_features
                                                historical_features in
           Ok (mk_result (Py.Qltb 0.7 anomaly_score) anomaly_score reason
                         current_features))
        detection_error.

Definition _detect_general_speed_anomaly (current_speed : option Q)
  (context : option (list (string * jvalue))) : AnomalyResult :=
  let current_speed_kmh :=
    match current_speed with
    | Some v => if Qeq_bool v 0 then 0 else v * 3.6
    | None => 0
    end in
  let max_vehicle_speed := 200 in
  let expected_movement :=
    match context with
    | None => false
    | Some [] => false
    | Some d => truthy (Py.get_default String.eqb d "expected_movement"
                                       (JBool false))
    end in
  let '(anomalous, why, conf) :=
    if Py.Qltb max_vehicle_speed current_speed_kmh then
      (true,
       ("Extremely high speed: " ++ Py.format_fixed 1 current_speed_kmh
        ++ " km/h")%string, 0.9)
    else if Py.Qltb 120 current_speed_kmh then
      (true,
       ("Very high speed: " ++ Py.format_fixed 1 current_speed_kmh
        ++ " km/h")%string, 0.7)
    else if Py.Qltb current_speed_kmh 1 && expected_movement then
      (true, "Unexpected stationary state", 0.6)
    else
      (false, "Speed within general limits", 0.0) in
  mk_result anomalous conf why [("current_speed_kmh", current_speed_kmh)].

(** [detect_speed_anomaly]; the [location] argument is not read.  No
    statement of the body raises on inputs of these types, so the
    [except] branch of the source has no counterpart. *)
Definition detect_speed_anomaly (st : Store) (utcnow : clock)
  (user : string) (current_speed : option Q)
  (context : option (list (string * jvalue))) : AnomalyResult :=
  let historical_locations :=
    get_user_movement_patterns st (utcnow 0%nat) user 15 in
  let historical_speeds :=
    flat_map (fun loc => match loc_speed loc with
                         | Some v => [v * 3.6]
                         | None => []
                         end) historical_locations in
  if (length historical_speeds <? 20)%nat then
    _detect_general_speed_anomaly current_speed context
  else
    let mean_speed := Np.mean historical_speeds in
    let std_speed := np_std historical_speeds in
    let percentile_95 := np_percentile historical_speeds 95 in
    let percentile_05 := np_percentile historical_speeds 5 in
    let current_speed_kmh :=
      match current_speed with
      | Some v => if Qeq_bool v 0 then 0 else v * 3.6
      | None => 0
      end in
    let z_score :=
      if Py.Qltb 0 std_speed
      then Qabs ((current_speed_kmh - mean_speed) / std_speed) else 0 in
    let is_high_speed := Py.Qltb (percentile_95 * 1.5) current_speed_kmh in
    let is_very_low_speed :=
      Py.Qltb current_speed_kmh (percentile_05 * 0.5)
      && Py.Qltb 1 current_speed_kmh in
    let is_statistical_anomaly := Py.Qltb 3 z_score in
    let anomalous :=
      is_high_speed || is_very_low_speed || is_statistical_anomaly in
    let conf :=
      if is_statistical_anomaly then Py.min (z_score / 3) 1.0
      else if is_high_speed || is_very_low_speed then 0.8
      else 0.0 in
    let why :=
      if is_high_speed then
        ("Speed significantly higher than usual ("
         ++ Py.format_fixed 1 current_speed_kmh ++ " km/h vs avg "
         ++ Py.format_fixed 1 mean_speed ++ " km/h)")%string
      else if is_very_low_speed then
        ("Speed unusually low ("
         ++ Py.format_fixed 1 current_speed_kmh ++ " km/h vs avg "
         ++ Py.format_fixed 1 mean_speed ++ " km/h)")%string
      else if is_statistical_anomaly then
        ("Speed statistically anomalous (z-score: "
         ++ Py.format_fixed 2 z_score ++ ")")%string
      else "Speed within normal range" in
    mk_result anomalous conf why
              [ ("current_speed_kmh", current_speed_kmh);
                ("user_avg_speed_kmh", mean_speed);
                ("z_score", z_score) ].

Record DeviationResult : Type := mk_deviation {
  is_deviation : bool;
  is_major_deviation : option bool;
  deviation_confidence : Q;
  deviation_reason : string;
  distance_from_route_km : option Q;
  closest_route : option Route
}.

Definition no_route_patterns : DeviationResult :=
  mk_deviation false None 0.0 "No established route patterns" None None.

(** The loop of [detect_location_deviation]: [None] is the initial
    [float('inf')], below which every distance lies. *)
Definition nearest_route (current : latlng) (routes : list Route)
  : option (Q * Route) :=
  fold_left
    (fun acc route =>
       let distance := geodesic current (lat_lng (start_location route)) in
       match acc with
       | None => Some (distance, route)
       | Some (min_distance, _) =>
           if Py.Qltb distance min_distance then Some (distance, route)
           else acc
       end)
    routes None.

(** [detect_location_deviation]; the [planned_route] argument is not read.
    [get_user_profile] reads the clock once.  As in [detect_speed_anomaly]
    no statement of the body raises here. *)
Definition detect_location_deviation (st : Store) (utcnow : clock)
  (user : string) (current_location : latlng) : DeviationResult :=
  match get_user_profile st (utcnow 0%nat) user with
  | None => no_route_patterns
  | Some user_profile =>
      match common_routes user_profile with
      | [] => no_route_patterns
      | routes =>
          let minor_deviation_km := 2.0 in
          let major_deviation_km := 5.0 in
          match nearest_route current_location routes with
          | Some (min_distance, closest) =>
              let deviates := Py.Qltb minor_deviation_km min_distance in
              let major := Py.Qltb major_deviation_km min_distance in
              let conf := Py.min (min_distance / major_deviation_km) 1.0 in
              let why :=
                if major then
                  ("Major route deviation: " ++ Py.format_fixed 1 min_distance
                   ++ "km from nearest common route")%string
                else if deviates then
                  ("Minor route deviation: " ++ Py.format_fixed 1 min_distance
                   ++ "km from nearest common route")%string
                else "Following established route patterns" in
              mk_deviation deviates (Some major) conf why
                           (Some min_distance) (Some closest)
          | None =>
              (* [min_distance] still infinite: not reached, [routes] is
                 not empty *)
              mk_deviation true (Some true) 1.0
                "Major route deviation: infkm from nearest common route"
                None None
          end
      end
  end.

(** The filter loop of [detect_time_pattern_anomaly], [k] clock readings
    having been made. *)
Fixpoint similar_time_loop (utcnow : clock) (k : nat) (current_hour : Z)
  (historical_locations : list LocationSample)
  : result (list LocationSample) :=
  match historical_locations with
  | [] => Ok []
  | loc :: r =>
      loc_time <- as_datetime (created_or loc (utcnow k)) ;;
      rest <- similar_time_loop utcnow (S k) current_hour r ;;
      Ok (if (Z.abs (Datetime.hour loc_time - current_hour) <=? 2)%Z
          then loc :: rest else rest)
  end.

Definition detect_time_pattern_anomaly (st : Store) (utcnow : clock)
  (user : string) (current_time : datetime) (current_location : latlng)
  : AnomalyResult :=
  try_except
    (let historical_locations :=
       get_user_movement_patterns st (utcnow 0%nat) user 30 in
     let current_hour := Datetime.hour current_time in
     similar_time_locations <-
       similar_time_loop utcnow 1 current_hour historical_locations ;;
     if (length similar_time_locations <? 5)%nat then
       Ok (mk_result false 0.0
             "Insufficient historical data for time comparison" [])
     else
       let avg_lat :=
         Np.mean (map (fun loc => snd (loc_coordinates loc))
                      similar_time_locations) in
       let avg_lng :=
         Np.mean (map (fun loc => fst (loc_coordinates loc))
                      similar_time_locations) in
       let distance := geodesic current_location (avg_lat, avg_lng) in
       let distances_from_avg :=
         map (fun loc => geodesic (lat_lng (loc_coordinates loc))
                                  (avg_lat, avg_lng))
             similar_time_locations in
       let std_distance := np_std distances_from_avg in
       let z_score :=
         if Py.Qltb 0 std_distance then distance / std_distance else 0 in
       let anomalous := Py.Qltb 2.5 z_score in
       let conf := Py.min (z_score / 3) 1.0 in
       let why :=
         if anomalous then
           ("Location unusual for time " ++ Py.zfill 2 current_hour
            ++ ":00 (z-score: " ++ Py.format_fixed 2 z_score ++ ")")%string
         else "Normal location for this time" in
       Ok (mk_result anomalous conf why
                     [ ("distance_from_usual_km", distance);
                       ("z_score", z_score) ]))
    detection_error.

End WithLibs.

End AnomalyDetector.

(* ================================================================== *)
(** * ml_models/pattern_analyzer.py *)
(* ================================================================== *)

Module PatternAnalyzer.

Record Hotspot : Type := mk_hotspot {
  (** the number in the id ["hotspot_<cluster_id>"] *)
  cluster_id : Z;
  center : Q * Q;
  incident_count : nat;
  risk_score : Q;
  severity_distribution : list (string * nat);
  type_distribution : list (string * nat);
  radius_km : Q
}.

Inductive HotspotReport : Type :=
| HotspotError (error : string)
| Hotspots (hotspots : list Hotspot) (total_hotspots : nat)
           (noise_points : nat).

Definition severity_weights : list (string * Q) :=
  [ ("critical", 1.0); ("high", 0.8); ("medium", 0.5); ("low", 0.2) ].

(** [[x for x, label in zip(xs, labels) if label == cluster_id]] *)
Definition members {A : Type} (xs : list A) (labels : list Z) (id : Z)
  : list A :=
  map fst (filter (fun p => (snd p =? id)%Z) (combine xs labels)).

(** [sum(w.get(sev, 0.5) * count for sev, count in severity_counts.items())] *)
Definition weighted_count (severity_counts : list (string * nat)) : Q :=
  Py.sum (map (fun sc => Py.get_default String.eqb severity_weights (fst sc) 0.5
                         * inject_Z (Z.of_nat (snd sc))) severity_counts).

Section WithLibs.
Context {nl : NumLib} {cl : ClusterLib}.

Definition _calculate_cluster_radius (cluster_points : list (Q * Q)) : Q :=
  if (length cluster_points <? 2)%nat then 0
  else
    let center_lat := Np.mean (map fst cluster_points) in
    let center_lng := Np.mean (map snd cluster_points) in
    let distances :=
      map (fun p => np_sqrt ((fst p - center_lat) * (fst p - center_lat)
                             + (snd p - center_lng) * (snd p - center_lng)))
          cluster_points in
    let radius_degrees := np_percentile distances 90 in
    let radius_km := radius_degrees * 111.32 in
    Py.round radius_km 2.

(** The body of the loop over [set(clustering.labels_)] for one cluster. *)
Definition hotspot_of (coordinates : list (Q * Q))
  (incident_data : list Incident) (labels : list Z) (id : Z)
  : result Hotspot :=
  let cluster_points := members coordinates labels id in
  let cluster_incidents := members incident_data labels id in
  let center_lat := Np.mean (map fst cluster_points) in
  let center_lng := Np.mean (map snd cluster_points) in
  let count := length cluster_incidents in
  let severity_counts :=
    Py.count_by String.eqb (fun i => or_unknown (inc_severity i))
                cluster_incidents in
  let type_counts :=
    Py.count_by String.eqb (fun i => or_unknown (inc_type i))
                cluster_incidents in
  score <- Py.truediv (weighted_count severity_counts)
                      (inject_Z (Z.of_nat count)) ;;
  Ok {| cluster_id := id;
        center := (center_lat, center_lng);
        incident_count := count;
        risk_score := Py.round score 2;
        severity_distribution := severity_counts;
        type_distribution := type_counts;
        radius_km := _calculate_cluster_radius cluster_points |}.

(** The loop over [set(clustering.labels_)].  Python leaves the iteration
    order of a set unspecified; [ids] is that order. *)
Fixpoint hotspot_loop (coordinates : list (Q * Q))
  (incident_data : list Incident) (labels : list Z) (ids : list Z)
  : result (list Hotspot) :=
  match ids with
  | [] => Ok []
  | id :: ids' =>
      if (id =? -1)%Z then
        hotspot_loop coordinates incident_data labels ids'
      else
        h <- hotspot_of coordinates incident_data labels id ;;
        hs <- hotspot_loop coordinates incident_data labels ids' ;;
        Ok (h :: hs)
  end.

(** [set(labels)], visited in the order of first occurrence. *)
Fixpoint label_set (labels : list Z) (seen : list Z) : list Z :=
  match labels with
  | [] => []
  | l :: r =>
      if existsb (Z.eqb l) seen then label_set r seen
      else l :: label_set r (l :: seen)
  end.

(** The incidents that carry [location.coordinates]. *)
Definition located (incidents : list Incident) : list ((Q * Q) * Incident) :=
  flat_map (fun i => match inc_coordinates i with
                     | Some c => [((snd c, fst c), i)]
                     | None => []
                     end) incidents.

Definition _identify_hotspots (incidents : list Incident)
  : result HotspotReport :=
  if (length incidents <? 10)%nat then
    Ok (HotspotError "Insufficient data for hotspot analysis")
  else
    let coordinates := map fst (located incidents) in
    let incident_data := map snd (located incidents) in
    if (length coordinates <? 10)%nat then
      Ok (HotspotError "Insufficient location data")
    else
      let labels := dbscan_labels 0.005 5 coordinates in
      found <- hotspot_loop coordinates incident_data labels
                            (label_set labels []) ;;
      let ranked := Py.sort_desc risk_score found in
      Ok (Hotspots (firstn 10 ranked) (length found)
                   (length (filter (fun label => (label =? -1)%Z) labels))).

End WithLibs.

Record Predictions : Type := mk_predictions {
  next_7_days : list Z;
  trend_direction : string;
  trend_strength : Q;
  confidence : Q;
  expected_total_next_week : Z
}.

Inductive Forecast : Type :=
| ForecastError (error : string)
| ForecastOk (p : Predictions).

(** [incident['createdAt'].date()] *)
Definition incident_date (i : Incident) : result Z :=
  match inc_createdAt i with
  | Some t => Ok (Datetime.date t)
  | None => Raise KeyError
  end.

Fixpoint incident_dates (incidents : list Incident) : result (list Z) :=
  match incidents with
  | [] => Ok []
  | i :: r =>
      d <- incident_date i ;;
      ds <- incident_dates r ;;
      Ok (d :: ds)
  end.

(** The first half of [_generate_predictions]: the counts per day of the
    last 100 incidents, for the last 14 days that have any. *)
Definition daily_count_series (incidents : list Incident)
  : result (list nat) :=
  ds <- incident_dates (Py.lastn 100 incidents) ;;
  let daily_counts := Py.count_by Z.eqb (fun d : Z => d) ds in
  let dates := Py.lastn 14 (Py.sorted_Z (map fst daily_counts)) in
  Ok (map (fun date => Py.get_default Z.eqb daily_counts date O) dates).

(** The second half of [_generate_predictions], from [counts] on. *)
Definition forecast_from_counts (counts : list nat) : Forecast :=
  if (length counts <? 7)%nat then ForecastError "Insufficient recent data"
  else
    let ys := map Py.of_nat counts in
    let x := Np.arange (length counts) in
    let trend := Np.polyfit_slope x ys in
    let last_count := Py.of_nat (last counts O) in
    let predictions :=
      map (fun i => Z.max 0 (Py.int (last_count + trend * inject_Z i)))
          (Py.range 1 8 1) in
    let recent_trend :=
      Np.mean (Py.lastn 3 ys) - Np.mean (firstn 4 (Py.lastn 7 ys)) in
    let conf :=
      Py.max 0 (Py.min 1 (1 - Qabs recent_trend / Py.max (Np.mean ys) 1)) in
    ForecastOk
      {| next_7_days := predictions;
         trend_direction :=
           if Py.Qltb 0.1 trend then "increasing"
           else if Py.Qltb trend (-0.1) then "decreasing"
           else "stable";
         trend_strength := Qabs trend;
         confidence := Py.round conf 2;
         expected_total_next_week := fold_left Z.add predictions 0%Z |}.

Definition _generate_predictions (incidents : list Incident)
  : result Forecast :=
  if (length incidents <? 14)%nat
  then Ok (ForecastError "Insufficient data for predictions")
  else
    counts <- daily_count_series incidents ;;
    Ok (forecast_from_counts counts).

End PatternAnalyzer.

(* ================================================================== *)
(** * Stand-ins for the libraries *)
(* ================================================================== *)

(** Rational stand-ins for the third-party functions, used to run the
    model on concrete inputs.  They approximate the libraries; the
    theorems about the program hold for every implementation of the
    interfaces. *)
Module StandIn.

(** A flat-earth distance, 111.32 km per degree along both axes. *)
Definition planar_km (a b : latlng) : Q :=
  111.32 * (Qabs (fst a - fst b) + Qabs (snd a - snd b)).

Definition planar_geo : GeoLib.
Proof.
  refine {| geodesic := planar_km |}.
  intros a b. unfold planar_km.
  pose proof (Qabs_nonneg (fst a - fst b)).
  pose proof (Qabs_nonneg (snd a - snd b)).
  lra.
Defined.

Definition digit (c : ascii) : option Z :=
  let n := nat_of_ascii c in
  if ((48 <=? n) && (n <=? 57))%nat then Some (Z.of_nat (n - 48)) else None.

Fixpoint digits (s : string) (acc : Z) : option Z :=
  match s with
  | EmptyString => Some acc
  | String c r =>
      match digit c with
      | Some d => digits r (acc * 10 + d)%Z
      | None => None
      end
  end.

(** Timestamps written as a count of seconds, e.g. ["86400"]. *)
Definition seconds_text (s : string) : result datetime :=
  match s, digits s 0 with
  | String _ _, Some n => Ok (naive (inject_Z n))
  | _, _ => Raise ValueError
  end.

(** ["HH:MM"] with two digits each. *)
Definition hh_mm (s : string) : result datetime :=
  match s with
  | String h1 (String h2 (String ":" (String m1 (String m2 EmptyString)))) =>
      match digit h1, digit h2, digit m1, digit m2 with
      | Some a, Some b, Some c, Some d =>
          if ((a * 10 + b <? 24) && (c * 10 + d <? 60))%Z
          then Ok (naive (inject_Z ((a * 10 + b) * 3600 + (c * 10 + d) * 60)))
          else Raise ValueError
      | _, _, _, _ => Raise ValueError
      end
  | _ => Raise ValueError
  end.

Definition text_time : TimeLib :=
  {| fromisoformat := seconds_text; strptime_HM := hh_mm |}.

(** Square root to six decimals, rounded down. *)
Definition sqrt6 (x : Q) : Q :=
  Z.sqrt (Qfloor (x * 1000000000000)) # 1000000.

Fixpoint insert_Q (x : Q) (l : list Q) : list Q :=
  match l with
  | [] => [x]
  | y :: r => if Qle_bool x y then x :: l else y :: insert_Q x r
  end.

(** Percentile by linear interpolation between the closest ranks. *)
Definition percentile (l : list Q) (p : Q) : Q :=
  let s := fold_right insert_Q [] l in
  let rank := p / 100 * (Py.of_nat (length s) - 1) in
  let lo := Qfloor rank in
  let a := nth (Z.to_nat lo) s 0 in
  let b := nth (Z.to_nat lo + 1) s a in
  a + (rank - inject_Z lo) * (b - a).

Definition pi : Q := 355 # 113.

Definition sin5 (x : Q) : Q := x - x * x * x / 6 + x * x * x * x * x / 120.

Definition cos4 (x : Q) : Q := 1 - x * x / 2 + x * x * x * x / 24.

(** The angle of the vector [(x, y)], from [atan t ~ t / (1 + 0.28 t^2)]
    on the octant nearest to an axis. *)
Definition atan2_approx (y x : Q) : Q :=
  if Qeq_bool x 0 && Qeq_bool y 0 then 0
  else if Qle_bool (Qabs y) (Qabs x) then
    let t := y / x in
    let a := t / (1 + 0.28 * t * t) in
    if Qle_bool 0 x then a
    else if Qle_bool 0 y then a + pi else a - pi
  else
    let t := x / y in
    let a := t / (1 + 0.28 * t * t) in
    if Qle_bool 0 y then pi / 2 - a else - (pi / 2) - a.

Definition rational_numpy : NumLib.
Proof.
  refine {| np_std := fun l => sqrt6 (Np.var l);
            np_percentile := percentile;
            np_sqrt := sqrt6;
            np_radians := fun d => d * pi / 180;
            np_degrees := fun r => r * 180 / pi;
            np_sin := sin5;
            np_cos := cos4;
            np_arctan2 := atan2_approx |}.
  intro l. unfold sqrt6, Qle. simpl. rewrite Z.mul_1_r. apply Z.sqrt_nonneg.
Defined.

Definition near (eps : Q) (p q : Q * Q) : bool :=
  Qle_bool ((fst p - fst q) * (fst p - fst q)
            + (snd p - snd q) * (snd p - snd q)) (eps * eps).

Definition is_core (eps : Q) (min_samples : nat) (points : list (Q * Q))
  (p : Q * Q) : bool :=
  (min_samples <=? length (filter (near eps p) points))%nat.

(** The index of the first core point within [eps] of [p], or [-1]. *)
Fixpoint first_core (eps : Q) (min_samples : nat) (points : list (Q * Q))
  (candidates : list (Q * Q)) (i : Z) (p : Q * Q) : Z :=
  match candidates with
  | [] => (-1)%Z
  | c :: r =>
      if near eps p c && is_core eps min_samples points c then i
      else first_core eps min_samples points r (i + 1)%Z p
  end.

(** A one-pass clustering: a point takes the index of the first core
    point in its neighbourhood as label, and is noise when there is
    none. *)
Definition one_pass_labels (eps : Q) (min_samples : nat)
  (points : list (Q * Q)) : list Z :=
  map (first_core eps min_samples points points 0%Z) points.

Definition one_pass_clusters : ClusterLib :=
  {| dbscan_labels := one_pass_labels;
     dbscan_labels_length :=
       fun eps min_samples points =>
         length_map (first_core eps min_samples points points 0%Z) points |}.

End StandIn.

(** A store with no documents, a clock stopped at 03:00 of day 0 and a
    constant random source, for running the model. *)
Module Sample.

Definition empty_store : Store :=
  {| find_incidents_near := fun _ _ _ => Ok [];
     find_incidents_since := fun _ _ => Ok [];
     find_user_locations := fun _ _ => Ok [];
     find_user := fun _ => Ok None |}.

Definition at_3am : clock := fun _ => naive 10800.

Definition fixed_rng : RiskPredictor.Rng :=
  {| RiskPredictor.exponential := fun scale => scale;
     RiskPredictor.uniform := fun lo hi => (lo + hi) / 2 |}.

Definition delhi : latlng := (28.6139, 77.2090).
Definition rohini : latlng := (28.7041, 77.1025).

(** A walk northwards from Delhi: sample [i] is taken [i] minutes after
    the start, 0.001 degrees further north, at 1.5 m/s. *)
Definition step (i : nat) : LocationSample :=
  {| loc_coordinates := (77.2090, 28.6139 + Py.of_nat i * 0.001);
     loc_createdAt := Some (TDatetime (naive (Py.of_nat i * 60)));
     loc_speed := Some 1.5 |}.

Definition walk (n : nat) : list LocationSample := map step (seq 0 n).

(** Two samples a kilometre or so apart, the second without [createdAt]. *)
Definition half_timed : list LocationSample :=
  [ {| loc_coordinates := (77.2090, 28.6139);
       loc_createdAt := Some (TDatetime (naive 0));
       loc_speed := None |};
    {| loc_coordinates := (77.2090, 28.6239);
       loc_createdAt := None;
       loc_speed := None |} ].

(** Clocks stopped 10 and 20 seconds after the epoch. *)
Definition at_10s : clock := fun _ => naive 10.
Definition at_20s : clock := fun _ => naive 20.

(** Incident [i] of a cluster of ten at the same street corner, of
    alternating severity. *)
Definition corner_incident (i : nat) : Incident :=
  {| inc_coordinates := Some (77.2090, 28.6139 + Py.of_nat i * 0.0001);
     inc_severity := Some (if Nat.even i then "high" else "low");
     inc_type := Some "panic";
     inc_createdAt := Some (naive (Py.of_nat i * 3600)) |}.

Definition corner : list Incident := map corner_incident (seq 0 10).

(** An incident at noon of the given day. *)
Definition incident_on (day : nat) : Incident :=
  {| inc_coordinates := None;
     inc_severity := Some "medium";
     inc_type := Some "accident";
     inc_createdAt := Some (naive (Py.of_nat day * 86400 + 43200)) |}.

(** A week with two incidents on each of its first six days and three on
    the seventh, in the order they happened. *)
Definition quiet_week : list Incident :=
  flat_map (fun day => repeat (incident_on day) (if (day <? 6)%nat then 2 else 3))
           (seq 0 7).

(** A fortnight with [d] incidents on its day [d], for [d] from 1 to 14,
    in the order they happened. *)
Definition growing_fortnight : list Incident :=
  flat_map (fun day => repeat (incident_on day) day) (seq 1 14).

(** A store whose every user has the first 12 samples of the walk. *)
Definition walker_store : Store :=
  {| find_incidents_near := fun _ _ _ => Ok [];
     find_incidents_since := fun _ _ => Ok [];
     find_user_locations := fun _ _ => Ok (walk 12);
     find_user := fun u => Ok (Some (mk_user u)) |}.

End Sample.

(* ================================================================== *)
(** * Notions of the specification *)
(* ================================================================== *)

Module Notions.



(** A sample that carries its [createdAt] timestamp. *)
Definition timestamped (l : LocationSample) : Prop :=
  loc_createdAt l <> None.

(** The names of the movement features, in the order of the feature map. *)
Definition feature_names : list string :=
  [ "avg_speed"; "max_speed"; "speed_variance"; "total_distance";
    "avg_time_interval"; "max_time_gap"; "num_stops"; "direction_changes" ].

(** A list of hotspots in descending order of risk score. *)
Definition ranked (hs : list PatternAnalyzer.Hotspot) : Prop :=
  StronglySorted
    (fun a b => PatternAnalyzer.risk_score b <= PatternAnalyzer.risk_score a)
    hs.

(** A hotspot of a clustering with the given labels: the cluster of a
    label that occurs and is not the noise label, counting the points of
    that label. *)
Definition hotspot_sound (labels : list Z) (h : PatternAnalyzer.Hotspot)
  : Prop :=
  PatternAnalyzer.cluster_id h <> (-1)%Z /\
  In (PatternAnalyzer.cluster_id h) labels /\
  PatternAnalyzer.incident_count h
  = count_occ Z.eq_dec labels (PatternAnalyzer.cluster_id h).



(** The sum of the counts of a counting dict. *)
Definition dict_total {K : Type} (d : list (K * nat)) : nat :=
  fold_right (fun kv acc => (snd kv + acc)%nat) O d.



End Notions.



(* ================================================================== *)
(** * ml_models/risk_predictor.py: advice and emergency response *)
(* ================================================================== *)

Module RiskAdvice.

Definition get_recommendations (risk_score : Q) : list string :=
  if Qle_bool 0.8 risk_score then
    [ "Consider postponing travel if possible";
      "Share your location with emergency contacts";
      "Use main roads and avoid isolated areas";
      "Travel in groups if possible";
      "Keep emergency numbers ready" ]
  else if Qle_bool 0.6 risk_score then
    [ "Stay alert and aware of surroundings";
      "Share your location with contacts";
      "Avoid isolated areas";
      "Keep phone charged and accessible" ]
  else if Qle_bool 0.4 risk_score then
    [ "Exercise normal caution";
      "Keep emergency contacts updated";
      "Stay on well-lit paths" ]
  else
    [ "Safe travel conditions";
      "Maintain basic safety awareness" ].

End RiskAdvice.

Module EmergencyResponse.

(** A resource of the request.  Every key is read with [resource[key]],
    which raises when the key is absent. *)
Record Resource : Type := mk_resource {
  res_id : option string;
  res_type : option string;
  res_latitude : option Q;
  res_longitude : option Q;
  res_available : option bool
}.

Record Priority : Type := mk_priority {
  resource_id : string;
  resource_type : string;
  priority_score : Q;
  estimated_arrival_time : Q;
  recommendation : string
}.

Record Factors : Type := mk_factors {
  incident_severity : string;
  incident_type : string;
  available_resources_count : nat
}.

Inductive Optimization : Type :=
| OptimizationError (error : string)
| Optimized (recommended_resources : list Priority)
            (estimated_response_time : option Q)
            (optimization_factors : Factors).

Definition capability_matrix : list (string * list (string * Q)) :=
  [ ("ambulance",
     [("medical", 1.0); ("accident", 0.9); ("panic", 0.7); ("fire", 0.3)]);
    ("police",
     [("panic", 1.0); ("crime", 1.0); ("accident", 0.8); ("medical", 0.4)]);
    ("fire_department",
     [("fire", 1.0); ("accident", 0.8); ("medical", 0.6); ("panic", 0.5)]);
    ("rescue_team",
     [("accident", 1.0); ("medical", 0.8); ("panic", 0.9); ("fire", 0.7)]) ].

Definition _calculate_capability_score (resource : Resource)
  (incident_type : string) : Q :=
  let resource_type :=
    match res_type resource with
    | Some t => t
    | None => "unknown"
    end in
  Py.get_default String.eqb
    (Py.get_default String.eqb capability_matrix resource_type [])
    incident_type 0.5.

(** [resource[key]] *)
Definition item {A : Type} (field : option A) : result A :=
  match field with
  | Some v => Ok v
  | None => Raise KeyError
  end.

Section WithGeo.
Context {geo : GeoLib}.

(** The body of the loop of [optimize_emergency_response]. *)
Definition priority_of (incident_location : latlng) (incident_type : string)
  (resource : Resource) : result Priority :=
  latitude <- item (res_latitude resource) ;;
  longitude <- item (res_longitude resource) ;;
  let distance := geodesic incident_location (latitude, longitude) in
  let distance_score := Py.max 0 (1 - distance / 50) in
  let capability_score := _calculate_capability_score resource incident_type in
  available <- item (res_available resource) ;;
  let availability_score := if (available : bool) then 1.0 else 0.1 in
  let score := distance_score * 0.4 + capability_score * 0.4
               + availability_score * 0.2 in
  id <- item (res_id resource) ;;
  type <- item (res_type resource) ;;
  Ok {| resource_id := id;
        resource_type := type;
        priority_score := score;
        estimated_arrival_time := distance / 60 * 60;
        recommendation :=
          if Py.Qltb 0.7 score then "primary" else "secondary" |}.

Fixpoint priorities_of (incident_location : latlng) (incident_type : string)
  (available_resources : list Resource) : result (list Priority) :=
  match available_resources with
  | [] => Ok []
  | resource :: rest =>
      p <- priority_of incident_location incident_type resource ;;
      ps <- priorities_of incident_location incident_type rest ;;
      Ok (p :: ps)
  end.

Definition optimize_emergency_response (incident_location : latlng)
  (incident_type severity : string) (available_resources : list Resource)
  : Optimization :=
  try_except
    (priorities <- priorities_of incident_location incident_type
                                 available_resources ;;
     let priorities := Py.sort_desc priority_score priorities in
     Ok (Optimized
           (firstn 3 priorities)
           (match priorities with
            | first :: _ => Some (estimated_arrival_time first)
            | [] => None
            end)
           {| incident_severity := severity;
              incident_type := incident_type;
              available_resources_count := length available_resources |}))
    (OptimizationError "Optimization failed").

End WithGeo.

End EmergencyResponse.

(* ================================================================== *)
(** * ml_models/pattern_analyzer.py: the trend report *)
(* ================================================================== *)

(** The calendar of the standard library: [d.isocalendar()[1]], the ISO
    week number of a datetime. *)
Class CalendarLib : Type := {
  iso_week : datetime -> Z
}.

Module TrendAnalysis.

(** [incident['createdAt']] *)
Definition created (i : Incident) : result datetime :=
  match inc_createdAt i with
  | Some t => Ok t
  | None => Raise KeyError
  end.

(** The [createdAt] of every incident, as the loops read them: the first
    incident without one raises. *)
Fixpoint timestamps (incidents : list Incident) : result (list datetime) :=
  match incidents with
  | [] => Ok []
  | i :: r =>
      t <- created i ;;
      ts <- timestamps r ;;
      Ok (t :: ts)
  end.

(** [max(d.items(), key=lambda x: x[1])]: the first entry of greatest
    count. *)
Fixpoint max_count_from {K : Type} (best : K * nat) (d : list (K * nat))
  : K * nat :=
  match d with
  | [] => best
  | kv :: r =>
      if (snd best <? snd kv)%nat then max_count_from kv r
      else max_count_from best r
  end.

(** [max(d.items(), key=lambda x: x[1])[0] if d else dflt] *)
Definition most_common {K : Type} (d : list (K * nat)) (dflt : K) : K :=
  match d with
  | [] => dflt
  | kv :: r => fst (max_count_from kv r)
  end.

Record Summary : Type := mk_summary {
  total_incidents : nat;
  daily_average : Q;
  severity_distribution : list (string * nat);
  type_distribution : list (string * nat);
  most_common_severity : string;
  most_common_type : string
}.

(** [_analyze_summary_stats]; [utcnow] is its reading of the clock.
    [(a - b).days] is the floor of the difference in days. *)
Definition _analyze_summary_stats (utcnow : datetime)
  (incidents : list Incident) : result Summary :=
  let total := length incidents in
  let severity_counts :=
    Py.count_by String.eqb (fun i => or_unknown (inc_severity i)) incidents in
  let type_counts :=
    Py.count_by String.eqb (fun i => or_unknown (inc_type i)) incidents in
  average <-
    match incidents with
    | [] => Ok 0
    | first :: _ =>
        last_created <- created (last incidents first) ;;
        delta <- sub_seconds utcnow last_created ;;
        let date_range := (Qfloor (delta / 86400) + 1)%Z in
        Ok (Py.of_nat total / inject_Z (Z.max date_range 1))
    end ;;
  Ok {| total_incidents := total;
        daily_average := Py.round average 2;
        severity_distribution := severity_counts;
        type_distribution := type_counts;
        most_common_severity := most_common severity_counts "unknown";
        most_common_type := most_common type_counts "unknown" |}.

Record Temporal : Type := mk_temporal {
  hourly_distribution : list (Z * nat);
  daily_distribution : list (Z * nat);
  weekly_trend : list (Z * nat);
  peak_hour : Z;
  peak_day : string;
  night_incidents : nat;
  day_incidents : nat
}.

Definition day_names : list string :=
  [ "Monday"; "Tuesday"; "Wednesday"; "Thursday"; "Friday"; "Saturday";
    "Sunday" ].

(** [sum(hourly_counts[h] for h in range(lo, hi))] *)
Definition sum_hours (hourly_counts : list (Z * nat)) (lo hi : Z) : nat :=
  fold_left Nat.add
    (map (fun h => Py.get_default Z.eqb hourly_counts h O) (Py.range lo hi 1))
    O.

Definition _analyze_temporal_trends {cal : CalendarLib}
  (incidents : list Incident) : result Temporal :=
  ts <- timestamps incidents ;;
  let hourly_counts := Py.count_by Z.eqb Datetime.hour ts in
  let daily_counts := Py.count_by Z.eqb Datetime.weekday ts in
  let weekly_counts := Py.count_by Z.eqb iso_week ts in
  let peak_hour := most_common hourly_counts 0%Z in
  let peak_day := most_common daily_counts 0%Z in
  Ok {| hourly_distribution := hourly_counts;
        daily_distribution := daily_counts;
        weekly_trend := weekly_counts;
        peak_hour := peak_hour;
        peak_day := if (peak_day <? 7)%Z
                    then nth (Z.to_nat peak_day) day_names "Unknown"
                    else "Unknown";
        night_incidents :=
          (sum_hours hourly_counts 22 24 + sum_hours hourly_counts 0 6)%nat;
        day_incidents := sum_hours hourly_counts 6 22 |}.

Record BoundingBox : Type := mk_box {
  min_lat : Q;
  max_lat : Q;
  min_lng : Q;
  max_lng : Q
}.

Record SpatialStats : Type := mk_spatial {
  center : Q * Q;
  bounding_box : BoundingBox;
  lat_range : Q;
  lng_range : Q;
  cluster_count : nat;
  incident_density : Q
}.

Inductive Spatial : Type :=
| SpatialEmpty
| SpatialError (error : string)
| SpatialOf (stats : SpatialStats).

(** [a.min()] of a non-empty column *)
Definition amin (l : list Q) : Q :=
  match l with
  | [] => 0
  | x :: r => fold_left Qmin r x
  end.

Definition _analyze_spatial_trends {cl : ClusterLib}
  (incidents : list Incident) : Spatial :=
  match incidents with
  | [] => SpatialEmpty
  | _ =>
      let coordinates := map fst (PatternAnalyzer.located incidents) in
      if (length coordinates <? 5)%nat
      then SpatialError "Insufficient location data"
      else
        let lats := map fst coordinates in
        let lngs := map snd coordinates in
        let lo_lat := amin lats in
        let hi_lat := Np.amax lats in
        let lo_lng := amin lngs in
        let hi_lng := Np.amax lngs in
        let center_lat := (lo_lat + hi_lat) / 2 in
        let center_lng := (lo_lng + hi_lng) / 2 in
        let lat_spread := hi_lat - lo_lat in
        let lng_spread := hi_lng - lo_lng in
        let n_clusters :=
          if (10 <=? length coordinates)%nat then
            let labels := dbscan_labels 0.01 3 coordinates in
            (length (PatternAnalyzer.label_set labels [])
             - (if existsb (Z.eqb (-1)) labels then 1 else 0))%nat
          else O in
        SpatialOf
          {| center := (center_lat, center_lng);
             bounding_box := mk_box lo_lat hi_lat lo_lng hi_lng;
             lat_range := lat_spread;
             lng_range := lng_spread;
             cluster_count := n_clusters;
             incident_density :=
               Py.of_nat (length incidents)
               / Py.max (lat_spread * lng_spread) 0.001 |}
  end.

(** A [defaultdict(lambda: defaultdict(int))] keyed by day, then by
    severity or type. *)
Definition timeline_dict : Type := list (Z * list (string * nat)).

(** [timeline[date][key] += 1] *)
Definition timeline_incr (timeline : timeline_dict) (date : Z) (key : string)
  : timeline_dict :=
  Py.update Z.eqb timeline date []
            (fun inner => Py.update String.eqb inner key O S).

(** The value of [timeline[date][key]] *)
Definition timeline_get (timeline : timeline_dict) (date : Z) (key : string)
  : nat :=
  Py.get_default String.eqb (Py.get_default Z.eqb timeline date []) key O.

(** The effect of reading [timeline[date][key]]: a default dict stores
    the default, 0, under a key it did not have. *)
Definition timeline_touch (timeline : timeline_dict) (date : Z) (key : string)
  : timeline_dict :=
  Py.update Z.eqb timeline date []
            (fun inner => Py.update String.eqb inner key O (fun v => v)).

(** [(incident['createdAt'].date(), label(incident))] for every incident *)
Fixpoint dated (label : Incident -> string) (incidents : list Incident)
  : result (list (Z * string)) :=
  match incidents with
  | [] => Ok []
  | i :: r =>
      d <- PatternAnalyzer.incident_date i ;;
      ds <- dated label r ;;
      Ok ((d, label i) :: ds)
  end.

Definition build_timeline (entries : list (Z * string)) : timeline_dict :=
  fold_left (fun t e => timeline_incr t (fst e) (snd e)) entries [].

(** [sum(timeline[date][key] for date in week)] *)
Definition week_count (timeline : timeline_dict) (week : list Z)
  (key : string) : nat :=
  fold_left Nat.add (map (fun date => timeline_get timeline date key) week) O.

Definition touch_week (timeline : timeline_dict) (week : list Z)
  (key : string) : timeline_dict :=
  fold_left (fun t date => timeline_touch t date key) week timeline.

Record SeverityTrends : Type := mk_severity_trends {
  (** keyed by day number instead of by [str(date)] *)
  severity_timeline : timeline_dict;
  trend : string;
  total_critical : nat;
  total_high : nat;
  total_medium : nat;
  total_low : nat
}.

(** [sum(incident.get('severity') == s for incident in incidents)] *)
Definition count_severity (s : string) (incidents : list Incident) : nat :=
  length (filter (fun i => match inc_severity i with
                           | Some v => String.eqb v s
                           | None => false
                           end) incidents).

Definition _analyze_severity_trends (incidents : list Incident)
  : result SeverityTrends :=
  entries <- dated (fun i => or_unknown (inc_severity i)) incidents ;;
  let timeline := build_timeline entries in
  let dates := Py.sorted_Z (map fst timeline) in
  let '(direction, timeline) :=
    if (7 <=? length dates)%nat then
      let first_week := firstn 7 dates in
      let last_week := Py.lastn 7 dates in
      let first_week_critical := week_count timeline first_week "critical" in
      let timeline := touch_week timeline first_week "critical" in
      let last_week_critical := week_count timeline last_week "critical" in
      let timeline := touch_week timeline last_week "critical" in
      (if Py.Qltb (Py.of_nat first_week_critical * 1.5)
                  (Py.of_nat last_week_critical)
       then "increasing_severity"
       else if Py.Qltb (Py.of_nat last_week_critical)
                       (Py.of_nat first_week_critical * 0.5)
            then "decreasing_severity"
            else "stable_severity",
       timeline)
    else ("insufficient_data", timeline) in
  Ok {| severity_timeline := timeline;
        trend := direction;
        total_critical := count_severity "critical" incidents;
        total_high := count_severity "high" incidents;
        total_medium := count_severity "medium" incidents;
        total_low := count_severity "low" incidents |}.

Record TypeTrends : Type := mk_type_trends {
  (** the ['type_distribution'] entry *)
  type_counts : list (string * nat);
  growth_rates : list (string * Q);
  (** the ['timeline'] entry, keyed by day number instead of by
      [str(date)] *)
  type_timeline : timeline_dict;
  fastest_growing : option string
}.

(** [max(d.items(), key=lambda x: x[1])] for float values *)
Fixpoint max_value_from {K : Type} (best : K * Q) (d : list (K * Q))
  : K * Q :=
  match d with
  | [] => best
  | kv :: r =>
      if Py.Qltb (snd best) (snd kv) then max_value_from kv r
      else max_value_from best r
  end.

(** The loop of [_analyze_type_trends] over [type_counts.keys()]. *)
Fixpoint growth_loop (dates : list Z) (types : list string)
  (timeline : timeline_dict) : list (string * Q) * timeline_dict :=
  match types with
  | [] => ([], timeline)
  | incident_type :: rest =>
      let first_week := firstn 7 dates in
      let last_week := Py.lastn 7 dates in
      let first_week_count := week_count timeline first_week incident_type in
      let timeline := touch_week timeline first_week incident_type in
      let last_week_count := week_count timeline last_week incident_type in
      let timeline := touch_week timeline last_week incident_type in
      let '(rates, timeline) := growth_loop dates rest timeline in
      (if (0 <? first_week_count)%nat then
         let growth_rate :=
           (Py.of_nat last_week_count - Py.of_nat first_week_count)
           / Py.of_nat first_week_count * 100 in
         (incident_type, Py.round growth_rate 1) :: rates
       else rates, timeline)
  end.

Definition _analyze_type_trends (incidents : list Incident)
  : result TypeTrends :=
  entries <- dated (fun i => or_unknown (inc_type i)) incidents ;;
  let counts :=
    Py.count_by String.eqb (fun i => or_unknown (inc_type i)) incidents in
  let timeline := build_timeline entries in
  let dates := Py.sorted_Z (map fst timeline) in
  let '(rates, timeline) :=
    if (7 <=? length dates)%nat
    then growth_loop dates (map fst counts) timeline
    else ([], timeline) in
  Ok {| type_counts := counts;
        growth_rates := rates;
        type_timeline := timeline;
        fastest_growing :=
          match rates with
          | [] => None
          | kv :: r => Some (fst (max_value_from kv r))
          end |}.

Record Recommendation : Type := mk_recommendation {
  (** the ['type'] entry *)
  kind : string;
  priority : string;
  message : string;
  data : list (string * Q)
}.

(** [a / b] on two ints *)
Definition share (a b : nat) : result Q :=
  Py.truediv (Py.of_nat a) (Py.of_nat b).

Definition _generate_recommendations (incidents : list Incident)
  : result (list Recommendation) :=
  ts <- timestamps incidents ;;
  let hourly_counts := Py.count_by Z.eqb Datetime.hour ts in
  let total := length incidents in
  temporal <-
    match hourly_counts with
    | [] => Ok []
    | _ =>
        let peak := most_common hourly_counts 0%Z in
        let night :=
          (sum_hours hourly_counts 22 24 + sum_hours hourly_counts 0 6)%nat in
        night_share <- share night total ;;
        Ok ((if Py.Qltb 0.3 night_share then
               [ {| kind := "temporal";
                    priority := "high";
                    message := "High nighttime incident rate detected. Consider increased night patrols.";
                    data := [("night_percentage",
                              Py.round (night_share * 100) 1)] |} ]
             else [])
            ++ (if existsb (Z.eqb peak) [17; 18; 19]%Z then
                  [ {| kind := "temporal";
                       priority := "medium";
                       message := "Peak incidents during evening hours. Focus resources during 5-7 PM.";
                       data := [("peak_hour", inject_Z peak)] |} ]
                else []))%list
    end ;;
  let critical_count := count_severity "critical" incidents in
  critical_share <- share critical_count total ;;
  let severity :=
    if Py.Qltb 0.15 critical_share then
      [ {| kind := "severity";
           priority := "critical";
           message := "High rate of critical incidents. Review emergency response protocols.";
           data := [("critical_percentage",
                     Py.round (critical_share * 100) 1)] |} ]
    else [] in
  let counts :=
    Py.count_by String.eqb (fun i => or_unknown (inc_type i)) incidents in
  panic_share <- share (Py.get_default String.eqb counts "panic" O) total ;;
  let types :=
    if Py.Qltb 0.2 panic_share then
      [ {| kind := "incident_type";
           priority := "high";
           message := "High rate of panic alerts. Consider user education on proper panic button usage.";
           data := [("panic_percentage", Py.round (panic_share * 100) 1)] |} ]
    else [] in
  Ok (temporal ++ severity ++ types)%list.

Record TrendReport : Type := mk_report {
  summary : Summary;
  temporal_trends : Temporal;
  spatial_trends : Spatial;
  severity_trends : SeverityTrends;
  type_trends : TypeTrends;
  hotspots : PatternAnalyzer.HotspotReport;
  predictions : PatternAnalyzer.Forecast;
  recommendations : list Recommendation
}.

Inductive Trends : Type :=
| TrendsError (error : string) (incident_count : option nat)
| TrendsOf (report : TrendReport).

(** [analyze_trends].  [days] is the outcome of
    [int(time_range.replace('d', ''))] and [location], when the argument
    is not empty, that of [map(float, location.split(','))], either of
    which may raise.  [utcnow 0] is read by the store query and [utcnow 1]
    by the summary.  The assignment to [self.last_analyzed] is left out. *)
Definition analyze_trends {nl : NumLib} {cl : ClusterLib} {cal : CalendarLib}
  (st : Store) (utcnow : clock) (days : result Z)
  (location : option (result (Q * Q))) : Trends :=
  try_except
    (days <- days ;;
     incidents <-
       match location with
       | Some parsed =>
           lat_lng <- parsed ;;
           let lat := fst lat_lng in
           let lng := snd lat_lng in
           Ok (get_historical_incidents st (utcnow 0%nat) days
                 (Some ((lng - 0.1, lat - 0.1), (lng + 0.1, lat + 0.1))))
       | None => Ok (get_historical_incidents st (utcnow 0%nat) days None)
       end ;;
     if (length incidents <? 10)%nat then
       Ok (TrendsError "Insufficient data for trend analysis"
                       (Some (length incidents)))
     else
       summary <- _analyze_summary_stats (utcnow 1%nat) incidents ;;
       temporal <- _analyze_temporal_trends incidents ;;
       let spatial := _analyze_spatial_trends incidents in
       severity <- _analyze_severity_trends incidents ;;
       types <- _analyze_type_trends incidents ;;
       spots <- PatternAnalyzer._identify_hotspots incidents ;;
       forecast <- PatternAnalyzer._generate_predictions incidents ;;
       advice <- _generate_recommendations incidents ;;
       Ok (TrendsOf
             {| summary := summary;
                temporal_trends := temporal;
                spatial_trends := spatial;
                severity_trends := severity;
                type_trends := types;
                hotspots := spots;
                predictions := forecast;
                recommendations := advice |}))
    (TrendsError "Trend analysis failed" None).

End TrendAnalysis.

(* ================================================================== *)
(** * Further notions *)
(* ================================================================== *)

Module Notions2.

(** The rank of a risk level, from "low" to "critical". *)
Definition level_rank (level : string) : nat :=
  if String.eqb level "critical" then 3
  else if String.eqb level "high" then 2
  else if String.eqb level "medium" then 1
  else 0.

(** A resource that has all five keys. *)
Definition complete (r : EmergencyResponse.Resource) : Prop :=
  EmergencyResponse.res_id r <> None /\
  EmergencyResponse.res_type r <> None /\
  EmergencyResponse.res_latitude r <> None /\
  EmergencyResponse.res_longitude r <> None /\
  EmergencyResponse.res_available r <> None.



(** The samples of a request for an emergency response. *)
Definition ambulance_nearby : EmergencyResponse.Resource :=
  {| EmergencyResponse.res_id := Some "amb-1";
     EmergencyResponse.res_type := Some "ambulance";
     EmergencyResponse.res_latitude := Some 28.62;
     EmergencyResponse.res_longitude := Some 77.21;
     EmergencyResponse.res_available := Some true |}.


Definition untyped_resource : EmergencyResponse.Resource :=
  {| EmergencyResponse.res_id := Some "x-0";
     EmergencyResponse.res_type := None;
     EmergencyResponse.res_latitude := Some 28.62;
     EmergencyResponse.res_longitude := Some 77.21;
     EmergencyResponse.res_available := Some true |}.

(** A scaler that changes nothing with a regressor that always predicts
    0.42, and one whose prediction raises. *)
Definition steady_regressor : RiskPredictor.Regressor :=
  {| RiskPredictor.transform := fun row => Ok row;
     RiskPredictor.predict := fun _ => Ok 0.42 |}.

Definition unfitted_regressor : RiskPredictor.Regressor :=
  {| RiskPredictor.transform := fun row => Ok row;
     RiskPredictor.predict := fun _ => Raise LibraryError |}.

(** A store whose every query fails. *)
Definition failing_store : Store :=
  {| find_incidents_near := fun _ _ _ => Raise LibraryError;
     find_incidents_since := fun _ _ => Raise LibraryError;
     find_user_locations := fun _ _ => Raise LibraryError;
     find_user := fun _ => Raise LibraryError |}.

(** Three samples of the walk, the second with a timezone-aware
    timestamp. *)
Definition mixed_zones : list LocationSample :=
  [ Sample.step 0;
    {| loc_coordinates := (77.2090, 28.6149);
       loc_createdAt := Some (TDatetime (mk_datetime 60 (Some 0)));
       loc_speed := None |};
    Sample.step 2 ].

(** An incident that has its [createdAt]. *)
Definition timestamped (i : Incident) : Prop := inc_createdAt i <> None.

(** Two datetimes that can be subtracted: both naive or both aware. *)
Definition comparable (a b : datetime) : Prop :=
  utcoffset a = None <-> utcoffset b = None.

(** The days on which the incidents happened, one per incident that has
    its [createdAt]. *)
Definition days_of (incidents : list Incident) : list Z :=
  flat_map (fun i => match inc_createdAt i with
                     | Some t => [Datetime.date t]
                     | None => []
                     end) incidents.

(** The number of different days on which incidents happened. *)
Definition distinct_days (incidents : list Incident) : nat :=
  length (nodup Z.eq_dec (days_of incidents)).

(** The number of incidents of a day that carry a label. *)
Definition tally (label : Incident -> string) (incidents : list Incident)
  (date : Z) (key : string) : nat :=
  length (filter (fun i => match inc_createdAt i with
                           | Some t => (Datetime.date t =? date)%Z
                                       && String.eqb (label i) key
                           | None => false
                           end) incidents).

(** The number of incidents whose field, read by [incident.get], is the
    given string. *)
Definition count_where (field : Incident -> option string) (value : string)
  (incidents : list Incident) : nat :=
  length (filter (fun i => match field i with
                           | Some v => String.eqb v value
                           | None => false
                           end) incidents).

(** The number of incidents in an hour of the day. *)
Definition in_hour (incidents : list Incident) (h : Z) : nat :=
  length (filter (fun i => match inc_createdAt i with
                           | Some t => (h =? Datetime.hour t)%Z
                           | None => false
                           end) incidents).

(** The number of incidents in the night hours, 22:00 to 5:59. *)
Definition at_night (incidents : list Incident) : nat :=
  length (filter (fun i => match inc_createdAt i with
                           | Some t => (22 <=? Datetime.hour t)%Z
                                       || (Datetime.hour t <? 6)%Z
                           | None => false
                           end) incidents).

(** The search box of a location given as (lat, lng): a tenth of a degree
    to each side, corners as (lng, lat). *)
Definition bounds_of (location : option (Q * Q))
  : option ((Q * Q) * (Q * Q)) :=
  match location with
  | Some (lat, lng) => Some ((lng - 0.1, lat - 0.1), (lng + 0.1, lat + 0.1))
  | None => None
  end.

(** A recommendation of the given kind and priority is among the
    recommendations. *)
Definition advises (kind priority : string)
  (recommendations : list TrendAnalysis.Recommendation) : Prop :=
  exists r, In r recommendations /\ TrendAnalysis.kind r = kind /\
            TrendAnalysis.priority r = priority.

(** A calendar that counts weeks from the Monday before the epoch. *)
Definition weeks_of_epoch : CalendarLib :=
  {| iso_week := fun d => ((Datetime.date d + 3) / 7)%Z |}.

(** An incident without [createdAt]. *)
Definition undated : Incident :=
  {| inc_coordinates := None;
     inc_severity := Some "low";
     inc_type := Some "panic";
     inc_createdAt := None |}.

(** A store whose incident query returns the given incidents. *)
Definition store_of (found : list Incident) : Store :=
  {| find_incidents_near := fun _ _ _ => Ok found;
     find_incidents_since := fun _ _ => Ok found;
     find_user_locations := fun _ _ => Ok [];
     find_user := fun _ => Ok None |}.

(** A walk of twenty samples at 1 and 2 m/s in turn, and a store whose
    every user has it. *)
Definition varied_step (i : nat) : LocationSample :=
  {| loc_coordinates := (77.2090, 28.6139);
     loc_createdAt := Some (TDatetime (naive (Py.of_nat i * 60)));
     loc_speed := Some (if Nat.even i then 1 else 2) |}.

Definition strider_store : Store :=
  {| find_incidents_near := fun _ _ _ => Ok [];
     find_incidents_since := fun _ _ => Ok [];
     find_user_locations := fun _ _ => Ok (map varied_step (seq 0 20));
     find_user := fun _ => Ok None |}.

End Notions2.
(* ================================================================== *)
(** * Arithmetic of the prelude *)
(* ================================================================== *)

Lemma Qltb_lt (a b : Q) : Py.Qltb a b = true <-> a < b.
Proof.
  unfold Py.Qltb. rewrite negb_true_iff.
  destruct (Qle_bool b a) eqn:E.
  - apply Qle_bool_iff in E. split; [discriminate | intro; lra].
  - split; [intros _ | reflexivity].
    apply Qnot_le_lt. intro L. apply Qle_bool_iff in L. congruence.
Qed.

Lemma Qltb_ge (a b : Q) : Py.Qltb a b = false <-> b <= a.
Proof.
  unfold Py.Qltb. rewrite negb_false_iff. apply Qle_bool_iff.
Qed.

Lemma Qle_bool_false (a b : Q) : Qle_bool a b = false <-> b < a.
Proof.
  rewrite <- Qltb_lt. unfold Py.Qltb. now rewrite negb_true_iff.
Qed.


Lemma div_nonneg (a b : Q) : 0 <= a -> 0 < b -> 0 <= a / b.
Proof.
  intros Ha Hb. apply Qle_shift_div_l; lra.
Qed.

Ltac case_Qltb :=
  match goal with
  | |- context [Py.Qltb ?a ?b] =>
      let E := fresh "E" in
      destruct (Py.Qltb a b) eqn:E;
      [apply Qltb_lt in E | apply Qltb_ge in E]
  end.

Ltac case_Qle_bool :=
  match goal with
  | |- context [Qle_bool ?a ?b] =>
      let E := fresh "E" in
      destruct (Qle_bool a b) eqn:E;
      [apply Qle_bool_iff in E | apply Qle_bool_false in E]
  end.

(* ================================================================== *)
(** * Risk level and the untrained route-risk heuristic *)
(* ================================================================== *)

Section RiskLevel.
Import RiskPredictor.

(** C2, as the code has it.  [get_risk_level] is a step function of the
    score with steps at 0.4, 0.6 and 0.8, each threshold belonging to the
    level above it: a score of at least 0.8 is "critical", one in
    [0.6, 0.8) is "high", one in [0.4, 0.6) is "medium" and one below 0.4
    is "low".  In particular 0.79 is "high", 0.80 is "critical", 0.4 is
    "medium" and 0.39 is "low". *)
Theorem get_risk_level_steps (s : Q) :
  (0.8 <= s -> get_risk_level s = "critical") /\
  (0.6 <= s < 0.8 -> get_risk_level s = "high") /\
  (0.4 <= s < 0.6 -> get_risk_level s = "medium") /\
  (s < 0.4 -> get_risk_level s = "low") /\
  get_risk_level 0.79 = "high" /\
  get_risk_level 0.80 = "critical" /\
  get_risk_level 0.4 = "medium" /\
  get_risk_level 0.39 = "low".
Proof.
  unfold get_risk_level.
  repeat split; try reflexivity; intros H;
    repeat (case_Qle_bool; try lra); reflexivity.
Qed.

Lemma get_risk_level_steps_witness :
  get_risk_level 0.95 = "critical" /\
  get_risk_level 0.7 = "high" /\
  get_risk_level 0.5 = "medium" /\
  get_risk_level 0.1 = "low".
Proof.
  split; [| split; [| split]].
  - apply (proj1 (get_risk_level_steps 0.95)). lra.
  - apply (proj1 (proj2 (get_risk_level_steps 0.7))). lra.
  - apply (proj1 (proj2 (proj2 (get_risk_level_steps 0.5)))). lra.
  - apply (proj1 (proj2 (proj2 (proj2 (get_risk_level_steps 0.1))))). lra.
Defined.

(** C2 as stated fails at its own example: a score of 0.39 is below the
    0.4 threshold and is mapped to "low", not to "medium". *)
Lemma get_risk_level_039_not_medium :
  get_risk_level 0.39 = "low" /\ get_risk_level 0.39 <> "medium".
Proof.
  split; [reflexivity | discriminate].
Qed.

End RiskLevel.

Section RouteHeuristic.
Import RiskPredictor.
Context {geo : GeoLib} {tl : TimeLib}.

Lemma hour_range (d : datetime) : (0 <= Datetime.hour d < 24)%Z.
Proof.
  unfold Datetime.hour. apply Z.mod_pos_bound. lia.
Qed.

Lemma time_risk_multiplier_cases (h : Z) :
  _get_time_risk_multiplier h = 1.3 \/
  _get_time_risk_multiplier h = 1.1 \/
  _get_time_risk_multiplier h = 1.0.
Proof.
  unfold _get_time_risk_multiplier.
  destruct ((h >=? 22) || (h <=? 5))%Z; auto.
  destruct ((h >=? 6) && (h <=? 8) || (h >=? 17) && (h <=? 19))%Z; auto.
Qed.

Lemma time_risk_multiplier_ge_1 (h : Z) : 1 <= _get_time_risk_multiplier h.
Proof.
  destruct (time_risk_multiplier_cases h) as [E | [E | E]]; rewrite E; lra.
Qed.


Lemma default_risk_bounds (now : datetime) (s e : latlng) :
  0.7 <= _calculate_default_risk now s e <= 1.
Proof.
  unfold _calculate_default_risk, Py.min.
  pose proof (time_risk_multiplier_ge_1 (Datetime.hour now)) as Hm.
  assert (Hd : 0 <= Qmin (geodesic s e / 100) 0.3).
  { apply Q.min_glb; [| lra].
    apply Qle_shift_div_l; [lra |]. pose proof (geodesic_nonneg s e). lra. }
  split.
  - apply Q.min_glb; lra.
  - eapply Qle_trans; [apply Q.le_min_r | lra].
Qed.


(** C9.  With no trained regressor the route risk is at least 0.7 for
    every input, so the level reported for it is "high" or "critical",
    never "medium" or "low". *)
Theorem untrained_route_risk_high_or_critical
  (st : Store) (rng : Rng) (now : clock) (s e : latlng)
  (time_of_day weather : option string) :
  let risk := predict_route_risk None st rng now s e time_of_day weather in
  0.7 <= risk /\
  (get_risk_level risk = "high" \/ get_risk_level risk = "critical").
Proof.
  simpl. pose proof (default_risk_bounds (now 0%nat) s e) as [Hlo _].
  split; [exact Hlo |].
  unfold get_risk_level.
  repeat (case_Qle_bool; try lra); auto.
Qed.

End RouteHeuristic.


Lemma untrained_route_risk_high_or_critical_witness :
  RiskPredictor.get_risk_level
    (RiskPredictor.predict_route_risk (geo := StandIn.planar_geo)
       (tl := StandIn.text_time) None Sample.empty_store Sample.fixed_rng Sample.at_3am
       Sample.delhi Sample.rohini None None) = "critical".
Proof.
  destruct (untrained_route_risk_high_or_critical (geo := StandIn.planar_geo)
              (tl := StandIn.text_time) Sample.empty_store Sample.fixed_rng Sample.at_3am
              Sample.delhi Sample.rohini None None) as [_ [H | H]].
  - vm_compute in H. discriminate H.
  - exact H.
Defined.

(* ================================================================== *)
(** * Speed anomalies below 20 historical samples *)
(* ================================================================== *)

Section SpeedFallback.
Import AnomalyDetector Notions.
Context {nl : NumLib}.






End SpeedFallback.


(* ================================================================== *)
(** * Movement anomalies on insufficient data *)
(* ================================================================== *)

Section MovementGuards.
Import AnomalyDetector.
Context {geo : GeoLib} {tl : TimeLib} {nl : NumLib}.

(** C5.  [detect_movement_anomaly] returns a result on insufficient data:
    with fewer than 3 current samples, and likewise when the subject has
    fewer than 10 historical samples, the result has [is_anomaly = false],
    [confidence = 0.0] and a reason that is not empty ("Insufficient
    location data" in the first case, that or "Insufficient historical
    data" in the second). *)
Theorem movement_insufficient_data
  (st : Store) (utcnow : clock) (user : string)
  (locations : list LocationSample) :
  let r := detect_movement_anomaly st utcnow user locations in
  ((length locations < 3)%nat ->
   r = mk_result false 0.0 "Insufficient location data" []) /\
  ((length (get_user_movement_patterns st (utcnow 0%nat) user 30) < 10)%nat ->
   r = mk_result false 0.0 "Insufficient location data" [] \/
   r = mk_result false 0.0 "Insufficient historical data" []) /\
  ((length locations < 3)%nat \/
   (length (get_user_movement_patterns st (utcnow 0%nat) user 30) < 10)%nat ->
   is_anomaly r = false /\ confidence r = 0.0 /\ reason r <> "").
Proof.
  cbv zeta. unfold detect_movement_anomaly.
  destruct (length locations <? 3)%nat eqn:E1.
  - repeat split; auto; simpl; discriminate.
  - apply Nat.ltb_ge in E1.
    destruct (length (get_user_movement_patterns st (utcnow 0%nat) user 30)
              <? 10)%nat eqn:E2.
    + repeat split; auto; try (intros; lia); simpl; discriminate.
    + apply Nat.ltb_ge in E2. repeat split; intros; lia.
Qed.




End MovementGuards.

Lemma movement_insufficient_data_witness :
  AnomalyDetector.detect_movement_anomaly (geo := StandIn.planar_geo)
    (tl := StandIn.text_time) (nl := StandIn.rational_numpy)
    Sample.empty_store Sample.at_3am "u1" (Sample.walk 2)
  = AnomalyDetector.mk_result false 0.0 "Insufficient location data" [].
Proof.
  apply (movement_insufficient_data (geo := StandIn.planar_geo)
           (tl := StandIn.text_time) (nl := StandIn.rational_numpy)
           Sample.empty_store Sample.at_3am "u1" (Sample.walk 2)).
  simpl. lia.
Defined.


(* ================================================================== *)
(** * Movement features and the clock *)
(* ================================================================== *)

Section FeatureExtraction.
Import AnomalyDetector Notions.
Context {geo : GeoLib} {tl : TimeLib} {nl : NumLib}.

Lemma created_or_timestamped (l : LocationSample) (a b : datetime) :
  timestamped l -> created_or l a = created_or l b.
Proof.
  unfold timestamped, created_or.
  destruct (loc_createdAt l); [reflexivity | congruence].
Qed.

(** The loop reads the clock only for samples without a timestamp. *)
Lemma pair_loop_clock (c1 c2 : clock) (rest : list LocationSample) :
  forall (k1 k2 : nat) (prev : LocationSample),
    timestamped prev -> Forall timestamped rest ->
    pair_loop c1 k1 prev rest = pair_loop c2 k2 prev rest.
Proof.
  induction rest as [| curr rest IH]; intros k1 k2 prev Hp Hr;
    [reflexivity |].
  inversion Hr as [| ? ? Hc Hr']; subst.
  cbn [pair_loop].
  rewrite (created_or_timestamped prev (c1 k1) (c2 k2) Hp).
  rewrite (created_or_timestamped curr (c1 (S k1)) (c2 (S k2)) Hc).
  rewrite (IH (S (S k1)) (S (S k2)) curr Hc Hr').
  reflexivity.
Qed.

Lemma extract_features_names (c : clock) (locations : list LocationSample)
  (f : list (string * Q)) :
  _extract_movement_features c locations = Ok f ->
  (2 <= length locations)%nat ->
  map fst f = feature_names.
Proof.
  unfold _extract_movement_features.
  destruct locations as [| a [| b r]]; simpl length; try lia.
  intros H _.
  destruct (pair_loop c 0 a (b :: r)) as [[[ds ts] ss] | e]; simpl in H;
    [| discriminate].
  injection H as <-. reflexivity.
Qed.

(** C7, as the code has it.  On samples that all carry their [createdAt]
    timestamp, [_extract_movement_features] is a function of the sample
    sequence alone: two calls on the same sequence, whatever the clock
    shows at each, yield the same result, and a feature map it returns for
    two samples or more has exactly the entries avg_speed, max_speed,
    speed_variance, total_distance, avg_time_interval, max_time_gap,
    num_stops and direction_changes. *)
Theorem extract_features_deterministic
  (c1 c2 : clock) (locations : list LocationSample) :
  Forall timestamped locations ->
  _extract_movement_features c1 locations
  = _extract_movement_features c2 locations
  /\ (forall f, _extract_movement_features c1 locations = Ok f ->
                (2 <= length locations)%nat -> map fst f = feature_names).
Proof.
  intro H. split; [| apply extract_features_names].
  unfold _extract_movement_features.
  destruct locations as [| a [| b r]]; try reflexivity.
  inversion H as [| ? ? Ha Hr]; subst.
  now rewrite (pair_loop_clock c1 c2 (b :: r) 0 0 a Ha Hr).
Qed.

End FeatureExtraction.

Lemma walk_timestamped (n : nat) : Forall Notions.timestamped (Sample.walk n).
Proof.
  unfold Sample.walk. apply Forall_forall. intros l Hl.
  apply in_map_iff in Hl as [i [<- _]]. discriminate.
Qed.

Lemma extract_features_deterministic_witness :
  AnomalyDetector._extract_movement_features (geo := StandIn.planar_geo)
    (tl := StandIn.text_time) (nl := StandIn.rational_numpy)
    Sample.at_10s (Sample.walk 4)
  = AnomalyDetector._extract_movement_features (geo := StandIn.planar_geo)
      (tl := StandIn.text_time) (nl := StandIn.rational_numpy)
      Sample.at_20s (Sample.walk 4).
Proof.
  apply (extract_features_deterministic (geo := StandIn.planar_geo)
           (tl := StandIn.text_time) (nl := StandIn.rational_numpy)
           Sample.at_10s Sample.at_20s (Sample.walk 4)).
  apply walk_timestamped.
Defined.

(** C7 as stated fails on a sample without [createdAt]: the extractor
    substitutes the current time, so the same two samples give an average
    time interval of 10 s when the clock shows 10 and of 20 s when it
    shows 20. *)
Lemma extract_features_reads_clock :
  exists f1 f2 v1 v2,
    AnomalyDetector._extract_movement_features (geo := StandIn.planar_geo)
      (tl := StandIn.text_time) (nl := StandIn.rational_numpy)
      Sample.at_10s Sample.half_timed = Ok f1 /\
    AnomalyDetector._extract_movement_features (geo := StandIn.planar_geo)
      (tl := StandIn.text_time) (nl := StandIn.rational_numpy)
      Sample.at_20s Sample.half_timed = Ok f2 /\
    Py.get String.eqb f1 "avg_time_interval" = Some v1 /\
    Py.get String.eqb f2 "avg_time_interval" = Some v2 /\
    v1 == 10 /\ v2 == 20 /\ f1 <> f2.
Proof.
  do 4 eexists.
  split; [vm_compute; reflexivity |].
  split; [vm_compute; reflexivity |].
  split; [vm_compute; reflexivity |].
  split; [vm_compute; reflexivity |].
  split; [reflexivity |].
  split; [reflexivity |].
  intro H. discriminate H.
Qed.

(* ================================================================== *)
(** * Hotspots *)
(* ================================================================== *)

Section SortDesc.
Context {A : Type} (key : A -> Q).

Let ge_key (a b : A) : Prop := key b <= key a.

Lemma insert_desc_In (x a : A) (l : list A) :
  In a (Py.insert_desc key x l) <-> a = x \/ In a l.
Proof.
  induction l as [| y r IH]; simpl.
  - intuition.
  - destruct (Qle_bool (key y) (key x)); simpl; rewrite ?IH; intuition.
Qed.

Lemma insert_desc_sorted (x : A) (l : list A) :
  StronglySorted ge_key l -> StronglySorted ge_key (Py.insert_desc key x l).
Proof.
  induction l as [| y r IH]; intro S; simpl.
  - constructor; [constructor | constructor].
  - inversion S as [| ? ? Sr Fy]; subst.
    destruct (Qle_bool (key y) (key x)) eqn:E.
    + apply Qle_bool_iff in E. constructor; [exact S |].
      constructor; [exact E |].
      eapply Forall_impl; [| exact Fy].
      intros z Hz. unfold ge_key in *. lra.
    + apply Qle_bool_false in E. constructor; [apply IH, Sr |].
      apply Forall_forall. intros z Hz.
      apply insert_desc_In in Hz as [-> | Hz].
      * unfold ge_key. lra.
      * rewrite Forall_forall in Fy. apply Fy, Hz.
Qed.

Lemma sort_desc_sorted (l : list A) : StronglySorted ge_key (Py.sort_desc key l).
Proof.
  induction l as [| x r IH]; simpl; [constructor |].
  apply insert_desc_sorted, IH.
Qed.

Lemma sort_desc_In (a : A) (l : list A) :
  In a (Py.sort_desc key l) <-> In a l.
Proof.
  induction l as [| x r IH]; simpl; [reflexivity |].
  rewrite insert_desc_In, IH. intuition.
Qed.

Lemma firstn_sorted (n : nat) (l : list A) :
  StronglySorted ge_key l -> StronglySorted ge_key (firstn n l).
Proof.
  revert l. induction n as [| n IH]; intros l S; simpl; [constructor |].
  destruct l as [| x r]; [constructor |].
  inversion S as [| ? ? Sr Fx]; subst.
  constructor; [apply IH, Sr |].
  apply Forall_forall. intros z Hz.
  rewrite Forall_forall in Fx. apply Fx.
  revert Hz. clear. revert r.
  induction n as [| n IHn]; intros r Hz; simpl in Hz; [contradiction |].
  destruct r as [| y r]; simpl in *; [contradiction |].
  destruct Hz as [-> | Hz]; [now left | right; now apply IHn].
Qed.

Lemma firstn_In (n : nat) (a : A) (l : list A) :
  In a (firstn n l) -> In a l.
Proof.
  revert l. induction n as [| n IH]; intros l H; simpl in H; [contradiction |].
  destruct l as [| x r]; simpl in *; [contradiction |].
  destruct H as [-> | H]; [now left | right; now apply IH].
Qed.

End SortDesc.

Section Hotspots.
Import PatternAnalyzer Notions.
Context {nl : NumLib} {cl : ClusterLib}.

Lemma members_length {A : Type} (xs : list A) (labels : list Z) (id : Z) :
  length xs = length labels ->
  length (members xs labels id) = count_occ Z.eq_dec labels id.
Proof.
  unfold members. rewrite length_map.
  revert labels. induction xs as [| x r IH]; intros [| l labels] H;
    simpl in *; try discriminate; [reflexivity |].
  injection H as H.
  destruct (Z.eqb_spec l id) as [-> | N]; simpl.
  - destruct (Z.eq_dec id id); [| congruence]. now rewrite IH.
  - destruct (Z.eq_dec l id); [congruence |]. now apply IH.
Qed.

Lemma noise_count (labels : list Z) :
  length (filter (fun label => (label =? -1)%Z) labels)
  = count_occ Z.eq_dec labels (-1)%Z.
Proof.
  induction labels as [| l r IH]; simpl; [reflexivity |].
  destruct (Z.eqb_spec l (-1)); destruct (Z.eq_dec l (-1)); simpl;
    congruence.
Qed.

Lemma label_set_In (labels seen : list Z) (id : Z) :
  In id (label_set labels seen) -> In id labels.
Proof.
  revert seen. induction labels as [| l r IH]; intros seen H; simpl in *;
    [contradiction |].
  destruct (existsb (Z.eqb l) seen).
  - right. eapply IH, H.
  - destruct H as [-> | H]; [now left | right; eapply IH, H].
Qed.

Lemma located_length (incidents : list Incident) :
  (length (located incidents) <= length incidents)%nat.
Proof.
  unfold located. induction incidents as [| i r IH]; simpl; [lia |].
  destruct (inc_coordinates i); simpl; lia.
Qed.

Lemma of_nat_positive (n : nat) :
  (0 < n)%nat -> Qeq_bool (inject_Z (Z.of_nat n)) 0 = false.
Proof.
  intro H. destruct (Qeq_bool (inject_Z (Z.of_nat n)) 0) eqn:E;
    [| reflexivity].
  apply Qeq_bool_iff in E. unfold Qeq in E. simpl in E. lia.
Qed.

Lemma hotspot_loop_ok (coordinates : list (Q * Q)) (data : list Incident)
  (labels ids : list Z) :
  length data = length labels ->
  (forall id, In id ids -> In id labels) ->
  exists found,
    hotspot_loop coordinates data labels ids = Ok found /\
    Forall (hotspot_sound labels) found.
Proof.
  intros Hlen. induction ids as [| id ids IH]; intros Hin; simpl.
  - exists []. split; [reflexivity | constructor].
  - destruct IH as [found [E F]]; [intros; apply Hin; now right |].
    destruct (Z.eqb_spec id (-1)) as [-> | N].
    + exists found. split; assumption.
    + unfold hotspot_of, Py.truediv.
      rewrite of_nat_positive.
      * cbn [bind]. rewrite E. cbn [bind]. eexists. split; [reflexivity |].
        constructor; [| exact F].
        unfold hotspot_sound. cbn [cluster_id incident_count].
        repeat split; [exact N | apply Hin; now left |].
        now apply members_length.
      * rewrite (members_length data labels id Hlen).
        apply count_occ_In. apply Hin. now left.
Qed.

(** C8, as the code has it.  For an incident set with at least 10
    incidents that carry coordinates, [_identify_hotspots] (DBSCAN with
    eps = 0.005 and min_samples = 5) returns a hotspot list of at most 10
    entries in descending order of risk score; every entry is the cluster
    of a label other than the noise label -1, with the number of points of
    that label as incident count; the points labelled noise are reported
    as a count next to the list.  With fewer located incidents it returns
    an error entry and no list. *)
Theorem hotspots_ranked (incidents : list Incident) :
  let labels := dbscan_labels 0.005 5 (map fst (located incidents)) in
  ((10 <= length (located incidents))%nat ->
   exists hs total,
     _identify_hotspots incidents
     = Ok (Hotspots hs total (count_occ Z.eq_dec labels (-1)%Z)) /\
     (length hs <= 10)%nat /\ (length hs <= total)%nat /\
     ranked hs /\
     Forall (hotspot_sound labels) hs) /\
  ((length (located incidents) < 10)%nat ->
   exists error, _identify_hotspots incidents = Ok (HotspotError error)).
Proof.
  cbv zeta. unfold _identify_hotspots. rewrite !length_map.
  pose proof (located_length incidents) as Hl.
  split; intro H.
  - replace (length incidents <? 10)%nat with false
      by (symmetry; apply Nat.ltb_ge; lia).
    replace (length (located incidents) <? 10)%nat with false
      by (symmetry; apply Nat.ltb_ge; lia).
    set (labels := dbscan_labels 0.005 5 (map fst (located incidents))).
    destruct (hotspot_loop_ok (map fst (located incidents))
                (map snd (located incidents)) labels (label_set labels []))
      as [found [E F]].
    + subst labels. now rewrite dbscan_labels_length, !length_map.
    + intros id. apply label_set_In.
    + rewrite E. cbn [bind]. rewrite noise_count.
      exists (firstn 10 (Py.sort_desc risk_score found)), (length found).
      split; [reflexivity |].
      split; [apply firstn_le_length |].
      split.
      { rewrite length_firstn. etransitivity; [apply Nat.le_min_r |].
        clear. induction found as [| x r IH]; simpl; [lia |].
        remember (Py.sort_desc risk_score r) as s eqn:Es. clear Es.
        assert (L : forall l, length (Py.insert_desc risk_score x l)
                              = S (length l)).
        { induction l as [| y l IHl]; simpl; [reflexivity |].
          destruct (Qle_bool (risk_score y) (risk_score x)); simpl;
            [reflexivity | now rewrite IHl]. }
        rewrite L. lia. }
      split; [apply firstn_sorted, sort_desc_sorted |].
      apply Forall_forall. intros h Hh.
      apply firstn_In, sort_desc_In in Hh.
      rewrite Forall_forall in F. apply F, Hh.
  - destruct (length incidents <? 10)%nat; [eexists; reflexivity |].
    replace (length (located incidents) <? 10)%nat with true
      by (symmetry; apply Nat.ltb_lt; lia).
    eexists; reflexivity.
Qed.

End Hotspots.

Lemma hotspots_ranked_witness :
  exists hs total,
    PatternAnalyzer._identify_hotspots (nl := StandIn.rational_numpy)
      (cl := StandIn.one_pass_clusters) Sample.corner
    = Ok (PatternAnalyzer.Hotspots hs total 0) /\
    (length hs <= 10)%nat /\ (length hs <= total)%nat /\
    Notions.ranked hs /\
    Forall (Notions.hotspot_sound
              (dbscan_labels (ClusterLib := StandIn.one_pass_clusters) 0.005 5
                 (map fst (PatternAnalyzer.located Sample.corner)))) hs.
Proof.
  apply (hotspots_ranked (nl := StandIn.rational_numpy)
           (cl := StandIn.one_pass_clusters) Sample.corner).
  vm_compute. lia.
Defined.

(** C8 as stated fails on small incident sets: for the empty set (and any
    set of fewer than 10 incidents) the result is an error entry, not a
    hotspot list with a noise count. *)
Lemma hotspots_of_no_incidents :
  PatternAnalyzer._identify_hotspots (nl := StandIn.rational_numpy)
    (cl := StandIn.one_pass_clusters) []
  = Ok (PatternAnalyzer.HotspotError "Insufficient data for hotspot analysis")
  /\ ~ (exists hs total noise,
          PatternAnalyzer._identify_hotspots (nl := StandIn.rational_numpy)
            (cl := StandIn.one_pass_clusters) []
          = Ok (PatternAnalyzer.Hotspots hs total noise)).
Proof.
  split; [reflexivity |].
  intros (hs & total & noise & H). discriminate H.
Qed.

(* ================================================================== *)
(** * The 7-day forecast *)
(* ================================================================== *)

Section LeastSquares.

Lemma sum_from (l : list Q) (a : Q) : fold_left Qplus l a == a + Py.sum l.
Proof.
  unfold Py.sum. revert a. induction l as [| x r IH]; intro a; simpl.
  - ring.
  - rewrite (IH (a + x)), (IH (0 + x)). ring.
Qed.

Lemma sum_cons (x : Q) (l : list Q) : Py.sum (x :: l) == x + Py.sum l.
Proof.
  unfold Py.sum at 1. simpl. rewrite sum_from. ring.
Qed.

Lemma sum_line (a b : Q) (l : list Q) :
  Py.sum (map (fun x => a + b * x) l)
  == a * inject_Z (Z.of_nat (length l)) + b * Py.sum l.
Proof.
  induction l as [| x r IH].
  - simpl. unfold Py.sum. simpl. ring.
  - cbn [map length]. rewrite !sum_cons, IH, Nat2Z.inj_succ.
    unfold Z.succ. rewrite inject_Z_plus. ring.
Qed.

Lemma sum_products_line (a b : Q) (l : list Q) :
  Py.sum (map (fun p => fst p * snd p)
              (combine l (map (fun x => a + b * x) l)))
  == a * Py.sum l + b * Py.sum (map (fun x => x * x) l).
Proof.
  induction l as [| x r IH].
  - simpl. unfold Py.sum. simpl. ring.
  - cbn [map combine fst snd]. rewrite !sum_cons, IH. ring.
Qed.

Lemma arange_succ (n : nat) :
  Np.arange (S n) = (Np.arange n ++ [inject_Z (Z.of_nat n)])%list.
Proof.
  unfold Np.arange. now rewrite seq_S, map_app.
Qed.

Lemma sum_snoc (l : list Q) (x : Q) :
  Py.sum (l ++ [x])%list == Py.sum l + x.
Proof.
  induction l as [| y r IH]; simpl app.
  - rewrite sum_cons. unfold Py.sum. simpl. ring.
  - rewrite !sum_cons, IH. ring.
Qed.

(** The sums of [0, ..., n-1] and of their squares. *)
Lemma sum_arange (n : nat) :
  let q := inject_Z (Z.of_nat n) in
  2 * Py.sum (Np.arange n) == q * (q - 1) /\
  6 * Py.sum (map (fun x => x * x) (Np.arange n))
  == (q - 1) * q * (2 * q - 1).
Proof.
  induction n as [| n [IH1 IH2]]; cbv zeta.
  - split; vm_compute; reflexivity.
  - rewrite arange_succ, map_app. cbn [map]. rewrite !sum_snoc.
    rewrite Nat2Z.inj_succ. unfold Z.succ. rewrite inject_Z_plus.
    change (inject_Z 1) with 1.
    cbv zeta in IH1, IH2.
    set (q := inject_Z (Z.of_nat n)) in *.
    set (s1 := Py.sum (Np.arange n)) in *.
    set (s2 := Py.sum (map (fun x => x * x) (Np.arange n))) in *.
    split; lra.
Qed.

Lemma arange_length (n : nat) : length (Np.arange n) = n.
Proof.
  unfold Np.arange. now rewrite length_map, length_seq.
Qed.

(** The model of [np.polyfit] recovers the slope of data that lie on a
    line: for [y_i = a + b * i], [i = 0, ..., n-1] and [n >= 2], the
    fitted slope is [b]. *)
Lemma polyfit_slope_of_line (a b : Q) (n : nat) :
  (2 <= n)%nat ->
  Np.polyfit_slope (Np.arange n) (map (fun x => a + b * x) (Np.arange n))
  == b.
Proof.
  intro Hn. unfold Np.polyfit_slope.
  rewrite sum_line, sum_products_line, arange_length.
  destruct (sum_arange n) as [S1 S2]. cbv zeta in S1, S2.
  set (q := inject_Z (Z.of_nat n)) in *.
  set (s1 := Py.sum (Np.arange n)) in *.
  set (s2 := Py.sum (map (fun x => x * x) (Np.arange n))) in *.
  assert (Hq : 2 <= q).
  { subst q. change 2 with (inject_Z 2). rewrite <- Zle_Qle. lia. }
  assert (E1 : s1 == q * (q - 1) / 2).
  { apply Qmult_inj_l with (z := 2); [lra |].
    rewrite S1. field. }
  assert (E2 : s2 == (q - 1) * q * (2 * q - 1) / 6).
  { apply Qmult_inj_l with (z := 6); [lra |].
    rewrite S2. field. }
  assert (D : q * s2 - s1 * s1 == q * q * (q - 1) * (q + 1) / 12).
  { rewrite E1, E2. field. }
  assert (Dpos : 0 < q * s2 - s1 * s1).
  { rewrite D. apply Qlt_shift_div_l; [lra |].
    setoid_replace (0 * 12) with 0 by ring.
    repeat apply Qmult_lt_0_compat; lra. }
  setoid_replace (q * (a * s1 + b * s2) - s1 * (a * q + b * s1))
    with (b * (q * s2 - s1 * s1)) by ring.
  apply Qdiv_mult_l. lra.
Qed.

End LeastSquares.

Section Forecast.
Import PatternAnalyzer Notions.







End Forecast.



(* ================================================================== *)
(** * Confidence and risk scores stay in the unit interval *)
(* ================================================================== *)

Section UnitInterval.


Lemma some_eq {A : Type} (a b : A) : Some a = Some b -> a = b.
Proof.
  intro H. now injection H.
Qed.

Lemma ok_eq {A : Type} (a b : A) : Ok a = Ok b -> a = b.
Proof.
  intro H. now injection H.
Qed.

Lemma square_nonneg (x : Q) : 0 <= x * x.
Proof.
  destruct (Qlt_le_dec x 0) as [N | P].
  - setoid_replace (x * x) with ((- x) * (- x)) by ring.
    apply Qmult_le_0_compat; lra.
  - now apply Qmult_le_0_compat.
Qed.


Lemma fold_left_Qplus_ge (l : list Q) (a : Q) :
  Forall (fun x => 0 <= x) l -> a <= fold_left Qplus l a.
Proof.
  revert a. induction l as [| x r IH]; intros a H; simpl; [lra |].
  inversion H as [| ? ? Hx Hr]; subst.
  specialize (IH (a + x) Hr). lra.
Qed.


Lemma fold_left_max_ge (l : list Q) (a : Q) : a <= fold_left Py.max l a.
Proof.
  revert a. induction l as [| x r IH]; intro a; simpl; [lra |].
  eapply Qle_trans; [| apply IH]. unfold Py.max. apply Q.le_max_l.
Qed.

(** Rounding to the nearest integer stays between integer bounds. *)
Lemma round_half_even_between (y : Q) (a b : Z) :
  inject_Z a <= y -> y <= inject_Z b ->
  (a <= Py.round_half_even y <= b)%Z.
Proof.
  intros Ha Hb. unfold Py.round_half_even.
  assert (Fa : (a <= Qfloor y)%Z).
  { rewrite <- (Qfloor_Z a). now apply Qfloor_resp_le. }
  assert (Fb : (Qfloor y <= b)%Z).
  { rewrite <- (Qfloor_Z b). now apply Qfloor_resp_le. }
  pose proof (Qfloor_le y) as Fl.
  destruct (Py.Qltb (y - inject_Z (Qfloor y)) (1 # 2)) eqn:E1; [lia |].
  apply Qltb_ge in E1.
  assert (Hlt : (Qfloor y < b)%Z).
  { destruct (Z.eq_dec (Qfloor y) b) as [E | N]; [| lia].
    rewrite E in E1. lra. }
  destruct (Py.Qltb (1 # 2) (y - inject_Z (Qfloor y))); [lia |].
  destruct (Z.even (Qfloor y)); lia.
Qed.





End UnitInterval.

Section CountingDicts.
Import Notions.
Context {K : Type} (eqb : K -> K -> bool).

Lemma update_total (d : list (K * nat)) (k : K) :
  dict_total (Py.update eqb d k O S) = S (dict_total d).
Proof.
  induction d as [| [k' v] r IH]; simpl; [reflexivity |].
  destruct (eqb k k'); simpl; [reflexivity |].
  rewrite IH. lia.
Qed.

Lemma count_by_total {A : Type} (key : A -> K) (l : list A) :
  dict_total (Py.count_by eqb key l) = length l.
Proof.
  unfold Py.count_by.
  enough (G : forall d, dict_total (fold_left
                          (fun d x => Py.update eqb d (key x) O S) l d)
                        = (length l + dict_total d)%nat).
  { rewrite G. simpl. lia. }
  induction l as [| x r IH]; intro d; simpl; [reflexivity |].
  rewrite IH, update_total. lia.
Qed.


End CountingDicts.

Section Scores.
Import Notions.
Context {geo : GeoLib} {tl : TimeLib} {nl : NumLib} {cl : ClusterLib}.














End Scores.

Section AllScores.
Import Notions.
Context {geo : GeoLib} {tl : TimeLib} {nl : NumLib} {cl : ClusterLib}.


End AllScores.


(* ================================================================== *)
(** * Further properties of the risk predictor *)
(* ================================================================== *)

Section AreaRisk.
Import RiskPredictor.






End AreaRisk.




Section RouteRisk.
Import RiskPredictor Notions2.
Context {geo : GeoLib} {tl : TimeLib}.

(** X3.  [prepare_features] always yields the ten feature columns in the
    order the regressor expects, so building the feature row never fails;
    when the time of day does not parse, every feature is 0.5 and the clock
    is not read. *)
Theorem prepare_features_columns
  (st : Store) (rng : Rng) (now : clock) (s e : latlng)
  (time_of_day weather : option string) :
  let features := fst (prepare_features st rng now s e time_of_day weather) in
  map fst features = feature_columns /\
  (exists row,
     feature_row features feature_columns = Ok row /\
     row = map snd features /\ length row = 10%nat) /\
  (forall text err,
     time_of_day = Some text -> strptime_HM text = Raise err ->
     prepare_features st rng now s e time_of_day weather
     = (map (fun col => (col, 0.5)) feature_columns, 0%nat)).
Proof.
  cbv zeta. unfold prepare_features.
  destruct time_of_day as [text |].
  - destruct (strptime_HM text) as [t | err] eqn:E; cbn [bind].
    + split; [reflexivity |]. split.
      * eexists. split; [reflexivity |]. split; reflexivity.
      * intros text' err' H. injection H as <-. congruence.
    + split; [reflexivity |]. split.
      * eexists. split; [reflexivity |]. split; reflexivity.
      * intros. reflexivity.
  - split; [reflexivity |]. split.
    + eexists. split; [reflexivity |]. split; reflexivity.
    + intros text err H. discriminate H.
Qed.

(** X4.  With a trained regressor [predict_route_risk] returns the
    prediction clamped to [0, 1]: a prediction in [0, 1] is returned as it
    is, one above 1 gives 1 and one below 0 gives 0.  When the scaler or
    the regressor raises, the result is the untrained heuristic, at
    least 0.7. *)
Theorem trained_route_risk
  (m : Regressor) (st : Store) (rng : Rng) (now : clock) (s e : latlng)
  (time_of_day weather : option string) (row : list Q) :
  let prepared := prepare_features st rng now s e time_of_day weather in
  let risk := predict_route_risk (Some m) st rng now s e time_of_day weather in
  feature_row (fst prepared) feature_columns = Ok row ->
  (forall scaled r,
     transform m row = Ok scaled -> predict m scaled = Ok r ->
     (0 <= r <= 1 -> risk == r) /\ (1 <= r -> risk == 1) /\
     (r <= 0 -> risk == 0)) /\
  ((exists err, transform m row = Raise err) \/
   (exists scaled err,
      transform m row = Ok scaled /\ predict m scaled = Raise err) ->
   risk = _calculate_default_risk (now (snd prepared)) s e /\ 0.7 <= risk).
Proof.
  cbv zeta. unfold predict_route_risk.
  destruct (prepare_features st rng now s e time_of_day weather)
    as [features reads]. cbn [fst snd].
  intros ->. cbn [bind]. split.
  - intros scaled r Ht Hp. rewrite Ht. cbn [bind]. rewrite Hp.
    cbn [bind try_except].
    unfold Py.max, Py.min. repeat split; intro H.
    + rewrite Q.min_r by lra. rewrite Q.max_r by lra. reflexivity.
    + rewrite Q.min_l by lra. rewrite Q.max_r by lra. reflexivity.
    + rewrite Q.min_r by lra. rewrite Q.max_l by lra. reflexivity.
  - intros [[err Ht] | [scaled [err [Ht Hp]]]]; rewrite Ht; cbn [bind];
      try rewrite Hp; cbn [bind try_except];
      (split; [reflexivity | apply default_risk_bounds]).
Qed.


End RouteRisk.

Lemma prepare_features_columns_witness :
  RiskPredictor.prepare_features (geo := StandIn.planar_geo)
    (tl := StandIn.text_time) Sample.empty_store Sample.fixed_rng
    Sample.at_3am Sample.delhi Sample.rohini (Some "25:99") None
  = (map (fun col => (col, 0.5)) RiskPredictor.feature_columns, 0%nat).
Proof.
  apply (proj2 (proj2
           (prepare_features_columns (geo := StandIn.planar_geo)
              (tl := StandIn.text_time) Sample.empty_store Sample.fixed_rng
              Sample.at_3am Sample.delhi Sample.rohini (Some "25:99") None))
         "25:99" ValueError eq_refl).
  reflexivity.
Defined.

Lemma trained_route_risk_witness :
  RiskPredictor.predict_route_risk (geo := StandIn.planar_geo)
    (tl := StandIn.text_time) (Some Notions2.steady_regressor)
    Sample.empty_store Sample.fixed_rng Sample.at_3am
    Sample.delhi Sample.rohini None None == 0.42
  /\ 0.7 <= RiskPredictor.predict_route_risk (geo := StandIn.planar_geo)
              (tl := StandIn.text_time) (Some Notions2.unfitted_regressor)
              Sample.empty_store Sample.fixed_rng Sample.at_3am
              Sample.delhi Sample.rohini None None.
Proof.
  split.
  - refine (proj1 (proj1
      (trained_route_risk (geo := StandIn.planar_geo)
         (tl := StandIn.text_time) Notions2.steady_regressor
         Sample.empty_store Sample.fixed_rng Sample.at_3am
         Sample.delhi Sample.rohini None None _ eq_refl)
      _ 0.42 eq_refl eq_refl) _).
    lra.
  - refine (proj2 (proj2
      (trained_route_risk (geo := StandIn.planar_geo)
         (tl := StandIn.text_time) Notions2.unfitted_regressor
         Sample.empty_store Sample.fixed_rng Sample.at_3am
         Sample.delhi Sample.rohini None None _ eq_refl)
      (or_intror (ex_intro _ _ (ex_intro _ LibraryError
                                          (conj eq_refl eq_refl)))))).
Defined.


Section Levels.
Import RiskPredictor RiskAdvice Notions2.

(** X6.  The risk level never falls when the score rises, and the
    recommendations go by the level: scores of the same level get the same
    list, which has two entries for "low" and one more for each level
    above it. *)
Theorem risk_level_monotone_and_advice (s1 s2 : Q) :
  (s1 <= s2 ->
   (level_rank (get_risk_level s1) <= level_rank (get_risk_level s2))%nat) /\
  (get_risk_level s1 = get_risk_level s2 ->
   get_recommendations s1 = get_recommendations s2) /\
  length (get_recommendations s1)
  = (2 + level_rank (get_risk_level s1))%nat.
Proof.
  unfold get_risk_level, get_recommendations.
  destruct (Qle_bool 0.8 s1) eqn:A1;
    [apply Qle_bool_iff in A1 | apply Qle_bool_false in A1];
  (destruct (Qle_bool 0.6 s1) eqn:B1;
    [apply Qle_bool_iff in B1 | apply Qle_bool_false in B1]);
  (destruct (Qle_bool 0.4 s1) eqn:C1;
    [apply Qle_bool_iff in C1 | apply Qle_bool_false in C1]);
  (destruct (Qle_bool 0.8 s2) eqn:A2;
    [apply Qle_bool_iff in A2 | apply Qle_bool_false in A2]);
  (destruct (Qle_bool 0.6 s2) eqn:B2;
    [apply Qle_bool_iff in B2 | apply Qle_bool_false in B2]);
  (destruct (Qle_bool 0.4 s2) eqn:C2;
    [apply Qle_bool_iff in C2 | apply Qle_bool_false in C2]);
  (split; [intro H; vm_compute; try lia; exfalso; lra |]);
  (split; [intro H; try reflexivity; discriminate H | reflexivity]).
Qed.

End Levels.

Lemma risk_level_monotone_and_advice_witness :
  (Notions2.level_rank (RiskPredictor.get_risk_level 0.45)
   <= Notions2.level_rank (RiskPredictor.get_risk_level 0.65))%nat /\
  RiskAdvice.get_recommendations 0.6 = RiskAdvice.get_recommendations 0.79.
Proof.
  split.
  - apply (proj1 (risk_level_monotone_and_advice 0.45 0.65)). lra.
  - apply (proj1 (proj2 (risk_level_monotone_and_advice 0.6 0.79))).
    reflexivity.
Defined.

(* ================================================================== *)
(** * Emergency response *)
(* ================================================================== *)

Section SortLength.
Context {A : Type} (key : A -> Q).



End SortLength.

Section Response.
Import EmergencyResponse Notions2.
Context {geo : GeoLib}.




Lemma priorities_of_incomplete (incident_location : latlng)
  (incident_type : string) (resources : list Resource) :
  Exists (fun r => ~ complete r) resources ->
  exists e, priorities_of incident_location incident_type resources = Raise e.
Proof.
  induction 1 as [r rest Hr | r rest _ [e E]]; simpl.
  - assert (R : exists e,
               priority_of incident_location incident_type r = Raise e).
    { unfold priority_of, complete in *.
      destruct (res_latitude r); cbn [item bind]; [| eauto].
      destruct (res_longitude r); cbn [item bind]; [| eauto].
      destruct (res_available r); cbn [item bind]; [| eauto].
      destruct (res_id r); cbn [item bind]; [| eauto].
      destruct (res_type r); cbn [item bind]; [| eauto].
      exfalso. apply Hr. repeat split; discriminate. }
    destruct R as [e ->]. now exists e.
  - destruct (priority_of incident_location incident_type r); cbn [bind];
      [| eauto].
    rewrite E. cbn [bind]. eauto.
Qed.


(** X8.  A single resource that lacks one of its keys (id, type, latitude,
    longitude, available) makes the whole optimisation answer
    "Optimization failed", whatever the other resources are. *)
Theorem optimize_fails_on_missing_key (incident_location : latlng)
  (incident_type severity : string) (resources : list Resource) :
  Exists (fun r => ~ complete r) resources ->
  optimize_emergency_response incident_location incident_type severity
                              resources
  = OptimizationError "Optimization failed".
Proof.
  intro H.
  destruct (priorities_of_incomplete incident_location incident_type
                                     resources H) as [e E].
  unfold optimize_emergency_response. now rewrite E.
Qed.

End Response.



Lemma optimize_fails_on_missing_key_witness :
  EmergencyResponse.optimize_emergency_response (geo := StandIn.planar_geo)
    Sample.delhi "medical" "high"
    [Notions2.ambulance_nearby; Notions2.untyped_resource]
  = EmergencyResponse.OptimizationError "Optimization failed".
Proof.
  apply (optimize_fails_on_missing_key (geo := StandIn.planar_geo)).
  apply Exists_cons_tl, Exists_cons_hd.
  intros (_ & H & _). apply H. reflexivity.
Defined.

(* ================================================================== *)
(** * Further properties of the anomaly detector *)
(* ================================================================== *)

Section Bearings.
Import AnomalyDetector.
Context {nl : NumLib}.

Lemma fmod_range (a b : Q) : 0 < b -> 0 <= Py.fmod a b < b.
Proof.
  intro Hb. unfold Py.fmod.
  pose proof (Qfloor_le (a / b)) as L.
  pose proof (Qlt_floor (a / b)) as U. rewrite inject_Z_plus in U.
  change (inject_Z 1) with 1 in U.
  set (f := inject_Z (Qfloor (a / b))) in *.
  assert (E : a == b * (a / b)) by (field; lra).
  assert (L' : b * f <= b * (a / b)).
  { rewrite !(Qmult_comm b). apply Qmult_le_compat_r; lra. }
  assert (U' : b * (a / b) < b * (f + 1)).
  { rewrite !(Qmult_comm b). apply Qmult_lt_compat_r; lra. }
  setoid_replace (b * (f + 1)) with (b * f + b) in U' by ring.
  lra.
Qed.

Lemma direction_changes_le (locations : list LocationSample) :
  (_count_direction_changes locations <= length locations - 2)%nat.
Proof.
  unfold _count_direction_changes.
  destruct (Nat.ltb_spec (length locations) 3); [lia |].
  clear H. induction locations as [| a r IH]; [simpl; lia |].
  cbn [direction_loop].
  destruct r as [| b [| c r']]; [simpl; lia | simpl; lia |].
  match goal with
  | |- context [if ?t then 1%nat else 0%nat] => destruct t
  end; simpl length in *; lia.
Qed.

(** X9.  A bearing is an angle in [0, 360), whatever numpy returns for the
    trigonometric functions; and a track of n samples has at most n - 2
    direction changes. *)
Theorem bearing_and_direction_bounds
  (point1 point2 : Q * Q) (locations : list LocationSample) :
  0 <= _calculate_bearing point1 point2 < 360 /\
  (_count_direction_changes locations <= length locations - 2)%nat.
Proof.
  split.
  - unfold _calculate_bearing. apply fmod_range. reflexivity.
  - apply direction_changes_le.
Qed.

End Bearings.

Section FeatureBounds.
Import AnomalyDetector.
Context {geo : GeoLib} {tl : TimeLib} {nl : NumLib}.

Lemma of_nat_nonneg (n : nat) : 0 <= Py.of_nat n.
Proof.
  unfold Py.of_nat. change 0 with (inject_Z 0). rewrite <- Zle_Qle. lia.
Qed.

Lemma of_nat_le (n m : nat) : (n <= m)%nat -> Py.of_nat n <= Py.of_nat m.
Proof.
  intro H. unfold Py.of_nat. rewrite <- Zle_Qle. lia.
Qed.

Lemma of_nat_pos (n : nat) : (0 < n)%nat -> 0 < inject_Z (Z.of_nat n).
Proof.
  intro H. change 0 with (inject_Z 0). rewrite <- Zlt_Qlt. lia.
Qed.

Lemma fold_left_max_upper (l : list Q) (a y : Q) :
  In y l -> y <= fold_left Qmax l a.
Proof.
  revert a. induction l as [| x r IH]; intros a H; [contradiction |].
  simpl. destruct H as [-> | H]; [| now apply IH].
  eapply Qle_trans; [| apply (fold_left_max_ge r (Qmax a y))].
  apply Q.le_max_r.
Qed.

Lemma amax_upper (l : list Q) (y : Q) : In y l -> y <= Np.amax l.
Proof.
  destruct l as [| x r]; [contradiction |]. intros [-> | H]; simpl.
  - apply (fold_left_max_ge r y).
  - now apply fold_left_max_upper.
Qed.

Lemma sum_le_bound (l : list Q) (M : Q) :
  (forall y, In y l -> y <= M) ->
  Py.sum l <= inject_Z (Z.of_nat (length l)) * M.
Proof.
  induction l as [| x r IH]; intro H.
  - unfold Py.sum. cbn [fold_left length].
    change (inject_Z (Z.of_nat 0)) with 0. lra.
  - rewrite sum_cons. cbn [length].
    rewrite Nat2Z.inj_succ. unfold Z.succ. rewrite inject_Z_plus.
    change (inject_Z 1) with 1.
    assert (x <= M) by (apply H; now left).
    assert (Py.sum r <= inject_Z (Z.of_nat (length r)) * M)
      by (apply IH; intros; apply H; now right).
    lra.
Qed.

Lemma mean_le_amax (l : list Q) : l <> [] -> Np.mean l <= Np.amax l.
Proof.
  intro H. unfold Np.mean.
  assert (P : 0 < inject_Z (Z.of_nat (length l))).
  { apply of_nat_pos. destruct l; [congruence | simpl; lia]. }
  apply Qle_shift_div_r; [exact P |].
  rewrite Qmult_comm. apply sum_le_bound. apply amax_upper.
Qed.

Lemma mean_nonneg (l : list Q) :
  Forall (fun x => 0 <= x) l -> 0 <= Np.mean l.
Proof.
  intro H. unfold Np.mean.
  destruct l as [| x r].
  - unfold Py.sum. simpl. unfold Qdiv. rewrite Qmult_0_l. lra.
  - apply div_nonneg.
    + apply (fold_left_Qplus_ge _ 0 H).
    + apply of_nat_pos. simpl. lia.
Qed.

Lemma var_nonneg (l : list Q) : 0 <= Np.var l.
Proof.
  unfold Np.var. apply mean_nonneg.
  apply Forall_forall. intros y Hy.
  apply in_map_iff in Hy as [x [<- _]]. apply square_nonneg.
Qed.

Lemma pair_loop_lists (c : clock) (rest : list LocationSample) :
  forall (k : nat) (prev : LocationSample) (ds ts ss : list Q),
    pair_loop c k prev rest = Ok (ds, ts, ss) ->
    Forall (fun x => 0 <= x) ds /\ Forall (fun x => 0 <= x) ss /\
    length ds = length rest /\ length ts = length rest /\
    (length ss <= length rest)%nat.
Proof.
  induction rest as [| curr rest IH]; intros k prev ds ts ss H.
  - cbn [pair_loop] in H. apply ok_eq in H.
    injection H as <- <- <-. repeat split; constructor.
  - cbn [pair_loop] in H.
    destruct (as_datetime (created_or prev (c k))) as [pt |];
      cbn [bind] in H; [| discriminate].
    destruct (as_datetime (created_or curr (c (S k)))) as [ct |];
      cbn [bind] in H; [| discriminate].
    destruct (sub_seconds ct pt) as [dt |]; cbn [bind] in H;
      [| discriminate].
    destruct (pair_loop c (S (S k)) curr rest) as [[[ds' ts'] ss'] |] eqn:E;
      cbn [bind] in H; [| discriminate].
    destruct (IH _ _ _ _ _ E) as (D & S & Ld & Lt & Ls).
    pose proof (geodesic_nonneg (lat_lng (loc_coordinates prev))
                                (lat_lng (loc_coordinates curr))) as G.
    apply ok_eq in H.
    apply (f_equal (fun t => (fst (fst t), snd (fst t), snd t))) in H.
    cbn [fst snd] in H.
    assert (Hd : ds = geodesic (lat_lng (loc_coordinates prev))
                               (lat_lng (loc_coordinates curr)) :: ds')
      by (apply (f_equal (fun t => fst (fst t))) in H; symmetry; exact H).
    assert (Ht : ts = dt :: ts')
      by (apply (f_equal (fun t => snd (fst t))) in H; symmetry; exact H).
    assert (Hs : ss = if Py.Qltb 0 dt
                      then geodesic (lat_lng (loc_coordinates prev))
                                    (lat_lng (loc_coordinates curr))
                           * 1000 / dt :: ss'
                      else ss')
      by (apply (f_equal snd) in H; symmetry; exact H).
    subst ds ts. rewrite Hs. cbn [length].
    split; [constructor; assumption |].
    split.
    { case_Qltb; [| exact S]. constructor; [| exact S].
      apply div_nonneg; lra. }
    split; [now rewrite Ld |]. split; [now rewrite Lt |].
    destruct (Py.Qltb 0 dt); cbn [length]; lia.
Qed.

(** X10.  The movement features of two samples or more are consistent:
    the average speed lies between 0 and the maximum speed, the speed
    variance and the total distance are not negative, the stops are at
    most n - 1 and the direction changes at most n - 2 for n samples, and
    the average time interval does not exceed the largest gap. *)
Theorem movement_features_consistent
  (c : clock) (locations : list LocationSample) (f : list (string * Q)) :
  _extract_movement_features c locations = Ok f ->
  (2 <= length locations)%nat ->
  let value name := Py.get_default String.eqb f name (-1) in
  0 <= value "avg_speed" <= value "max_speed" /\
  0 <= value "speed_variance" /\
  0 <= value "total_distance" /\
  0 <= value "num_stops" <= Py.of_nat (length locations - 1) /\
  0 <= value "direction_changes" <= Py.of_nat (length locations - 2) /\
  value "avg_time_interval" <= value "max_time_gap".
Proof.
  intros H Hn.
  destruct locations as [| first [| second rest]]; simpl in Hn; try lia.
  unfold _extract_movement_features in H.
  destruct (pair_loop c 0 first (second :: rest)) as [[[ds ts] ss] |] eqn:E;
    cbn [bind] in H; [| discriminate].
  destruct (pair_loop_lists _ _ _ _ _ _ _ E) as (D & S & Ld & Lt & Ls).
  apply ok_eq in H. subst f. cbv zeta.
  unfold Py.get_default. cbn [Py.get String.eqb Ascii.eqb Bool.eqb].
  cbn [length] in *.
  split.
  { destruct ss as [| s ss']; cbn [is_empty]; [lra |].
    split; [apply mean_nonneg, S | apply mean_le_amax; discriminate]. }
  split.
  { destruct ss; cbn [is_empty]; [lra | apply var_nonneg]. }
  split; [apply (fold_left_Qplus_ge _ 0 D) |].
  split.
  { split; [apply of_nat_nonneg |]. apply of_nat_le.
    etransitivity; [apply filter_length_le |]. lia. }
  split.
  { split; [apply of_nat_nonneg |]. apply of_nat_le.
    pose proof (direction_changes_le (first :: second :: rest)) as B.
    cbn [length] in B. lia. }
  destruct ts as [| t ts']; [discriminate Lt |].
  cbn [is_empty]. apply mean_le_amax. discriminate.
Qed.

End FeatureBounds.

Lemma movement_features_consistent_witness :
  exists f,
    AnomalyDetector._extract_movement_features (geo := StandIn.planar_geo)
      (tl := StandIn.text_time) (nl := StandIn.rational_numpy)
      Sample.at_3am (Sample.walk 4) = Ok f /\
    0 <= Py.get_default String.eqb f "avg_speed" (-1)
      <= Py.get_default String.eqb f "max_speed" (-1).
Proof.
  eexists. split; [vm_compute; reflexivity |].
  refine (proj1 (movement_features_consistent (geo := StandIn.planar_geo)
                   (tl := StandIn.text_time) (nl := StandIn.rational_numpy)
                   Sample.at_3am (Sample.walk 4) _ _ _)).
  - vm_compute. reflexivity.
  - simpl. lia.
Defined.

Section FlagsAndConfidence.
Import AnomalyDetector.
Context {geo : GeoLib} {tl : TimeLib} {nl : NumLib}.

(** X11.  The speed test flags an anomaly exactly when its confidence is
    positive, on the fixed thresholds as on the subject's own statistics;
    a positive confidence is 0.6, 0.7, 0.8, 0.9 or 1, and a z-score
    above 3 always gives confidence 1. *)
Theorem speed_flag_matches_confidence
  (st : Store) (utcnow : clock) (user : string) (current_speed : option Q)
  (context : option (list (string * jvalue))) :
  let r := detect_speed_anomaly st utcnow user current_speed context in
  (is_anomaly r = true <-> 0 < confidence r) /\
  (confidence r == 0 \/ confidence r == 0.6 \/ confidence r == 0.7 \/
   confidence r == 0.8 \/ confidence r == 0.9 \/ confidence r == 1) /\
  (forall z, Py.get String.eqb (diagnostics r) "z_score" = Some z ->
             3 < z -> is_anomaly r = true /\ confidence r == 1).
Proof.
  cbv zeta. unfold detect_speed_anomaly.
  destruct (length _ <? 20)%nat.
  - unfold _detect_general_speed_anomaly.
    repeat match goal with
           | |- context [if ?b then _ else _] => destruct b
           end; cbn [is_anomaly confidence diagnostics Py.get String.eqb
                     Ascii.eqb Bool.eqb];
      (split; [split; intro H; try reflexivity; try discriminate H;
               try (exfalso; lra); lra |]);
      (split; [lra | intros z H; discriminate H]).
  - cbv zeta. cbn [is_anomaly confidence diagnostics].
    match goal with
    | |- context [Py.Qltb 3 ?z] => set (z_score := z)
    end.
    match goal with
    | |- context [?a || ?b || Py.Qltb 3 z_score] => set (other := a || b)
    end.
    cbn [Py.get String.eqb Ascii.eqb Bool.eqb].
    destruct (Py.Qltb 3 z_score) eqn:Z;
      [apply Qltb_lt in Z | apply Qltb_ge in Z].
    + assert (C : Py.min (z_score / 3) 1.0 == 1).
      { unfold Py.min. rewrite Q.min_r; [reflexivity |].
        apply Qle_shift_div_l; lra. }
      rewrite orb_true_r.
      split; [split; intro; [rewrite C; lra | reflexivity] |].
      split; [rewrite C; lra |].
      intros z Hz Hlt. split; [reflexivity | exact C].
    + rewrite orb_false_r. destruct other.
      * split; [split; intro; [lra | reflexivity] |].
        split; [lra |].
        intros z Hz Hlt. apply some_eq in Hz. subst z. exfalso. lra.
      * split; [split; intro H; [discriminate H | exfalso; lra] |].
        split; [lra |].
        intros z Hz Hlt. apply some_eq in Hz. subst z. exfalso. lra.
Qed.

End FlagsAndConfidence.

Lemma speed_flag_matches_confidence_witness :
  let r := AnomalyDetector.detect_speed_anomaly (nl := StandIn.rational_numpy)
             Notions2.strider_store Sample.at_3am "u1" (Some 20) None in
  exists z,
    Py.get String.eqb (AnomalyDetector.diagnostics r) "z_score" = Some z /\
    3 < z /\ AnomalyDetector.is_anomaly r = true /\
    AnomalyDetector.confidence r == 1.
Proof.
  cbv zeta.
  destruct (@speed_flag_matches_confidence StandIn.rational_numpy
              Notions2.strider_store Sample.at_3am "u1" (Some 20) None)
    as [_ [_ H]].
  eexists. split; [vm_compute; reflexivity |].
  split; [vm_compute; reflexivity |].
  eapply H; vm_compute; reflexivity.
Defined.


Section Thresholds.
Import AnomalyDetector.
Context {geo : GeoLib} {tl : TimeLib} {nl : NumLib}.

Lemma third_gt (z c : Q) : c < z / 3 <-> 3 * c < z.
Proof.
  assert (E : z / 3 == z * (1 # 3)) by field.
  rewrite E. split; intro; lra.
Qed.

(** X12.  The movement test flags an anomaly exactly when its confidence
    exceeds 0.7, and the time-of-day test exactly when its confidence
    exceeds 5/6 (a z-score above 2.5); neither flags anything when it
    answers for lack of data or after an error. *)
Theorem flags_are_confidence_thresholds
  (st : Store) (utcnow : clock) (user : string)
  (locations : list LocationSample)
  (current_time : datetime) (current_location : latlng) :
  let m := detect_movement_anomaly st utcnow user locations in
  let t := detect_time_pattern_anomaly st utcnow user current_time
                                       current_location in
  (is_anomaly m = true <-> 0.7 < confidence m) /\
  (is_anomaly t = true <-> (5 # 6) < confidence t).
Proof.
  cbv zeta. split.
  - unfold detect_movement_anomaly.
    destruct (length locations <? 3)%nat;
      [cbn; split; intro H; [discriminate H | exfalso; lra] |].
    destruct (length _ <? 10)%nat;
      [cbn; split; intro H; [discriminate H | exfalso; lra] |].
    destruct (_extract_movement_features _ locations) as [cf | ?];
      cbn [bind try_except];
      [| cbn; split; intro H; [discriminate H | exfalso; lra]].
    destruct (window_features _ _ _ _ _) as [hf | ?]; cbn [bind try_except];
      [| cbn; split; intro H; [discriminate H | exfalso; lra]].
    destruct (length hf <? 5)%nat; cbn [try_except];
      [cbn; split; intro H; [discriminate H | exfalso; lra] |].
    cbn [is_anomaly confidence]. apply Qltb_lt.
  - unfold detect_time_pattern_anomaly.
    destruct (similar_time_loop _ _ _ _) as [similar | ?];
      cbn [bind try_except];
      [| cbn; split; intro H; [discriminate H | exfalso; lra]].
    destruct (length similar <? 5)%nat; cbn [try_except];
      [cbn; split; intro H; [discriminate H | exfalso; lra] |].
    cbn [is_anomaly confidence].
    match goal with
    | |- context [Py.Qltb 2.5 ?z] => set (z_score := z)
    end.
    rewrite Qltb_lt. unfold Py.min. split; intro H.
    + apply Q.min_glb_lt; [apply third_gt; lra | lra].
    + assert (L : Qmin (z_score / 3) 1.0 <= z_score / 3)
        by apply Q.le_min_l.
      assert (T : (5 # 6) < z_score / 3) by lra.
      apply third_gt in T. lra.
Qed.

Let distance_to (current : latlng) (route : Route) : Q :=
  geodesic current (lat_lng (start_location route)).

Lemma nearest_route_minimal (current : latlng) (routes : list Route) :
  routes <> [] ->
  exists d r,
    nearest_route current routes = Some (d, r) /\
    In r routes /\ d = distance_to current r /\
    forall r', In r' routes -> d <= distance_to current r'.
Proof.
  unfold nearest_route.
  set (step := fun (acc : option (Q * Route)) (route : Route) =>
                 let distance :=
                   geodesic current (lat_lng (start_location route)) in
                 match acc with
                 | None => Some (distance, route)
                 | Some (min_distance, _) =>
                     if Py.Qltb distance min_distance
                     then Some (distance, route) else acc
                 end).
  assert (G : forall rest seen d r,
             In r seen -> d = distance_to current r ->
             (forall r', In r' seen -> d <= distance_to current r') ->
             exists d' r1,
               fold_left step rest (Some (d, r)) = Some (d', r1) /\
               In r1 (seen ++ rest)%list /\ d' = distance_to current r1 /\
               forall r', In r' (seen ++ rest)%list ->
                          d' <= distance_to current r').
  { induction rest as [| x rest IH]; intros seen d r Hin Hd Hmin.
    - exists d, r. rewrite app_nil_r. repeat split; assumption.
    - cbn [fold_left]. unfold step at 2. cbv zeta.
      fold (distance_to current x).
      destruct (Py.Qltb (distance_to current x) d) eqn:E;
        [apply Qltb_lt in E | apply Qltb_ge in E].
      + destruct (IH (seen ++ [x])%list (distance_to current x) x)
          as (d' & r1 & F & I & D & M).
        * apply in_or_app. right. now left.
        * reflexivity.
        * intros r' Hr'. apply in_app_or in Hr' as [Hr' | [<- | []]];
            [| lra]. specialize (Hmin r' Hr'). lra.
        * exists d', r1. rewrite <- app_assoc in I, M.
          repeat split; assumption.
      + destruct (IH (seen ++ [x])%list d r) as (d' & r1 & F & I & D & M).
        * apply in_or_app. now left.
        * exact Hd.
        * intros r' Hr'. apply in_app_or in Hr' as [Hr' | [<- | []]];
            [now apply Hmin | exact E].
        * exists d', r1. rewrite <- app_assoc in I, M.
          repeat split; assumption. }
  destruct routes as [| x rest]; [congruence |]. intros _.
  cbn [fold_left]. unfold step at 2. cbv zeta.
  destruct (G rest [x] (distance_to current x) x) as (d' & r1 & F & I & D & M).
  - now left.
  - reflexivity.
  - intros r' [<- | []]. lra.
  - exists d', r1. repeat split; assumption.
Qed.

(** X13.  For a subject with common routes, [detect_location_deviation]
    reports the distance to the nearest route start and that route; it
    flags a deviation exactly when this distance exceeds 2 km (confidence
    above 0.4) and a major deviation exactly when it exceeds 5 km, in which
    case the confidence is 1. *)
Theorem deviation_is_distance_to_nearest_route
  (st : Store) (utcnow : clock) (user : string) (current : latlng)
  (profile : Profile) :
  get_user_profile st (utcnow 0%nat) user = Some profile ->
  common_routes profile <> [] ->
  let res := detect_location_deviation st utcnow user current in
  exists d r,
    distance_from_route_km res = Some d /\ closest_route res = Some r /\
    In r (common_routes profile) /\
    d = geodesic current (lat_lng (start_location r)) /\
    (forall r', In r' (common_routes profile) ->
                d <= geodesic current (lat_lng (start_location r'))) /\
    (is_deviation res = true <-> 2 < d) /\
    (is_deviation res = true <-> 0.4 < deviation_confidence res) /\
    (is_major_deviation res = Some true <-> 5 < d) /\
    (5 < d -> deviation_confidence res == 1).
Proof.
  intros Hp Hr. cbv zeta. unfold detect_location_deviation. rewrite Hp.
  destruct (nearest_route_minimal current (common_routes profile) Hr)
    as (d & r & E & I & D & M).
  destruct (common_routes profile) as [| x rest] eqn:R; [congruence |].
  rewrite E.
  cbn [distance_from_route_km closest_route is_deviation is_major_deviation
       deviation_confidence].
  exists d, r. split; [reflexivity |]. split; [reflexivity |].
  split; [exact I |]. split; [exact D |]. split; [exact M |].
  assert (Dv : d / 5.0 == d * 0.2) by field.
  assert (G : 0 <= d) by (rewrite D; apply geodesic_nonneg).
  split; [rewrite Qltb_lt; split; intro; lra |].
  split.
  { rewrite Qltb_lt. unfold Py.min. split; intro H.
    - apply Q.min_glb_lt; lra.
    - pose proof (Q.le_min_l (d / 5.0) 1.0). lra. }
  split.
  { split; intro H.
    - apply some_eq in H. apply Qltb_lt in H. lra.
    - f_equal. apply Qltb_lt. lra. }
  intro H. unfold Py.min. rewrite Q.min_r by lra. reflexivity.
Qed.

(** X14.  [detect_location_deviation] answers "No established route
    patterns" with confidence 0 for a user the store does not know, when
    the user lookup fails, and for a user with 10 location samples or
    fewer in the last 30 days. *)
Theorem no_route_patterns_without_history
  (st : Store) (utcnow : clock) (user : string) (current : latlng) :
  (find_user st user = Ok None \/
   (exists e, find_user st user = Raise e) \/
   (length (get_user_movement_patterns st (utcnow 0%nat) user 30) <= 10)%nat) ->
  detect_location_deviation st utcnow user current = no_route_patterns.
Proof.
  intro H. unfold detect_location_deviation, get_user_profile.
  destruct H as [-> | [[e ->] | H]]; try reflexivity.
  destruct (find_user st user) as [[info |] | e]; try reflexivity.
  cbn [bind try_except common_routes].
  unfold _identify_common_routes.
  replace (10 <? length (get_user_movement_patterns st (utcnow 0%nat)
                                                    user 30))%nat
    with false by (symmetry; apply Nat.ltb_ge; exact H).
  reflexivity.
Qed.

End Thresholds.

Lemma deviation_is_distance_to_nearest_route_witness :
  exists d r,
    AnomalyDetector.distance_from_route_km
      (AnomalyDetector.detect_location_deviation (geo := StandIn.planar_geo)
         Sample.walker_store Sample.at_3am "u1" Sample.delhi) = Some d /\
    AnomalyDetector.closest_route
      (AnomalyDetector.detect_location_deviation (geo := StandIn.planar_geo)
         Sample.walker_store Sample.at_3am "u1" Sample.delhi) = Some r /\
    d = geodesic (GeoLib := StandIn.planar_geo) Sample.delhi
                 (lat_lng (start_location r)).
Proof.
  destruct (deviation_is_distance_to_nearest_route (geo := StandIn.planar_geo)
              Sample.walker_store Sample.at_3am "u1" Sample.delhi
              _ eq_refl) as (d & r & Hd & Hr & _ & E & _).
  - vm_compute. discriminate.
  - exists d, r. split; [exact Hd |]. split; [exact Hr | exact E].
Defined.

Lemma no_route_patterns_without_history_witness :
  AnomalyDetector.detect_location_deviation (geo := StandIn.planar_geo)
    Sample.empty_store Sample.at_3am "u1" Sample.delhi
  = AnomalyDetector.no_route_patterns.
Proof.
  apply (no_route_patterns_without_history (geo := StandIn.planar_geo)).
  left. reflexivity.
Defined.

Section Degradation.
Import AnomalyDetector.
Context {geo : GeoLib} {tl : TimeLib} {nl : NumLib}.

(** X15.  When the store cannot be read, the anomaly tests answer as for
    a subject without history instead of failing: the movement test (from
    3 samples on) answers "Insufficient historical data", the speed test
    applies the fixed thresholds, and the time-of-day test answers
    "Insufficient historical data for time comparison". *)
Theorem store_failure_is_no_history
  (st : Store) (utcnow : clock) (user : string)
  (locations : list LocationSample) (current_speed : option Q)
  (context : option (list (string * jvalue)))
  (current_time : datetime) (current_location : latlng) :
  (forall start, exists e, find_user_locations st user start = Raise e) ->
  ((3 <= length locations)%nat ->
   detect_movement_anomaly st utcnow user locations
   = mk_result false 0.0 "Insufficient historical data" []) /\
  detect_speed_anomaly st utcnow user current_speed context
  = _detect_general_speed_anomaly current_speed context /\
  detect_time_pattern_anomaly st utcnow user current_time current_location
  = mk_result false 0.0 "Insufficient historical data for time comparison" [].
Proof.
  intro H.
  assert (E : forall days,
             get_user_movement_patterns st (utcnow 0%nat) user days = []).
  { intro days. unfold get_user_movement_patterns.
    destruct (H (days_before (utcnow 0%nat) days)) as [e ->]. reflexivity. }
  split; [| split].
  - intro Hn. unfold detect_movement_anomaly. rewrite E.
    replace (length locations <? 3)%nat with false
      by (symmetry; apply Nat.ltb_ge; exact Hn).
    reflexivity.
  - unfold detect_speed_anomaly. rewrite E. reflexivity.
  - unfold detect_time_pattern_anomaly. rewrite E. reflexivity.
Qed.

(** X16.  When extracting the features of the current samples raises,
    [detect_movement_anomaly] answers "Detection error" with no anomaly
    and confidence 0.  This is what happens when the first two samples mix
    a timezone-aware and a naive timestamp (a sample without [createdAt]
    counts as naive): their difference raises [TypeError]. *)
Theorem movement_detection_error
  (st : Store) (utcnow : clock) (user : string)
  (first second : LocationSample) (rest : list LocationSample) :
  let locations := first :: second :: rest in
  (3 <= length locations)%nat ->
  (10 <= length (get_user_movement_patterns st (utcnow 0%nat) user 30))%nat ->
  ((exists e, _extract_movement_features (shift 1 utcnow) locations = Raise e)
   -> detect_movement_anomaly st utcnow user locations = detection_error) /\
  (forall a b,
     as_datetime (created_or first (utcnow 1%nat)) = Ok a ->
     as_datetime (created_or second (utcnow 2%nat)) = Ok b ->
     (utcoffset a = None <-> utcoffset b <> None) ->
     _extract_movement_features (shift 1 utcnow) locations = Raise TypeError /\
     detect_movement_anomaly st utcnow user locations = detection_error).
Proof.
  cbv zeta. intros Hn Hh.
  assert (G : (exists e, _extract_movement_features (shift 1 utcnow)
                           (first :: second :: rest) = Raise e) ->
              detect_movement_anomaly st utcnow user (first :: second :: rest)
              = detection_error).
  { intros [e E]. unfold detect_movement_anomaly.
    replace (length (first :: second :: rest) <? 3)%nat with false
      by (symmetry; apply Nat.ltb_ge; exact Hn).
    replace (length (get_user_movement_patterns st (utcnow 0%nat) user 30)
             <? 10)%nat with false
      by (symmetry; apply Nat.ltb_ge; exact Hh).
    rewrite E. reflexivity. }
  split; [exact G |].
  intros a b Ha Hb Hz.
  assert (E : _extract_movement_features (shift 1 utcnow)
                (first :: second :: rest) = Raise TypeError).
  { unfold _extract_movement_features. cbn [pair_loop].
    unfold shift at 1 2. cbn [Nat.add].
    rewrite Ha, Hb. cbn [bind]. unfold sub_seconds.
    destruct (utcoffset a), (utcoffset b); cbn [bind]; try reflexivity;
      exfalso; destruct Hz as [Z1 Z2].
    - assert (N : Some q = None) by (apply Z2; discriminate). discriminate N.
    - apply Z1; reflexivity. }
  split; [exact E |]. apply G. eauto.
Qed.

End Degradation.

Lemma store_failure_is_no_history_witness :
  AnomalyDetector.detect_movement_anomaly (geo := StandIn.planar_geo)
    (tl := StandIn.text_time) (nl := StandIn.rational_numpy)
    Notions2.failing_store Sample.at_3am "u1" (Sample.walk 3)
  = AnomalyDetector.mk_result false 0.0 "Insufficient historical data" [].
Proof.
  apply (store_failure_is_no_history (geo := StandIn.planar_geo)
           (tl := StandIn.text_time) (nl := StandIn.rational_numpy)
           Notions2.failing_store Sample.at_3am "u1" (Sample.walk 3)
           None None (naive 0) Sample.delhi).
  - intro start. exists LibraryError. reflexivity.
  - simpl. lia.
Defined.

Lemma movement_detection_error_witness :
  AnomalyDetector.detect_movement_anomaly (geo := StandIn.planar_geo)
    (tl := StandIn.text_time) (nl := StandIn.rational_numpy)
    Sample.walker_store Sample.at_3am "u1" Notions2.mixed_zones
  = AnomalyDetector.detection_error.
Proof.
  refine (proj2 (proj2
    (movement_detection_error (geo := StandIn.planar_geo)
       (tl := StandIn.text_time) (nl := StandIn.rational_numpy)
       Sample.walker_store Sample.at_3am "u1" _ _ [Sample.step 2] _ _)
    (naive 0) (mk_datetime 60 (Some 0)) _ _ _)).
  - simpl. lia.
  - simpl. lia.
  - vm_compute. reflexivity.
  - reflexivity.
  - simpl. split; [discriminate | reflexivity].
Defined.

(* ================================================================== *)
(** * Properties of the database client *)
(* ================================================================== *)

Section ClientFacts.
Import Notions.


Lemma every_nth_aux_nth {A : Type} (k : nat) (l : list A) :
  (1 <= k)%nat ->
  forall skip i,
    nth_error (Py.every_nth_aux k skip l) i = nth_error l (skip + i * k).
Proof.
  intro Hk. induction l as [| x r IH]; intros skip i.
  - simpl. now rewrite !nth_error_nil.
  - cbn [Py.every_nth_aux]. destruct skip as [| s].
    + destruct i as [| j]; [reflexivity |].
      cbn [nth_error]. rewrite IH.
      replace (0 + S j * k)%nat with (S (k - 1 + j * k)) by lia.
      reflexivity.
    + rewrite IH. reflexivity.
Qed.

Lemma routes_from_nth (freq : nat) (starts : list LocationSample) :
  forall i0 j,
    nth_error (routes_from i0 freq starts) j
    = option_map (fun s => mk_route (i0 + j) (loc_coordinates s) freq)
                 (nth_error starts j).
Proof.
  induction starts as [| s r IH]; intros i0 j.
  - simpl. now rewrite !nth_error_nil.
  - destruct j as [| j]; simpl.
    + now rewrite Nat.add_0_r.
    + rewrite IH. now rewrite Nat.add_succ_r.
Qed.

Lemma routes_from_length (i0 freq : nat) (starts : list LocationSample) :
  length (routes_from i0 freq starts) = length starts.
Proof.
  revert i0. induction starts as [| s r IH]; intro i0; simpl;
    [reflexivity | now rewrite IH].
Qed.

Lemma firstn_nth {A : Type} (n i : nat) (l : list A) (x : A) :
  nth_error (firstn n l) i = Some x -> (i < n)%nat /\ nth_error l i = Some x.
Proof.
  revert i l. induction n as [| n IH]; intros i l H.
  - simpl in H. rewrite nth_error_nil in H. discriminate H.
  - destruct l as [| y r]; [simpl in H; rewrite nth_error_nil in H;
                            discriminate H |].
    destruct i as [| i]; simpl in *; [split; [lia | exact H] |].
    destruct (IH _ _ H). split; [lia | assumption].
Qed.

(** X18.  The common routes of a subject are taken from every tenth
    location sample: route i (i = 0, ..., at most 4) starts at sample
    10 * i, and each has the number of samples divided by 10 as frequency.
    With 10 samples or fewer there is no route, with more there are at
    least two and never more than five. *)
Theorem common_routes_sampling (locations : list LocationSample) :
  let routes := _identify_common_routes locations in
  ((length locations <= 10)%nat -> routes = []) /\
  ((10 < length locations)%nat -> (2 <= length routes <= 5)%nat) /\
  (forall i r,
     nth_error routes i = Some r ->
     (i < 5)%nat /\ route_id r = i /\
     frequency r = (length locations / 10)%nat /\
     exists s, nth_error locations (10 * i) = Some s /\
               start_location r = loc_coordinates s).
Proof.
  cbv zeta. unfold _identify_common_routes.
  destruct (Nat.ltb_spec 10 (length locations)) as [L | L].
  - split; [lia |]. split.
    + intros _. rewrite routes_from_length. split.
      * assert (N : forall i, (i < 2)%nat ->
                   nth_error (firstn 5 (Py.every_nth 10 locations)) i <> None).
        { intros i Hi. rewrite nth_error_firstn.
          replace (i <? 5)%nat with true
            by (symmetry; apply Nat.ltb_lt; lia).
          unfold Py.every_nth. rewrite every_nth_aux_nth by lia.
          apply nth_error_Some. lia. }
        specialize (N 1%nat ltac:(lia)). apply nth_error_Some in N. lia.
      * rewrite length_firstn. lia.
    + intros i r H. rewrite routes_from_nth in H.
      destruct (nth_error (firstn 5 (Py.every_nth 10 locations)) i)
        as [s |] eqn:E; [| discriminate H].
      apply some_eq in H. subst r. cbn [route_id frequency start_location].
      apply firstn_nth in E as [Hi E].
      unfold Py.every_nth in E. rewrite every_nth_aux_nth in E by lia.
      repeat split; try assumption.
      exists s. split; [| reflexivity].
      rewrite <- E. f_equal. lia.
  - split; [reflexivity |]. split; [lia |].
    intros i r H. rewrite nth_error_nil in H. discriminate H.
Qed.

End ClientFacts.


Lemma common_routes_sampling_witness :
  (2 <= length (_identify_common_routes (Sample.walk 12)) <= 5)%nat.
Proof.
  apply (common_routes_sampling (Sample.walk 12)).
  vm_compute. lia.
Defined.

(* ================================================================== *)
(** * The trend report *)
(* ================================================================== *)

Section CountLookups.
Context {K : Type} (eqb : K -> K -> bool).
Hypothesis eqb_spec : forall a b, reflect (a = b) (eqb a b).

Lemma get_update_same (d : list (K * nat)) (k : K) :
  Py.get_default eqb (Py.update eqb d k O S) k O
  = S (Py.get_default eqb d k O).
Proof.
  unfold Py.get_default.
  induction d as [| [k' v] r IH]; simpl.
  - destruct (eqb_spec k k); [reflexivity | congruence].
  - destruct (eqb_spec k k') as [-> | N]; simpl.
    + destruct (eqb_spec k' k'); [reflexivity | congruence].
    + destruct (eqb_spec k k'); [congruence | exact IH].
Qed.

Lemma get_update_other (d : list (K * nat)) (k h : K) :
  h <> k ->
  Py.get_default eqb (Py.update eqb d k O S) h O = Py.get_default eqb d h O.
Proof.
  intro N. unfold Py.get_default.
  induction d as [| [k' v] r IH]; simpl.
  - destruct (eqb_spec h k); [congruence | reflexivity].
  - destruct (eqb_spec k k') as [-> | N']; simpl.
    + destruct (eqb_spec h k'); [congruence | reflexivity].
    + destruct (eqb_spec h k'); [reflexivity | exact IH].
Qed.

(** Summing the counts of a list of distinct keys, after one more
    occurrence of [k] has been counted. *)
Lemma sum_gets_update (d : list (K * nat)) (k : K) (keys : list K) :
  NoDup keys ->
  forall a,
    fold_left Nat.add
      (map (fun h => Py.get_default eqb (Py.update eqb d k O S) h O) keys) a
    = ((if existsb (eqb k) keys then 1 else 0)
       + fold_left Nat.add (map (fun h => Py.get_default eqb d h O) keys) a)%nat.
Proof.
  induction 1 as [| h keys Hh _ IH]; intro a; [reflexivity |].
  cbn [map fold_left existsb]. rewrite IH.
  destruct (eqb_spec k h) as [<- | N]; cbn [orb].
  - rewrite get_update_same.
    replace (existsb (eqb k) keys) with false.
    + assert (F : forall l b, fold_left Nat.add l (S b)
                              = S (fold_left Nat.add l b)).
      { induction l as [| x l IHl]; intro b; [reflexivity |].
        simpl. now rewrite <- IHl. }
      rewrite Nat.add_succ_r, F. reflexivity.
    + symmetry. apply not_true_is_false. intro E.
      apply existsb_exists in E as [x [Hx Ex]].
      destruct (eqb_spec k x); [subst; contradiction | discriminate].
  - rewrite get_update_other by congruence. reflexivity.
Qed.

Lemma max_count_from_greatest (d : list (K * nat)) :
  forall best,
    In (TrendAnalysis.max_count_from best d) (best :: d) /\
    forall kv, In kv (best :: d) ->
               (snd kv <= snd (TrendAnalysis.max_count_from best d))%nat.
Proof.
  induction d as [| x r IH]; intro best;
    cbn [TrendAnalysis.max_count_from].
  - split; [now left |]. intros kv [<- | []]. lia.
  - destruct (Nat.ltb_spec (snd best) (snd x)) as [L | L].
    + destruct (IH x) as [I M]. split.
      * right. exact I.
      * intros kv [<- | Hk]; [| now apply M].
        specialize (M x (or_introl eq_refl)). lia.
    + destruct (IH best) as [I M]. split.
      * destruct I as [<- | I]; [now left | right; now right].
      * intros kv [<- | [<- | Hk]].
        -- apply M. now left.
        -- specialize (M best (or_introl eq_refl)). lia.
        -- apply M. now right.
Qed.

End CountLookups.

Section Temporal.
Import TrendAnalysis Notions.
Context {cal : CalendarLib}.

Lemma range_aux_In (fuel : nat) (i stop x : Z) :
  In x (Py.range_aux fuel i stop 1)
  <-> (i <= x < stop /\ x < i + Z.of_nat fuel)%Z.
Proof.
  revert i. induction fuel as [| f IH]; intro i; cbn [Py.range_aux].
  - simpl. lia.
  - destruct (Z.ltb_spec i stop); cbn [In]; [rewrite IH |]; lia.
Qed.

Lemma range_In (lo hi x : Z) : In x (Py.range lo hi 1) <-> (lo <= x < hi)%Z.
Proof.
  unfold Py.range. rewrite range_aux_In. lia.
Qed.

Lemma range_aux_NoDup (fuel : nat) (i stop : Z) :
  NoDup (Py.range_aux fuel i stop 1).
Proof.
  revert i. induction fuel as [| f IH]; intro i; cbn [Py.range_aux];
    [constructor |].
  destruct (Z.ltb_spec i stop); constructor; [| apply IH].
  rewrite range_aux_In. lia.
Qed.

Lemma existsb_range (lo hi k : Z) :
  existsb (Z.eqb k) (Py.range lo hi 1) = ((lo <=? k) && (k <? hi))%Z.
Proof.
  destruct (existsb (Z.eqb k) (Py.range lo hi 1)) eqn:E.
  - apply existsb_exists in E as [x [Hx Ex]].
    apply Z.eqb_eq in Ex. subst x. apply range_In in Hx.
    symmetry. apply andb_true_iff. rewrite Z.leb_le, Z.ltb_lt. lia.
  - symmetry. apply not_true_is_false. intro T.
    apply andb_true_iff in T. rewrite Z.leb_le, Z.ltb_lt in T.
    assert (X : existsb (Z.eqb k) (Py.range lo hi 1) = true).
    { apply existsb_exists. exists k. split; [apply range_In; lia |].
      apply Z.eqb_refl. }
    congruence.
Qed.

Lemma sum_hours_update (d : list (Z * nat)) (k lo hi : Z) :
  sum_hours (Py.update Z.eqb d k O S) lo hi
  = ((if ((lo <=? k) && (k <? hi))%Z then 1 else 0) + sum_hours d lo hi)%nat.
Proof.
  unfold sum_hours.
  rewrite (sum_gets_update Z.eqb Z.eqb_spec d k (Py.range lo hi 1)
             (range_aux_NoDup _ _ _) O).
  now rewrite existsb_range.
Qed.

(** The hours of the day, in the three ranges the report sums over. *)
Lemma hours_partition (ts : list datetime) :
  let hourly := Py.count_by Z.eqb Datetime.hour ts in
  (sum_hours hourly 22 24 + sum_hours hourly 0 6 + sum_hours hourly 6 22
   = length ts)%nat.
Proof.
  cbv zeta. unfold Py.count_by.
  enough (G : forall d,
             (sum_hours (fold_left
                           (fun d x => Py.update Z.eqb d (Datetime.hour x) O S)
                           ts d) 22 24
              + sum_hours (fold_left
                           (fun d x => Py.update Z.eqb d (Datetime.hour x) O S)
                           ts d) 0 6
              + sum_hours (fold_left
                           (fun d x => Py.update Z.eqb d (Datetime.hour x) O S)
                           ts d) 6 22
              = length ts
                + (sum_hours d 22 24 + sum_hours d 0 6 + sum_hours d 6 22))%nat).
  { rewrite G.
    change (sum_hours [] 22 24) with O. change (sum_hours [] 0 6) with O.
    change (sum_hours [] 6 22) with O. lia. }
  induction ts as [| t r IH]; intro d; [reflexivity |].
  cbn [fold_left length]. rewrite IH, !sum_hours_update.
  pose proof (hour_range t) as H.
  destruct (Z.leb_spec 22 (Datetime.hour t));
    destruct (Z.ltb_spec (Datetime.hour t) 24);
    destruct (Z.leb_spec 0 (Datetime.hour t));
    destruct (Z.ltb_spec (Datetime.hour t) 6);
    destruct (Z.leb_spec 6 (Datetime.hour t));
    destruct (Z.ltb_spec (Datetime.hour t) 22); cbn [andb]; lia.
Qed.

Lemma timestamps_length (incidents : list Incident) (ts : list datetime) :
  timestamps incidents = Ok ts -> length ts = length incidents.
Proof.
  revert ts. induction incidents as [| i r IH]; intros ts H; simpl in H.
  - apply ok_eq in H. now subst.
  - destruct (created i); cbn [bind] in H; [| discriminate].
    destruct (timestamps r) as [ts' |]; cbn [bind] in H; [| discriminate].
    apply ok_eq in H. subst ts. simpl. now rewrite (IH ts' eq_refl).
Qed.

Lemma timestamps_missing (incidents : list Incident) :
  Exists (fun i => inc_createdAt i = None) incidents ->
  timestamps incidents = Raise KeyError.
Proof.
  induction 1 as [i r H | i r _ IH]; simpl; unfold created.
  - now rewrite H.
  - destruct (inc_createdAt i); [| reflexivity].
    cbn [bind]. now rewrite IH.
Qed.

Lemma most_common_greatest {K : Type} (d : list (K * nat)) (dflt : K) :
  d <> [] ->
  exists c, In (most_common d dflt, c) d /\
            forall kv, In kv d -> (snd kv <= c)%nat.
Proof.
  destruct d as [| kv r]; [congruence |]. intros _.
  destruct (max_count_from_greatest r kv) as [I M].
  exists (snd (max_count_from kv r)). cbn [most_common]. split; [| exact M].
  now rewrite <- surjective_pairing.
Qed.

End Temporal.

Section Summary.
Import TrendAnalysis Notions Notions2.

Lemma round2_below (x : Q) (n : nat) :
  0 <= x <= Py.of_nat n -> 0 <= Py.round x 2 <= Py.of_nat n.
Proof.
  intros [H0 H1]. unfold Py.round, Py.of_nat in *.
  change (inject_Z (10 ^ Z.of_nat 2)) with (inject_Z 100).
  destruct (round_half_even_between (x * inject_Z 100) 0
              (100 * Z.of_nat n)) as [L U].
  - change (inject_Z 0) with 0. change (inject_Z 100) with 100. lra.
  - rewrite inject_Z_mult. change (inject_Z 100) with 100. lra.
  - assert (L' : 0 <= inject_Z (Py.round_half_even (x * inject_Z 100))).
    { change 0 with (inject_Z 0). now rewrite <- Zle_Qle. }
    assert (U' : inject_Z (Py.round_half_even (x * inject_Z 100))
                 <= 100 * inject_Z (Z.of_nat n)).
    { change 100 with (inject_Z 100). rewrite <- inject_Z_mult.
      now rewrite <- Zle_Qle. }
    change (inject_Z 100) with 100 in *. split.
    + apply Qle_shift_div_l; lra.
    + apply Qle_shift_div_r; lra.
Qed.

Lemma count_by_nonempty {K A : Type} (eqb : K -> K -> bool) (key : A -> K)
  (l : list A) :
  l <> [] -> Py.count_by eqb key l <> [].
Proof.
  intros N Z. apply (f_equal dict_total) in Z.
  rewrite count_by_total in Z. destruct l; [congruence | discriminate].
Qed.

(** X20.  The summary of a trend report counts every incident once by
    severity and once by type, names a severity and a type of greatest
    count, and gives a daily average between 0 and the number of
    incidents; of no incidents it is the zero summary with "unknown" for
    both.  It is computed whenever the last incident has a [createdAt] that
    can be subtracted from the clock's reading, and raises [KeyError] when
    the last incident has none; no other [createdAt] is read. *)
Theorem summary_counts_every_incident (utcnow : datetime)
  (incidents : list Incident) :
  (incidents = [] \/
   (exists front final t,
      incidents = (front ++ [final])%list /\ inc_createdAt final = Some t /\
      comparable utcnow t) ->
   exists s, _analyze_summary_stats utcnow incidents = Ok s) /\
  (forall front final,
     incidents = (front ++ [final])%list -> inc_createdAt final = None ->
     _analyze_summary_stats utcnow incidents = Raise KeyError) /\
  (forall s,
     _analyze_summary_stats utcnow incidents = Ok s ->
     TrendAnalysis.total_incidents s = length incidents /\
     dict_total (TrendAnalysis.severity_distribution s) = length incidents /\
     dict_total (TrendAnalysis.type_distribution s) = length incidents /\
     0 <= daily_average s <= Py.of_nat (length incidents) /\
     (incidents = [] ->
      daily_average s == 0 /\ most_common_severity s = "unknown" /\
      most_common_type s = "unknown") /\
     (incidents <> [] ->
      (exists c,
         In (most_common_severity s, c) (TrendAnalysis.severity_distribution s)
         /\ forall kv, In kv (TrendAnalysis.severity_distribution s) ->
                       (snd kv <= c)%nat) /\
      (exists c,
         In (most_common_type s, c) (TrendAnalysis.type_distribution s)
         /\ forall kv, In kv (TrendAnalysis.type_distribution s) ->
                       (snd kv <= c)%nat))).
Proof.
  unfold _analyze_summary_stats. split; [| split].
  - intros [-> | [front [final [t [-> [E C]]]]]]; [eexists; reflexivity |].
    destruct (front ++ [final])%list as [| i r] eqn:L;
      [now destruct front |].
    rewrite <- L, last_last. unfold created. rewrite E. cbn [bind].
    unfold sub_seconds. unfold comparable in C.
    destruct (utcoffset utcnow), (utcoffset t); cbn [bind];
      try (eexists; reflexivity).
    + destruct C as [_ C]. specialize (C eq_refl). discriminate.
    + destruct C as [C _]. specialize (C eq_refl). discriminate.
  - intros front final -> E.
    destruct (front ++ [final])%list as [| i r] eqn:L;
      [now destruct front |].
    rewrite <- L, last_last. unfold created. rewrite E. reflexivity.
  - intros s H.
    assert (A : exists average,
               0 <= average <= Py.of_nat (length incidents) /\
               (incidents = [] -> average == 0) /\
               s = {| TrendAnalysis.total_incidents := length incidents;
                      daily_average := Py.round average 2;
                      TrendAnalysis.severity_distribution :=
                        Py.count_by String.eqb
                          (fun i => or_unknown (inc_severity i)) incidents;
                      TrendAnalysis.type_distribution :=
                        Py.count_by String.eqb
                          (fun i => or_unknown (inc_type i)) incidents;
                      most_common_severity :=
                        most_common
                          (Py.count_by String.eqb
                             (fun i => or_unknown (inc_severity i)) incidents)
                          "unknown";
                      most_common_type :=
                        most_common
                          (Py.count_by String.eqb
                             (fun i => or_unknown (inc_type i)) incidents)
                          "unknown" |}).
    { destruct incidents as [| i r].
      - cbn [bind] in H. apply ok_eq in H. exists 0. split; [| split].
        + split; apply Qle_refl.
        + reflexivity.
        + now symmetry.
      - destruct (created (last (i :: r) i)) as [t |]; cbn [bind] in H;
          [| discriminate].
        destruct (sub_seconds utcnow t) as [delta |]; cbn [bind] in H;
          [| discriminate].
        apply ok_eq in H. eexists. split; [| split; [| symmetry; exact H]].
        + pose proof (of_nat_nonneg (length (i :: r))) as P.
          set (n := Py.of_nat (length (i :: r))) in *.
          set (m := Z.max (Qfloor (delta / 86400) + 1) 1).
          assert (M : 1 <= inject_Z m).
          { change 1 with (inject_Z 1). rewrite <- Zle_Qle. subst m. lia. }
          split.
          * apply Qle_shift_div_l; lra.
          * apply Qle_shift_div_r; [lra |]. nra.
        + discriminate. }
    destruct A as [average [B [Z ->]]].
    cbn [TrendAnalysis.total_incidents TrendAnalysis.severity_distribution
         TrendAnalysis.type_distribution daily_average most_common_severity
         most_common_type].
    split; [reflexivity |].
    split; [apply count_by_total |].
    split; [apply count_by_total |].
    split; [now apply round2_below |].
    split.
    + intros ->. split; [| split; reflexivity].
      destruct (round2_below average 0 B) as [L U].
      apply Qle_antisym; [exact U | exact L].
    + intro N. split; apply most_common_greatest;
        now apply count_by_nonempty.
Qed.

Lemma summary_counts_every_incident_witness :
  exists s,
    _analyze_summary_stats (naive 90000) Sample.corner = Ok s /\
    TrendAnalysis.total_incidents s = 10%nat /\
    dict_total (TrendAnalysis.severity_distribution s) = 10%nat /\
    _analyze_summary_stats (naive 90000) (Sample.corner ++ [undated])%list
    = Raise KeyError.
Proof.
  destruct (summary_counts_every_incident (naive 90000) Sample.corner)
    as [T [_ P]].
  destruct T as [s E].
  - right. exists (firstn 9 Sample.corner), (Sample.corner_incident 9).
    eexists. split; [reflexivity |]. split; [reflexivity |].
    unfold comparable. simpl. tauto.
  - exists s. split; [exact E |].
    destruct (P s E) as [A [B _]]. split; [exact A |]. split; [exact B |].
    apply (proj1 (proj2 (summary_counts_every_incident (naive 90000)
                           (Sample.corner ++ [undated])%list))
             Sample.corner undated eq_refl eq_refl).
Defined.

End Summary.

Section Spatial.
Import TrendAnalysis Notions Notions2.
Context {cl : ClusterLib}.

Lemma fold_left_min_le (l : list Q) (a : Q) : fold_left Qmin l a <= a.
Proof.
  revert a. induction l as [| x r IH]; intro a; simpl; [lra |].
  eapply Qle_trans; [apply IH |]. apply Q.le_min_l.
Qed.

Lemma fold_left_min_lower (l : list Q) (a y : Q) :
  In y l -> fold_left Qmin l a <= y.
Proof.
  revert a. induction l as [| x r IH]; intros a H; [contradiction |].
  simpl. destruct H as [-> | H]; [| now apply IH].
  eapply Qle_trans; [apply (fold_left_min_le r (Qmin a y)) |].
  apply Q.le_min_r.
Qed.

Lemma amin_lower (l : list Q) (y : Q) : In y l -> amin l <= y.
Proof.
  destruct l as [| x r]; [contradiction |]. intros [-> | H]; simpl.
  - apply (fold_left_min_le r y).
  - now apply fold_left_min_lower.
Qed.

Lemma label_set_length (labels seen : list Z) :
  (length (PatternAnalyzer.label_set labels seen) <= length labels)%nat.
Proof.
  revert seen. induction labels as [| l r IH]; intro seen; simpl; [lia |].
  destruct (existsb (Z.eqb l) seen); simpl.
  - specialize (IH seen). lia.
  - specialize (IH (l :: seen)). lia.
Qed.

Lemma located_In (incidents : list Incident) (i : Incident) (lng lat : Q) :
  In i incidents -> inc_coordinates i = Some (lng, lat) ->
  In (lat, lng) (map fst (PatternAnalyzer.located incidents)).
Proof.
  intros Hi Hc. apply in_map_iff. exists ((lat, lng), i). split; [reflexivity |].
  unfold PatternAnalyzer.located. apply in_flat_map. exists i.
  split; [exact Hi |]. rewrite Hc. now left.
Qed.

(** X21.  The spatial section of a trend report is empty for no incidents
    and an error when fewer than five incidents carry coordinates.
    Otherwise its bounding box contains the location of every incident
    that has one and the reported centre, both ranges are the sides of the
    box, clusters are only counted from ten locations on and are never
    more than the locations, and the density is positive and at most 1000
    times the number of incidents. *)
Theorem spatial_box_contains_every_location (incidents : list Incident) :
  let locations := length (PatternAnalyzer.located incidents) in
  (incidents = [] -> _analyze_spatial_trends incidents = SpatialEmpty) /\
  (incidents <> [] -> (locations < 5)%nat ->
   _analyze_spatial_trends incidents
   = SpatialError "Insufficient location data") /\
  ((5 <= locations)%nat ->
   exists s,
     _analyze_spatial_trends incidents = SpatialOf s /\
     (forall i lng lat,
        In i incidents -> inc_coordinates i = Some (lng, lat) ->
        min_lat (bounding_box s) <= lat <= max_lat (bounding_box s) /\
        min_lng (bounding_box s) <= lng <= max_lng (bounding_box s)) /\
     min_lat (bounding_box s) <= fst (TrendAnalysis.center s)
       <= max_lat (bounding_box s) /\
     min_lng (bounding_box s) <= snd (TrendAnalysis.center s)
       <= max_lng (bounding_box s) /\
     lat_range s == max_lat (bounding_box s) - min_lat (bounding_box s) /\
     lng_range s == max_lng (bounding_box s) - min_lng (bounding_box s) /\
     (cluster_count s <= locations)%nat /\
     ((locations < 10)%nat -> cluster_count s = O) /\
     0 < incident_density s <= 1000 * Py.of_nat (length incidents)).
Proof.
  cbv zeta. unfold _analyze_spatial_trends.
  split; [now intros -> |]. split.
  - intros N L. destruct incidents as [| i r]; [congruence |].
    rewrite length_map. apply Nat.ltb_lt in L. now rewrite L.
  - intro L.
    destruct incidents as [| i0 r0] eqn:EI; [simpl in L; lia |].
    rewrite <- EI in *. clear EI.
    rewrite length_map.
    destruct (Nat.ltb_spec (length (PatternAnalyzer.located incidents)) 5)
      as [L' | _]; [lia |].
    set (coordinates := map fst (PatternAnalyzer.located incidents)).
    assert (Lc : length coordinates
                 = length (PatternAnalyzer.located incidents)).
    { apply length_map. }
    eexists. split; [reflexivity |].
    cbn [bounding_box min_lat max_lat min_lng max_lng TrendAnalysis.center
         lat_range lng_range cluster_count incident_density fst snd].
    assert (B : forall lat lng, In (lat, lng) coordinates ->
                amin (map fst coordinates) <= lat
                  <= Np.amax (map fst coordinates) /\
                amin (map snd coordinates) <= lng
                  <= Np.amax (map snd coordinates)).
    { intros lat lng H. repeat split.
      - apply amin_lower. apply (in_map fst _ _ H).
      - apply amax_upper. apply (in_map fst _ _ H).
      - apply amin_lower. apply (in_map snd _ _ H).
      - apply amax_upper. apply (in_map snd _ _ H). }
    assert (P : exists lat lng, In (lat, lng) coordinates).
    { destruct coordinates as [| [lat lng] r]; [simpl in Lc; lia |].
      exists lat, lng. now left. }
    destruct P as [lat0 [lng0 P]]. destruct (B lat0 lng0 P) as [Blat Blng].
    set (lo_lat := amin (map fst coordinates)) in *.
    set (hi_lat := Np.amax (map fst coordinates)) in *.
    set (lo_lng := amin (map snd coordinates)) in *.
    set (hi_lng := Np.amax (map snd coordinates)) in *.
    split.
    { intros i lng lat Hi Hc. apply B.
      now apply (located_In incidents i lng lat). }
    split.
    { split; [apply Qle_shift_div_l | apply Qle_shift_div_r]; lra. }
    split.
    { split; [apply Qle_shift_div_l | apply Qle_shift_div_r]; lra. }
    split; [reflexivity |]. split; [reflexivity |].
    split.
    { destruct (10 <=? length (PatternAnalyzer.located incidents))%nat;
        [| lia].
      pose proof (label_set_length (dbscan_labels 0.01 3 coordinates) []) as S.
      rewrite dbscan_labels_length, Lc in S. lia. }
    split.
    { intro L10.
      destruct (Nat.leb_spec 10 (length (PatternAnalyzer.located incidents)));
        [lia | reflexivity]. }
    pose proof (Q.le_max_r ((hi_lat - lo_lat) * (hi_lng - lo_lng)) 0.001) as M.
    unfold Py.max.
    set (m := Qmax ((hi_lat - lo_lat) * (hi_lng - lo_lng)) 0.001) in *.
    assert (N : 0 < Py.of_nat (length incidents)).
    { apply of_nat_pos. destruct incidents; [| simpl; lia].
      simpl in L. lia. }
    split.
    + apply Qlt_shift_div_l; lra.
    + apply Qle_shift_div_r; [lra |]. nra.
Qed.

End Spatial.

Lemma spatial_box_contains_every_location_witness :
  @TrendAnalysis._analyze_spatial_trends StandIn.one_pass_clusters [Notions2.undated]
  = TrendAnalysis.SpatialError "Insufficient location data" /\
  exists s,
    @TrendAnalysis._analyze_spatial_trends StandIn.one_pass_clusters Sample.corner
    = TrendAnalysis.SpatialOf s /\
    TrendAnalysis.min_lat (TrendAnalysis.bounding_box s) <= 28.6139 + 3 * 0.0001
      <= TrendAnalysis.max_lat (TrendAnalysis.bounding_box s) /\
    (TrendAnalysis.cluster_count s <= 10)%nat.
Proof.
  split.
  - apply (proj1 (proj2 (@spatial_box_contains_every_location
                           StandIn.one_pass_clusters [Notions2.undated])));
      [discriminate | simpl; lia].
  - destruct (proj2 (proj2 (@spatial_box_contains_every_location
                              StandIn.one_pass_clusters Sample.corner)))
      as [s [E [B [_ [_ [_ [_ [C _]]]]]]]]; [vm_compute; lia |].
    exists s. split; [exact E |]. split; [| exact C].
    destruct (B (Sample.corner_incident 3) 77.2090 (28.6139 + 3 * 0.0001))
      as [G _].
    + unfold Sample.corner. simpl. tauto.
    + reflexivity.
    + exact G.
Defined.

Section DictLookups.
Context {K V : Type} (eqb : K -> K -> bool).
Hypothesis eqb_spec : forall a b, reflect (a = b) (eqb a b).

Lemma get_default_update_same (d : list (K * V)) (k : K) (dflt : V)
  (f : V -> V) :
  Py.get_default eqb (Py.update eqb d k dflt f) k dflt
  = f (Py.get_default eqb d k dflt).
Proof.
  unfold Py.get_default.
  induction d as [| [k' v] r IH]; simpl.
  - destruct (eqb_spec k k); [reflexivity | congruence].
  - destruct (eqb_spec k k') as [-> | N]; simpl.
    + destruct (eqb_spec k' k'); [reflexivity | congruence].
    + destruct (eqb_spec k k'); [congruence | exact IH].
Qed.

Lemma get_default_update_other (d : list (K * V)) (k h : K) (dflt x : V)
  (f : V -> V) :
  h <> k ->
  Py.get_default eqb (Py.update eqb d k dflt f) h x
  = Py.get_default eqb d h x.
Proof.
  intro N. unfold Py.get_default.
  induction d as [| [k' v] r IH]; simpl.
  - destruct (eqb_spec h k); [congruence | reflexivity].
  - destruct (eqb_spec k k') as [-> | N']; simpl.
    + destruct (eqb_spec h k'); [congruence | reflexivity].
    + destruct (eqb_spec h k'); [reflexivity | exact IH].
Qed.

Lemma update_keys (d : list (K * V)) (k : K) (dflt : V) (f : V -> V) :
  map fst (Py.update eqb d k dflt f)
  = if existsb (eqb k) (map fst d) then map fst d
    else (map fst d ++ [k])%list.
Proof.
  induction d as [| [k' v] r IH]; simpl; [reflexivity |].
  destruct (eqb k k'); simpl; [reflexivity |].
  rewrite IH. now destruct (existsb (eqb k) (map fst r)).
Qed.

Lemma update_keys_In (d : list (K * V)) (k : K) (dflt : V) (f : V -> V)
  (x : K) :
  In x (map fst (Py.update eqb d k dflt f)) <-> In x (map fst d) \/ x = k.
Proof.
  rewrite update_keys.
  destruct (existsb (eqb k) (map fst d)) eqn:E.
  - apply existsb_exists in E as [y [Hy Ey]].
    destruct (eqb_spec k y); [subst y | discriminate].
    split; [tauto |]. intros [H | ->]; assumption.
  - rewrite in_app_iff. simpl. intuition.
Qed.

Lemma update_keys_NoDup (d : list (K * V)) (k : K) (dflt : V) (f : V -> V) :
  NoDup (map fst d) -> NoDup (map fst (Py.update eqb d k dflt f)).
Proof.
  intro N. rewrite update_keys.
  destruct (existsb (eqb k) (map fst d)) eqn:E; [exact N |].
  apply NoDup_app; [exact N | repeat constructor; intros [] |].
  intros x Hx [-> | []].
  assert (T : existsb (eqb x) (map fst d) = true).
  { apply existsb_exists. exists x. split; [exact Hx |].
    destruct (eqb_spec x x); [reflexivity | congruence]. }
  congruence.
Qed.

End DictLookups.

Section Timelines.
Import TrendAnalysis Notions Notions2.

Lemma timeline_get_incr (t : timeline_dict) (d : Z) (k : string) (d' : Z)
  (k' : string) :
  timeline_get (timeline_incr t d k) d' k'
  = ((if (d' =? d)%Z && String.eqb k' k then 1 else 0)
     + timeline_get t d' k')%nat.
Proof.
  unfold timeline_get, timeline_incr.
  destruct (Z.eqb_spec d' d) as [-> | N].
  - rewrite (get_default_update_same Z.eqb Z.eqb_spec).
    destruct (String.eqb_spec k' k) as [-> | N']; cbn [andb].
    + now rewrite (get_default_update_same String.eqb String.eqb_spec).
    + now rewrite (get_default_update_other String.eqb String.eqb_spec).
  - now rewrite (get_default_update_other Z.eqb Z.eqb_spec).
Qed.

Lemma timeline_get_touch (t : timeline_dict) (d : Z) (k : string) (d' : Z)
  (k' : string) :
  timeline_get (timeline_touch t d k) d' k' = timeline_get t d' k'.
Proof.
  unfold timeline_get, timeline_touch.
  destruct (Z.eqb_spec d' d) as [-> | N].
  - rewrite (get_default_update_same Z.eqb Z.eqb_spec).
    destruct (String.eqb_spec k' k) as [-> | N'].
    + now rewrite (get_default_update_same String.eqb String.eqb_spec).
    + now rewrite (get_default_update_other String.eqb String.eqb_spec).
  - now rewrite (get_default_update_other Z.eqb Z.eqb_spec).
Qed.

Lemma touch_week_get (week : list Z) (k : string) (t : timeline_dict)
  (d' : Z) (k' : string) :
  timeline_get (touch_week t week k) d' k' = timeline_get t d' k'.
Proof.
  unfold touch_week. revert t.
  induction week as [| d r IH]; intro t; [reflexivity |].
  cbn [fold_left]. rewrite IH. apply timeline_get_touch.
Qed.

Lemma week_count_ext (t t' : timeline_dict) (week : list Z) (k : string) :
  (forall d, timeline_get t d k = timeline_get t' d k) ->
  week_count t week k = week_count t' week k.
Proof.
  intro H. unfold week_count. f_equal. apply map_ext. intro d. apply H.
Qed.

Lemma week_count_zero (t : timeline_dict) (week : list Z) (k : string) :
  (forall d, timeline_get t d k = O) -> week_count t week k = O.
Proof.
  intro H. unfold week_count.
  induction week as [| d r IH]; [reflexivity |].
  cbn [map fold_left]. now rewrite H.
Qed.

(** The entries of a timeline with a given day and label. *)
Lemma build_timeline_get (entries : list (Z * string)) (d : Z) (k : string) :
  timeline_get (build_timeline entries) d k
  = length (filter (fun e => (d =? fst e)%Z && String.eqb k (snd e)) entries).
Proof.
  unfold build_timeline.
  enough (G : forall t,
             timeline_get
               (fold_left (fun t e => timeline_incr t (fst e) (snd e))
                          entries t) d k
             = (length (filter (fun e => (d =? fst e)%Z
                                         && String.eqb k (snd e)) entries)
                + timeline_get t d k)%nat).
  { rewrite G. unfold timeline_get, Py.get_default. simpl. lia. }
  induction entries as [| e r IH]; intro t; [reflexivity |].
  cbn [fold_left filter]. rewrite IH, timeline_get_incr.
  destruct ((d =? fst e)%Z && String.eqb k (snd e)); simpl; lia.
Qed.

Lemma build_timeline_keys (entries : list (Z * string)) :
  NoDup (map fst (build_timeline entries)) /\
  forall x, In x (map fst (build_timeline entries))
            <-> In x (map fst entries).
Proof.
  unfold build_timeline.
  enough (G : forall t : timeline_dict,
             NoDup (map fst t) ->
             NoDup (map fst (fold_left
                               (fun t e => timeline_incr t (fst e) (snd e))
                               entries t)) /\
             forall x,
               In x (map fst (fold_left
                                (fun t e => timeline_incr t (fst e) (snd e))
                                entries t))
               <-> In x (map fst t) \/ In x (map fst entries)).
  { destruct (G [] (NoDup_nil _)) as [N I]. split; [exact N |].
    intro x. rewrite I. simpl. tauto. }
  induction entries as [| e r IH]; intros t N.
  - split; [exact N |]. intro x. simpl. tauto.
  - cbn [fold_left].
    destruct (IH (timeline_incr t (fst e) (snd e))) as [N' I'].
    { apply (update_keys_NoDup Z.eqb Z.eqb_spec), N. }
    split; [exact N' |]. intro x. rewrite I'.
    unfold timeline_incr. rewrite (update_keys_In Z.eqb Z.eqb_spec).
    simpl. intuition.
Qed.

Lemma insert_Z_length (x : Z) (l : list Z) :
  length (Py.insert_Z x l) = S (length l).
Proof.
  induction l as [| y r IH]; simpl; [reflexivity |].
  destruct (x <=? y)%Z; simpl; [reflexivity | now rewrite IH].
Qed.

Lemma sorted_Z_length (l : list Z) : length (Py.sorted_Z l) = length l.
Proof.
  induction l as [| x r IH]; simpl; [reflexivity |].
  now rewrite insert_Z_length, IH.
Qed.

Lemma dated_ok (label : Incident -> string) (incidents : list Incident) :
  Forall timestamped incidents ->
  exists entries,
    dated label incidents = Ok entries /\
    map fst entries = days_of incidents /\
    forall d k,
      length (filter (fun e => (d =? fst e)%Z && String.eqb k (snd e)) entries)
      = tally label incidents d k.
Proof.
  induction 1 as [| i r Hi _ [es [E [D T]]]].
  - exists []. repeat split.
  - unfold timestamped in Hi. cbn [dated].
    unfold PatternAnalyzer.incident_date, days_of, tally.
    destruct (inc_createdAt i) as [t |] eqn:Ei; [| congruence].
    cbn [bind]. rewrite E. cbn [bind]. eexists. split; [reflexivity |].
    split.
    + cbn [map fst flat_map]. rewrite Ei. cbn [app]. f_equal. exact D.
    + intros d k. cbn [filter fst snd]. rewrite Ei.
      rewrite (Z.eqb_sym (date t) d), (String.eqb_sym (label i) k).
      destruct ((d =? date t)%Z && String.eqb k (label i)); cbn [length];
        [f_equal |]; apply T.
Qed.

Lemma dated_missing (label : Incident -> string) (incidents : list Incident) :
  Exists (fun i => inc_createdAt i = None) incidents ->
  dated label incidents = Raise KeyError.
Proof.
  induction 1 as [i r H | i r _ IH]; cbn [dated];
    unfold PatternAnalyzer.incident_date.
  - now rewrite H.
  - destruct (inc_createdAt i); [| reflexivity].
    cbn [bind]. now rewrite IH.
Qed.

(** The days of a timeline are the different days of the incidents. *)
Lemma timeline_days (label : Incident -> string) (incidents : list Incident)
  (entries : list (Z * string)) :
  map fst entries = days_of incidents ->
  length (Py.sorted_Z (map fst (build_timeline entries)))
  = distinct_days incidents.
Proof.
  intro D. rewrite sorted_Z_length. unfold distinct_days. rewrite <- D.
  destruct (build_timeline_keys entries) as [N I].
  apply Permutation_length, NoDup_Permutation;
    [exact N | apply NoDup_nodup |].
  intro x. rewrite I. symmetry. apply nodup_In.
Qed.

Lemma severity_totals (incidents : list Incident) :
  (count_severity "critical" incidents + count_severity "high" incidents
   + count_severity "medium" incidents + count_severity "low" incidents
   <= length incidents)%nat.
Proof.
  unfold count_severity.
  induction incidents as [| i r IH]; [simpl; lia |].
  cbn [filter length].
  destruct (inc_severity i) as [v |]; [| cbn [length]; lia].
  destruct (String.eqb_spec v "critical") as [-> | _];
    [cbn [String.eqb Ascii.eqb Bool.eqb length]; simpl; lia |].
  destruct (String.eqb_spec v "high") as [-> | _]; [simpl; lia |].
  destruct (String.eqb_spec v "medium") as [-> | _]; [simpl; lia |].
  destruct (String.eqb_spec v "low") as [-> | _]; simpl; lia.
Qed.

Lemma tally_none (label : Incident -> string) (incidents : list Incident)
  (k : string) :
  Forall (fun i => label i <> k) incidents ->
  forall d, tally label incidents d k = O.
Proof.
  intros H d. unfold tally.
  induction H as [| i r Hi _ IH]; [reflexivity |].
  cbn [filter]. destruct (inc_createdAt i) as [t |]; [| exact IH].
  destruct (String.eqb_spec (label i) k); [contradiction |].
  rewrite andb_false_r. exact IH.
Qed.

Lemma never_labelled (field : Incident -> option string)
  (incidents : list Incident) (k : string) :
  k <> "unknown" ->
  Forall (fun i => field i <> Some k) incidents ->
  Forall (fun i => or_unknown (field i) <> k) incidents.
Proof.
  intros U H. induction H as [| i r Hi _ IH]; constructor; [| exact IH].
  destruct (field i) as [v |]; simpl; congruence.
Qed.

(** X22.  The severity section of a trend report needs the [createdAt] of
    every incident.  Its timeline holds, for every day and severity, the
    number of incidents of that day and severity; the four totals never
    exceed the number of incidents; the trend is "insufficient_data"
    exactly when the incidents fall on fewer than seven different days;
    and without a critical incident the trend over seven days or more is
    "stable_severity". *)
Theorem severity_timeline_counts (incidents : list Incident) :
  (Exists (fun i => inc_createdAt i = None) incidents ->
   _analyze_severity_trends incidents = Raise KeyError) /\
  (Forall timestamped incidents ->
   exists s,
     _analyze_severity_trends incidents = Ok s /\
     (forall date severity,
        timeline_get (severity_timeline s) date severity
        = tally (fun i => or_unknown (inc_severity i)) incidents
                date severity) /\
     (total_critical s + total_high s + total_medium s + total_low s
      <= length incidents)%nat /\
     (trend s = "insufficient_data" <-> (distinct_days incidents < 7)%nat) /\
     (Forall (fun i => inc_severity i <> Some "critical") incidents ->
      (7 <= distinct_days incidents)%nat ->
      trend s = "stable_severity")).
Proof.
  unfold _analyze_severity_trends. split.
  - intro H. now rewrite (dated_missing _ incidents H).
  - intro H.
    destruct (dated_ok (fun i => or_unknown (inc_severity i)) incidents H)
      as [entries [E [D T]]].
    rewrite E. cbn [bind].
    pose proof (timeline_days (fun i => or_unknown (inc_severity i))
                  incidents entries D) as L.
    set (timeline := build_timeline entries) in *.
    set (dates := Py.sorted_Z (map fst timeline)) in *.
    assert (G : forall d k,
               timeline_get timeline d k
               = tally (fun i => or_unknown (inc_severity i)) incidents d k).
    { intros d k. subst timeline. rewrite build_timeline_get. apply T. }
    destruct (Nat.leb_spec 7 (length dates)) as [L7 | L7].
    + eexists. split; [reflexivity |].
      cbn [severity_timeline trend total_critical total_high total_medium
           total_low].
      split; [intros d k; rewrite !touch_week_get; apply G |].
      split; [apply severity_totals |].
      split.
      * split; [| lia].
        repeat case_Qltb; discriminate.
      * intros Z _.
        assert (W : forall week t,
                   (forall d k, timeline_get t d k = timeline_get timeline d k)
                   -> week_count t week "critical" = O).
        { intros week t Ht. apply week_count_zero. intro d.
          rewrite Ht, G. apply tally_none.
          apply (never_labelled inc_severity); [discriminate | exact Z]. }
        rewrite (W (firstn 7 dates) timeline) by reflexivity.
        rewrite (W (Py.lastn 7 dates)
                   (touch_week timeline (firstn 7 dates) "critical"))
          by (intros d k; apply touch_week_get).
        reflexivity.
    + eexists. split; [reflexivity |].
      cbn [severity_timeline trend total_critical total_high total_medium
           total_low].
      split; [exact G |].
      split; [apply severity_totals |].
      split; [split; [lia | reflexivity] |].
      intros _ C. lia.
Qed.

Lemma quiet_week_timestamped : Forall timestamped Sample.quiet_week.
Proof.
  apply Forall_forall. intros i Hi. unfold Sample.quiet_week in Hi.
  apply in_flat_map in Hi as [day [_ Hi]]. apply repeat_spec in Hi.
  subst i. discriminate.
Qed.

Lemma severity_timeline_counts_witness :
  _analyze_severity_trends [undated] = Raise KeyError /\
  exists s,
    _analyze_severity_trends Sample.quiet_week = Ok s /\
    timeline_get (severity_timeline s) 6 "medium" = 3%nat /\
    trend s = "stable_severity".
Proof.
  split.
  - apply (proj1 (severity_timeline_counts [undated])).
    now constructor.
  - destruct (proj2 (severity_timeline_counts Sample.quiet_week)
                quiet_week_timestamped) as [s [E [G [_ [_ St]]]]].
    exists s. split; [exact E |]. split.
    + rewrite G. vm_compute. reflexivity.
    + apply St; [| vm_compute; lia].
      apply Forall_forall. intros i Hi. unfold Sample.quiet_week in Hi.
      apply in_flat_map in Hi as [day [_ Hi]]. apply repeat_spec in Hi.
      subst i. discriminate.
Defined.

End Timelines.

Section TypeTrends.
Import TrendAnalysis Notions Notions2.

Lemma round_half_even_ge (y : Q) (a : Z) :
  inject_Z a <= y -> (a <= Py.round_half_even y)%Z.
Proof.
  intro H.
  apply (round_half_even_between y a (Qfloor y + 1)); [exact H |].
  apply Qlt_le_weak, Qlt_floor.
Qed.

Lemma max_value_from_greatest {K : Type} (d : list (K * Q)) :
  forall best,
    In (max_value_from best d) (best :: d) /\
    forall kv, In kv (best :: d) -> snd kv <= snd (max_value_from best d).
Proof.
  induction d as [| x r IH]; intro best; cbn [max_value_from].
  - split; [now left |]. intros kv [<- | []]. lra.
  - case_Qltb.
    + destruct (IH x) as [I M]. split.
      * right. exact I.
      * intros kv [<- | Hk]; [| now apply M].
        specialize (M x (or_introl eq_refl)). lra.
    + destruct (IH best) as [I M]. split.
      * destruct I as [<- | I]; [now left | right; now right].
      * intros kv [<- | [<- | Hk]].
        -- apply M. now left.
        -- specialize (M best (or_introl eq_refl)). lra.
        -- apply M. now right.
Qed.

Lemma growth_rate_bound (first_week_count last_week_count : nat) :
  (0 < first_week_count)%nat ->
  -100 <= Py.round ((Py.of_nat last_week_count - Py.of_nat first_week_count)
                    / Py.of_nat first_week_count * 100) 1.
Proof.
  intro P. pose proof (of_nat_nonneg last_week_count) as L.
  pose proof (of_nat_pos first_week_count P) as F.
  fold (Py.of_nat first_week_count) in F.
  set (a := Py.of_nat first_week_count) in *.
  set (b := Py.of_nat last_week_count) in *.
  assert (R : -1 <= (b - a) / a).
  { apply Qle_shift_div_l; lra. }
  unfold Py.round. change (inject_Z (10 ^ Z.of_nat 1)) with (inject_Z 10).
  pose proof (round_half_even_ge ((b - a) / a * 100 * inject_Z 10) (-1000))
    as G.
  assert (G' : inject_Z (-1000)
               <= inject_Z (Py.round_half_even
                              ((b - a) / a * 100 * inject_Z 10))).
  { rewrite <- Zle_Qle. apply G.
    change (inject_Z (-1000)) with (-1000). change (inject_Z 10) with 10.
    lra. }
  change (inject_Z (-1000)) with (-1000) in G'.
  change (inject_Z 10) with 10 in *.
  apply Qle_shift_div_l; lra.
Qed.

(** The loop over the types: its rates belong to types of the loop and
    are not below -100, and the reads of the timeline leave its counts as
    they are. *)
Lemma growth_loop_rates (dates : list Z) (types : list string) :
  forall timeline,
    (forall k r, In (k, r) (fst (growth_loop dates types timeline)) ->
                 In k types /\ -100 <= r) /\
    (forall d k, timeline_get (snd (growth_loop dates types timeline)) d k
                 = timeline_get timeline d k).
Proof.
  induction types as [| ty rest IH]; intro timeline.
  - split; [intros k r [] | reflexivity].
  - cbn [growth_loop].
    set (t2 := touch_week
                 (touch_week timeline (firstn 7 dates) ty)
                 (Py.lastn 7 dates) ty).
    destruct (IH t2) as [R T].
    destruct (growth_loop dates rest t2) as [rates t3]. cbn [fst snd] in *.
    split.
    + intros k r H.
      destruct (Nat.ltb_spec 0 (week_count timeline (firstn 7 dates) ty))
        as [P | _].
      * destruct H as [H | H].
        -- apply (f_equal fst) in H as Hk. apply (f_equal snd) in H as Hr.
           cbn [fst snd] in Hk, Hr. subst k. split; [now left |].
           rewrite <- Hr. now apply growth_rate_bound.
        -- destruct (R k r H). split; [now right | assumption].
      * destruct (R k r H). split; [now right | assumption].
    + intros d k.
      destruct (0 <? week_count timeline (firstn 7 dates) ty)%nat;
        cbn [snd]; rewrite T; subst t2; now rewrite !touch_week_get.
Qed.

Lemma count_by_keys {K A : Type} (eqb : K -> K -> bool)
  (eqb_spec : forall a b, reflect (a = b) (eqb a b)) (key : A -> K)
  (l : list A) (k : K) :
  In k (map fst (Py.count_by eqb key l)) <-> In k (map key l).
Proof.
  unfold Py.count_by.
  enough (G : forall d : list (K * nat),
             In k (map fst (fold_left
                              (fun d x => Py.update eqb d (key x) O S) l d))
             <-> In k (map fst d) \/ In k (map key l)).
  { rewrite G. simpl. tauto. }
  induction l as [| x r IH]; intro d; [simpl; tauto |].
  cbn [fold_left map]. rewrite IH, (update_keys_In eqb eqb_spec).
  simpl. intuition.
Qed.

(** X23.  The type section of a trend report needs the [createdAt] of
    every incident.  It counts every incident once by type; its timeline
    holds, for every day and type, the number of incidents of that day and
    type; growth rates are given only when the incidents fall on seven
    different days or more, only for types that occur, and are never below
    -100; and the fastest growing type is one of greatest growth rate, or
    none when there is no growth rate. *)
Theorem type_trends_growth (incidents : list Incident) :
  (Exists (fun i => inc_createdAt i = None) incidents ->
   _analyze_type_trends incidents = Raise KeyError) /\
  (Forall timestamped incidents ->
   exists t,
     _analyze_type_trends incidents = Ok t /\
     dict_total (type_counts t) = length incidents /\
     (forall date k,
        timeline_get (type_timeline t) date k
        = tally (fun i => or_unknown (inc_type i)) incidents date k) /\
     ((distinct_days incidents < 7)%nat ->
      growth_rates t = [] /\ fastest_growing t = None) /\
     (forall k r,
        In (k, r) (growth_rates t) ->
        (exists i, In i incidents /\ or_unknown (inc_type i) = k) /\
        -100 <= r) /\
     (growth_rates t = [] <-> fastest_growing t = None) /\
     (forall k,
        fastest_growing t = Some k ->
        exists r, In (k, r) (growth_rates t) /\
                  forall kv, In kv (growth_rates t) -> snd kv <= r)).
Proof.
  unfold _analyze_type_trends. split.
  - intro H. now rewrite (dated_missing _ incidents H).
  - intro H.
    destruct (dated_ok (fun i => or_unknown (inc_type i)) incidents H)
      as [entries [E [D T]]].
    rewrite E. cbn [bind].
    pose proof (timeline_days (fun i => or_unknown (inc_type i))
                  incidents entries D) as L.
    set (timeline := build_timeline entries) in *.
    set (dates := Py.sorted_Z (map fst timeline)) in *.
    set (counts := Py.count_by String.eqb
                     (fun i => or_unknown (inc_type i)) incidents).
    assert (G : forall d k,
               timeline_get timeline d k
               = tally (fun i => or_unknown (inc_type i)) incidents d k).
    { intros d k. subst timeline. rewrite build_timeline_get. apply T. }
    assert (F : forall rates : list (string * Q),
               (rates = []
                <-> match rates with
                    | [] => None
                    | kv :: r => Some (fst (max_value_from kv r))
                    end = None) /\
               forall k,
                 match rates with
                 | [] => None
                 | kv :: r => Some (fst (max_value_from kv r))
                 end = Some k ->
                 exists r, In (k, r) rates /\
                           forall kv, In kv rates -> snd kv <= r).
    { intros [| kv r]; split; try (split; congruence); [discriminate |].
      intros k Hk. apply some_eq in Hk.
      destruct (max_value_from_greatest r kv) as [I M].
      exists (snd (max_value_from kv r)). split; [| exact M].
      rewrite <- Hk, <- surjective_pairing. exact I. }
    destruct (Nat.leb_spec 7 (length dates)) as [L7 | L7].
    + destruct (growth_loop_rates dates (map fst counts) timeline) as [R S].
      destruct (growth_loop dates (map fst counts) timeline)
        as [rates t3]. cbn [fst snd] in *.
      eexists. split; [reflexivity |].
      cbn [type_counts type_timeline growth_rates fastest_growing].
      split; [apply count_by_total |].
      split; [intros d k; rewrite S; apply G |].
      split; [intro; lia |].
      split.
      { intros k r Hr. destruct (R k r Hr) as [Hk B]. split; [| exact B].
        subst counts.
        apply (proj1 (count_by_keys String.eqb String.eqb_spec
                        (fun i => or_unknown (inc_type i)) incidents k))
          in Hk.
        apply in_map_iff in Hk as [i [Ei Hi]]. now exists i. }
      exact (F rates).
    + eexists. split; [reflexivity |].
      cbn [type_counts type_timeline growth_rates fastest_growing].
      split; [apply count_by_total |].
      split; [exact G |].
      split; [intros _; split; reflexivity |].
      split; [intros k r [] |].
      exact (F []).
Qed.

Lemma fortnight_timestamped : Forall timestamped Sample.growing_fortnight.
Proof.
  apply Forall_forall. intros i Hi. unfold Sample.growing_fortnight in Hi.
  apply in_flat_map in Hi as [day [_ Hi]]. apply repeat_spec in Hi.
  subst i. discriminate.
Qed.

Lemma type_trends_growth_witness :
  _analyze_type_trends [undated] = Raise KeyError /\
  exists t,
    _analyze_type_trends Sample.growing_fortnight = Ok t /\
    dict_total (type_counts t) = 105%nat /\
    timeline_get (type_timeline t) 14 "accident" = 14%nat /\
    (forall k r, In (k, r) (growth_rates t) -> -100 <= r).
Proof.
  split.
  - apply (proj1 (type_trends_growth [undated])). now constructor.
  - destruct (proj2 (type_trends_growth Sample.growing_fortnight)
                fortnight_timestamped) as [t [E [C [G [_ [R _]]]]]].
    exists t. split; [exact E |]. split; [exact C |]. split.
    + rewrite G. vm_compute. reflexivity.
    + intros k r Hr. now destruct (R k r Hr).
Defined.

End TypeTrends.

Section Recommendations.
Import TrendAnalysis Notions Notions2.

Lemma count_by_get {K A : Type} (eqb : K -> K -> bool)
  (eqb_spec : forall a b, reflect (a = b) (eqb a b)) (key : A -> K)
  (l : list A) (k : K) :
  Py.get_default eqb (Py.count_by eqb key l) k O
  = length (filter (fun x => eqb k (key x)) l).
Proof.
  unfold Py.count_by.
  enough (G : forall d,
             Py.get_default eqb
               (fold_left (fun d x => Py.update eqb d (key x) O S) l d) k O
             = (length (filter (fun x => eqb k (key x)) l)
                + Py.get_default eqb d k O)%nat).
  { rewrite G. unfold Py.get_default. simpl. lia. }
  induction l as [| x r IH]; intro d; [reflexivity |].
  cbn [fold_left filter]. rewrite IH.
  destruct (eqb_spec k (key x)) as [-> | N]; cbn [length].
  - rewrite (get_update_same eqb eqb_spec). lia.
  - now rewrite (get_update_other eqb eqb_spec).
Qed.

Lemma count_by_NoDup {K A : Type} (eqb : K -> K -> bool)
  (eqb_spec : forall a b, reflect (a = b) (eqb a b)) (key : A -> K)
  (l : list A) :
  NoDup (map fst (Py.count_by eqb key l)).
Proof.
  unfold Py.count_by.
  enough (G : forall d : list (K * nat),
             NoDup (map fst d) ->
             NoDup (map fst (fold_left
                               (fun d x => Py.update eqb d (key x) O S) l d))).
  { apply G. constructor. }
  induction l as [| x r IH]; intros d N; [exact N |].
  cbn [fold_left]. apply IH. now apply (update_keys_NoDup eqb eqb_spec).
Qed.

Lemma get_of_In {K V : Type} (eqb : K -> K -> bool)
  (eqb_spec : forall a b, reflect (a = b) (eqb a b)) (d : list (K * V))
  (k : K) (v dflt : V) :
  NoDup (map fst d) -> In (k, v) d -> Py.get_default eqb d k dflt = v.
Proof.
  unfold Py.get_default.
  induction d as [| [k' v'] r IH]; intros N H; [contradiction |].
  simpl in N. apply NoDup_cons_iff in N as [N1 N2]. simpl.
  destruct H as [H | H].
  - apply (f_equal fst) in H as Hk. apply (f_equal snd) in H as Hv.
    simpl in Hk, Hv. subst.
    destruct (eqb_spec k k); [reflexivity | congruence].
  - destruct (eqb_spec k k') as [-> | _]; [| now apply IH].
    exfalso. apply N1. apply (in_map fst) in H. exact H.
Qed.

Lemma get_default_absent {K V : Type} (eqb : K -> K -> bool)
  (eqb_spec : forall a b, reflect (a = b) (eqb a b)) (d : list (K * V))
  (k : K) (dflt : V) :
  Py.get_default eqb d k dflt = dflt \/
  In (k, Py.get_default eqb d k dflt) d.
Proof.
  unfold Py.get_default.
  induction d as [| [k' v'] r IH]; [now left |]. simpl.
  destruct (eqb_spec k k') as [-> | _]; [right; now left |].
  destruct IH as [IH | IH]; [now left | right; now right].
Qed.

Lemma timestamps_fields (incidents : list Incident) (ts : list datetime) :
  timestamps incidents = Ok ts ->
  map inc_createdAt incidents = map Some ts.
Proof.
  revert ts. induction incidents as [| i r IH]; intros ts H; simpl in H.
  - apply ok_eq in H. now subst.
  - unfold created in H.
    destruct (inc_createdAt i) as [t |] eqn:E; cbn [bind] in H;
      [| discriminate].
    destruct (timestamps r) as [ts' |]; cbn [bind] in H; [| discriminate].
    apply ok_eq in H. subst ts. simpl. rewrite E. f_equal. now apply IH.
Qed.

Lemma filter_by_timestamp (p : datetime -> bool) (incidents : list Incident)
  (ts : list datetime) :
  map inc_createdAt incidents = map Some ts ->
  length (filter (fun i => match inc_createdAt i with
                           | Some t => p t
                           | None => false
                           end) incidents)
  = length (filter p ts).
Proof.
  revert ts. induction incidents as [| i r IH]; intros [| t ts] H;
    simpl in H; try discriminate; [reflexivity |].
  injection H as Hi Hr. cbn [filter]. rewrite Hi.
  destruct (p t); cbn [length]; [f_equal |]; now apply IH.
Qed.

Lemma night_hours (ts : list datetime) :
  let hourly := Py.count_by Z.eqb Datetime.hour ts in
  (sum_hours hourly 22 24 + sum_hours hourly 0 6)%nat
  = length (filter (fun t => (22 <=? Datetime.hour t)%Z
                              || (Datetime.hour t <? 6)%Z) ts).
Proof.
  cbv zeta. unfold Py.count_by.
  enough (G : forall d,
             (sum_hours (fold_left
                           (fun d x => Py.update Z.eqb d (Datetime.hour x) O S)
                           ts d) 22 24
              + sum_hours (fold_left
                           (fun d x => Py.update Z.eqb d (Datetime.hour x) O S)
                           ts d) 0 6
              = length (filter (fun t => (22 <=? Datetime.hour t)%Z
                                          || (Datetime.hour t <? 6)%Z) ts)
                + (sum_hours d 22 24 + sum_hours d 0 6))%nat).
  { rewrite G.
    change (sum_hours [] 22 24) with O. change (sum_hours [] 0 6) with O.
    lia. }
  induction ts as [| t r IH]; intro d; [reflexivity |].
  cbn [fold_left filter]. rewrite IH, !sum_hours_update.
  pose proof (hour_range t) as H.
  destruct (Z.leb_spec 22 (Datetime.hour t));
    destruct (Z.ltb_spec (Datetime.hour t) 24);
    destruct (Z.leb_spec 0 (Datetime.hour t));
    destruct (Z.ltb_spec (Datetime.hour t) 6);
    cbn [andb orb length]; lia.
Qed.

Lemma advises_app (k p : string) (a b : list Recommendation) :
  advises k p (a ++ b) <-> advises k p a \/ advises k p b.
Proof.
  unfold advises. split.
  - intros [r [H E]]. apply in_app_iff in H as [H | H];
      [left | right]; now exists r.
  - intros [[r [H E]] | [r [H E]]]; exists r; split; try exact E;
      apply in_app_iff; tauto.
Qed.

Lemma advises_one (k p : string) (r : Recommendation) :
  advises k p [r] <-> kind r = k /\ priority r = p.
Proof.
  unfold advises. split.
  - intros [r' [[<- | []] E]]. exact E.
  - intro E. exists r. split; [now left | exact E].
Qed.

Lemma advises_none (k p : string) : advises k p [] <-> False.
Proof.
  unfold advises. split; [intros [r [[] _]] | contradiction].
Qed.

Lemma advises_if (k p : string) (b : bool) (r : Recommendation) :
  advises k p (if b then [r] else [])
  <-> b = true /\ kind r = k /\ priority r = p.
Proof.
  destruct b; [rewrite advises_one | rewrite advises_none].
  - tauto.
  - split; [contradiction | intros [X _]; discriminate].
Qed.

Lemma length_if (b : bool) (r : Recommendation) :
  (length (if b then [r] else []) <= 1)%nat.
Proof.
  destruct b; simpl; lia.
Qed.

Lemma share_positive (a b : nat) :
  (0 < b)%nat -> share a b = Ok (Py.of_nat a / Py.of_nat b).
Proof.
  intro P. unfold share, Py.truediv, Py.of_nat.
  now rewrite (of_nat_positive b P).
Qed.

Lemma share_above (x : Q) (a b : nat) :
  (0 < b)%nat ->
  (x < Py.of_nat a / Py.of_nat b <-> x * Py.of_nat b < Py.of_nat a).
Proof.
  intro P. pose proof (of_nat_pos b P) as B. fold (Py.of_nat b) in B.
  split; intro H.
  - assert (E : Py.of_nat a == Py.of_nat a / Py.of_nat b * Py.of_nat b).
    { field. lra. }
    rewrite E. now apply Qmult_lt_compat_r.
  - now apply Qlt_shift_div_l.
Qed.

Lemma peak_hour_greatest (incidents : list Incident) (ts : list datetime) :
  map inc_createdAt incidents = map Some ts ->
  ts <> [] ->
  forall h,
    (in_hour incidents h
     <= in_hour incidents
          (most_common (Py.count_by Z.eqb Datetime.hour ts) 0%Z))%nat.
Proof.
  intros F N h.
  assert (I : forall k, in_hour incidents k
                        = Py.get_default Z.eqb
                            (Py.count_by Z.eqb Datetime.hour ts) k O).
  { intro k. unfold in_hour.
    rewrite (filter_by_timestamp (fun t => (k =? hour t)%Z) incidents ts F).
    now rewrite (count_by_get Z.eqb Z.eqb_spec). }
  rewrite !I.
  set (counts := Py.count_by Z.eqb Datetime.hour ts).
  destruct (most_common_greatest counts 0%Z) as [c [Hc M]].
  { now apply count_by_nonempty. }
  rewrite (get_of_In Z.eqb Z.eqb_spec counts _ c O
             (count_by_NoDup Z.eqb Z.eqb_spec _ _) Hc).
  destruct (get_default_absent Z.eqb Z.eqb_spec counts h O) as [-> | H];
    [lia |].
  apply (M _ H).
Qed.

Local Ltac one_of :=
  let X := fresh "X" in
  intro X;
  repeat match goal with
         | X : _ \/ _ |- _ => destruct X
         | X : _ /\ _ |- _ => destruct X
         end;
  try discriminate; try assumption.

(** X24.  The recommendations of a trend report cannot be computed for no
    incidents (a division by zero) and need the [createdAt] of every
    incident.  Otherwise there are at most four: the night patrol one
    exactly when more than 30% of the incidents happened between 22:00 and
    5:59, the evening one only when one of the hours 17, 18 and 19 has the
    greatest number of incidents, the one on critical incidents exactly
    when more than 15% of the incidents are critical, and the one on panic
    alerts exactly when more than 20% of the incidents are of type
    "panic". *)
Theorem recommendations_fire_on_shares (incidents : list Incident) :
  (incidents = [] ->
   _generate_recommendations incidents = Raise ZeroDivisionError) /\
  (Exists (fun i => inc_createdAt i = None) incidents ->
   _generate_recommendations incidents = Raise KeyError) /\
  (incidents <> [] -> Forall timestamped incidents ->
   exists recs,
     _generate_recommendations incidents = Ok recs /\
     (length recs <= 4)%nat /\
     (advises "temporal" "high" recs
      <-> 0.3 * Py.of_nat (length incidents)
          < Py.of_nat (at_night incidents)) /\
     (advises "temporal" "medium" recs ->
      exists h, In h [17; 18; 19]%Z /\
                forall h', (in_hour incidents h' <= in_hour incidents h)%nat)
     /\
     (advises "severity" "critical" recs
      <-> 0.15 * Py.of_nat (length incidents)
          < Py.of_nat (count_where inc_severity "critical" incidents)) /\
     (advises "incident_type" "high" recs
      <-> 0.2 * Py.of_nat (length incidents)
          < Py.of_nat (count_where inc_type "panic" incidents))).
Proof.
  unfold _generate_recommendations. split; [| split].
  - intros ->. reflexivity.
  - intro H. now rewrite (timestamps_missing incidents H).
  - intros N H.
    assert (T : exists ts, timestamps incidents = Ok ts).
    { clear N. induction H as [| i r Hi _ [ts E]]; [now exists [] |].
      simpl. unfold created. unfold timestamped in Hi.
      destruct (inc_createdAt i) as [t |]; [| congruence].
      cbn [bind]. rewrite E. cbn [bind]. eauto. }
    destruct T as [ts E]. rewrite E. cbn [bind].
    pose proof (timestamps_length incidents ts E) as L.
    pose proof (timestamps_fields incidents ts E) as F.
    assert (P : (0 < length incidents)%nat).
    { destruct incidents; [congruence | simpl; lia]. }
    assert (Nts : ts <> []).
    { intros ->. simpl in L. lia. }
    pose proof (count_by_nonempty Z.eqb Datetime.hour ts Nts) as Nc.
    pose proof (peak_hour_greatest incidents ts F Nts) as Pk.
    pose proof (night_hours ts) as Nh. cbv zeta in Nh.
    set (hourly_counts := Py.count_by Z.eqb Datetime.hour ts) in *.
    assert (An : at_night incidents
                 = (sum_hours hourly_counts 22 24
                    + sum_hours hourly_counts 0 6)%nat).
    { rewrite Nh. unfold at_night.
      apply (filter_by_timestamp
               (fun t => (22 <=? hour t)%Z || (hour t <? 6)%Z) incidents ts F).
    }
    assert (Ap : count_where inc_type "panic" incidents
                 = Py.get_default String.eqb
                     (Py.count_by String.eqb
                        (fun i => or_unknown (inc_type i)) incidents)
                     "panic" O).
    { rewrite (count_by_get String.eqb String.eqb_spec).
      unfold count_where. f_equal. apply filter_ext. intro i.
      destruct (inc_type i) as [v |]; [apply String.eqb_sym | reflexivity]. }
    change (count_severity "critical" incidents)
      with (count_where inc_severity "critical" incidents).
    rewrite <- Ap.
    set (peak := most_common hourly_counts 0%Z) in *.
    set (night := (sum_hours hourly_counts 22 24
                   + sum_hours hourly_counts 0 6)%nat) in *.
    rewrite <- An.
    destruct hourly_counts as [| hc0 hcs] eqn:Ehc; [congruence |].
    rewrite !(share_positive _ _ P). cbn [bind].
    pose proof (share_above 0.3 (at_night incidents) (length incidents) P)
      as S1.
    pose proof (share_above 0.15
                  (count_where inc_severity "critical" incidents)
                  (length incidents) P) as S2.
    pose proof (share_above 0.2 (count_where inc_type "panic" incidents)
                  (length incidents) P) as S3.
    eexists. split; [reflexivity |].
    rewrite <- S1, <- S2, <- S3. clear S1 S2 S3.
    repeat match goal with
           | |- context [if _ then [?r] else []] =>
               lazymatch r with
               | mk_recommendation _ _ _ _ =>
                   let x := fresh "rec" in
                   set (x := r)
               end
           end.
    repeat rewrite advises_app. repeat rewrite advises_if.
    repeat match goal with
           | x := mk_recommendation _ _ _ _ |- _ => subst x
           end.
    cbn [kind priority]. rewrite <- !Qltb_lt.
    split.
    { rewrite !length_app.
      repeat match goal with
             | |- context [length (if ?b then [?r] else [])] =>
                 let B := fresh "B" in
                 pose proof (length_if b r) as B;
                 set (length (if b then [r] else [])) in *
             end.
      lia. }
    split; [split; [one_of | intro X; left; left; auto] |].
    split.
    { intro X. exists peak. split; [| exact Pk].
      assert (Ex : existsb (Z.eqb peak) [17; 18; 19]%Z = true).
      { revert X. one_of. }
      apply existsb_exists in Ex as [x [Hx Ex]].
      apply Z.eqb_eq in Ex. now subst x. }
    split; [split; [one_of | intro X; right; left; auto] |].
    split; [one_of | intro X; right; right; auto].
Qed.

Lemma recommendations_fire_on_shares_witness :
  _generate_recommendations [] = Raise ZeroDivisionError /\
  _generate_recommendations [undated] = Raise KeyError /\
  exists recs,
    _generate_recommendations Sample.corner = Ok recs /\
    advises "temporal" "high" recs /\
    advises "incident_type" "high" recs /\
    ~ advises "severity" "critical" recs.
Proof.
  split; [| split].
  - apply (proj1 (recommendations_fire_on_shares [])). reflexivity.
  - apply (proj1 (proj2 (recommendations_fire_on_shares [undated]))).
    now constructor.
  - destruct (proj2 (proj2 (recommendations_fire_on_shares Sample.corner)))
      as [recs [E [_ [N [_ [S T]]]]]].
    + discriminate.
    + apply Forall_forall. intros i Hi. unfold Sample.corner in Hi.
      apply in_map_iff in Hi as [k [<- _]]. discriminate.
    + exists recs. split; [exact E |]. split; [| split].
      * apply N. vm_compute. reflexivity.
      * apply T. vm_compute. reflexivity.
      * intro X. apply S in X. vm_compute in X. discriminate.
Defined.

End Recommendations.

Section Report.
Import TrendAnalysis Notions Notions2.
Context {nl : NumLib} {cl : ClusterLib} {cal : CalendarLib}.

Lemma timestamps_ok (incidents : list Incident) :
  Forall timestamped incidents ->
  exists ts, timestamps incidents = Ok ts.
Proof.
  induction 1 as [| i r Hi _ [ts E]]; [now exists [] |].
  simpl. unfold created. unfold timestamped in Hi.
  destruct (inc_createdAt i) as [t |]; [| congruence].
  cbn [bind]. rewrite E. cbn [bind]. eauto.
Qed.

Lemma last_default {A : Type} (l : list A) (a b : A) :
  l <> [] -> last l a = last l b.
Proof.
  induction l as [| x r IH]; [congruence |]. intros _.
  destruct r as [| y r]; [reflexivity |].
  change (last (x :: y :: r) a) with (last (y :: r) a).
  change (last (x :: y :: r) b) with (last (y :: r) b).
  apply IH. discriminate.
Qed.

Lemma summary_outcome (utcnow : datetime) (incidents : list Incident)
  (t : datetime) :
  incidents <> [] ->
  inc_createdAt (last incidents undated) = Some t ->
  (comparable utcnow t ->
   exists s, _analyze_summary_stats utcnow incidents = Ok s /\
             TrendAnalysis.total_incidents s = length incidents) /\
  (~ comparable utcnow t ->
   _analyze_summary_stats utcnow incidents = Raise TypeError).
Proof.
  intros N E. unfold _analyze_summary_stats.
  destruct incidents as [| i r]; [congruence |].
  rewrite (last_default (i :: r) i undated N).
  unfold created. rewrite E. cbn [bind].
  unfold sub_seconds, comparable.
  destruct (utcoffset utcnow), (utcoffset t); cbn [bind]; split; intro C;
    try (eexists; split; reflexivity); try reflexivity.
  - exfalso. apply C. split; discriminate.
  - destruct C as [_ C]. specialize (C eq_refl). discriminate.
  - destruct C as [C _]. specialize (C eq_refl). discriminate.
  - exfalso. apply C. split; reflexivity.
Qed.

Lemma temporal_defined (incidents : list Incident) :
  Forall timestamped incidents ->
  exists t, _analyze_temporal_trends incidents = Ok t.
Proof.
  intro H. unfold _analyze_temporal_trends.
  destruct (timestamps_ok incidents H) as [ts E]. rewrite E.
  cbn [bind]. eexists. reflexivity.
Qed.

Lemma severity_defined (incidents : list Incident) :
  Forall timestamped incidents ->
  exists s, _analyze_severity_trends incidents = Ok s.
Proof.
  intro H. unfold _analyze_severity_trends.
  destruct (dated_ok (fun i => or_unknown (inc_severity i)) incidents H)
    as [entries [E _]].
  rewrite E. cbn [bind].
  destruct (7 <=? _)%nat; eexists; reflexivity.
Qed.

Lemma types_defined (incidents : list Incident) :
  Forall timestamped incidents ->
  exists t, _analyze_type_trends incidents = Ok t.
Proof.
  intro H. unfold _analyze_type_trends.
  destruct (dated_ok (fun i => or_unknown (inc_type i)) incidents H)
    as [entries [E _]].
  rewrite E. cbn [bind].
  destruct (7 <=? _)%nat; [| eexists; reflexivity].
  destruct (growth_loop _ _ _). eexists. reflexivity.
Qed.

Lemma hotspots_defined (incidents : list Incident) :
  exists r, PatternAnalyzer._identify_hotspots incidents = Ok r.
Proof.
  unfold PatternAnalyzer._identify_hotspots.
  destruct (length incidents <? 10)%nat; [eexists; reflexivity |].
  rewrite !length_map.
  destruct (length (PatternAnalyzer.located incidents) <? 10)%nat;
    [eexists; reflexivity |].
  set (labels := dbscan_labels 0.005 5
                   (map fst (PatternAnalyzer.located incidents))).
  destruct (hotspot_loop_ok (map fst (PatternAnalyzer.located incidents))
              (map snd (PatternAnalyzer.located incidents)) labels
              (PatternAnalyzer.label_set labels []))
    as [found [E _]].
  - subst labels. now rewrite dbscan_labels_length, !length_map.
  - intros id. apply label_set_In.
  - rewrite E. cbn [bind]. eexists. reflexivity.
Qed.

Lemma incident_dates_ok (incidents : list Incident) :
  Forall timestamped incidents ->
  exists ds, PatternAnalyzer.incident_dates incidents = Ok ds.
Proof.
  induction 1 as [| i r Hi _ [ds E]]; [now exists [] |].
  simpl. unfold PatternAnalyzer.incident_date. unfold timestamped in Hi.
  destruct (inc_createdAt i) as [t |]; [| congruence].
  cbn [bind]. rewrite E. cbn [bind]. eauto.
Qed.

Lemma Forall_skipn {A : Type} (P : A -> Prop) (n : nat) (l : list A) :
  Forall P l -> Forall P (skipn n l).
Proof.
  intro H. apply Forall_forall. intros x Hx.
  rewrite Forall_forall in H. apply H.
  rewrite <- (firstn_skipn n l). apply in_app_iff. now right.
Qed.

Lemma predictions_defined (incidents : list Incident) :
  Forall timestamped incidents ->
  exists f, PatternAnalyzer._generate_predictions incidents = Ok f.
Proof.
  intro H. unfold PatternAnalyzer._generate_predictions.
  destruct (length incidents <? 14)%nat; [eexists; reflexivity |].
  unfold PatternAnalyzer.daily_count_series.
  destruct (incident_dates_ok (Py.lastn 100 incidents)) as [ds E].
  { unfold Py.lastn. now apply Forall_skipn. }
  rewrite E. cbn [bind]. eexists. reflexivity.
Qed.

Lemma recommendations_defined (incidents : list Incident) :
  incidents <> [] -> Forall timestamped incidents ->
  exists recs, _generate_recommendations incidents = Ok recs.
Proof.
  intros N H. unfold _generate_recommendations.
  destruct (timestamps_ok incidents H) as [ts E]. rewrite E. cbn [bind].
  assert (P : (0 < length incidents)%nat).
  { destruct incidents; [congruence | simpl; lia]. }
  destruct (Py.count_by Z.eqb hour ts);
    rewrite !(share_positive _ _ P); cbn [bind]; eexists; reflexivity.
Qed.

Lemma missing_or_timestamped (incidents : list Incident) :
  Exists (fun i => inc_createdAt i = None) incidents \/
  Forall timestamped incidents.
Proof.
  induction incidents as [| i r [IH | IH]].
  - right. constructor.
  - left. now right.
  - destruct (inc_createdAt i) eqn:E.
    + right. constructor; [| exact IH]. unfold timestamped. congruence.
    + left. now left.
Qed.

Lemma comparable_dec (a b : datetime) : comparable a b \/ ~ comparable a b.
Proof.
  unfold comparable.
  destruct (utcoffset a), (utcoffset b).
  - left. split; discriminate.
  - right. intros [_ C]. specialize (C eq_refl). discriminate.
  - right. intros [C _]. specialize (C eq_refl). discriminate.
  - left. tauto.
Qed.

Lemma trends_of_eq (a b : TrendReport) : TrendsOf a = TrendsOf b -> a = b.
Proof.
  intro H. now injection H.
Qed.

(** The analysis depends on the store, the time range and the location
    only through the incidents found. *)
Lemma analysis_of_found (st : Store) (utcnow : clock) (d : Z)
  (loc : option (Q * Q)) :
  analyze_trends st utcnow (Ok d) (option_map Ok loc)
  = analyze_trends
      (store_of (get_historical_incidents st (utcnow 0%nat) d (bounds_of loc)))
      utcnow (Ok d) None.
Proof.
  unfold analyze_trends. destruct loc as [[lat lng] |]; reflexivity.
Qed.

Lemma analysis_short (utcnow : clock) (d : Z) (incidents : list Incident) :
  (length incidents < 10)%nat ->
  analyze_trends (store_of incidents) utcnow (Ok d) None
  = TrendsError "Insufficient data for trend analysis"
                (Some (length incidents)).
Proof.
  intro L. unfold analyze_trends, get_historical_incidents.
  cbn [bind store_of find_incidents_since try_except].
  apply Nat.ltb_lt in L. rewrite L. reflexivity.
Qed.

Lemma analysis_missing (utcnow : clock) (d : Z) (incidents : list Incident) :
  (10 <= length incidents)%nat ->
  Exists (fun i => inc_createdAt i = None) incidents ->
  analyze_trends (store_of incidents) utcnow (Ok d) None
  = TrendsError "Trend analysis failed" None.
Proof.
  intros L M. unfold analyze_trends, get_historical_incidents.
  cbn [bind store_of find_incidents_since try_except].
  apply Nat.ltb_ge in L. rewrite L.
  destruct (_analyze_summary_stats (utcnow 1%nat) incidents);
    cbn [bind try_except]; [| reflexivity].
  unfold _analyze_temporal_trends.
  rewrite (timestamps_missing incidents M). reflexivity.
Qed.

Lemma analysis_incomparable (utcnow : clock) (d : Z)
  (incidents : list Incident) (t : datetime) :
  (10 <= length incidents)%nat ->
  inc_createdAt (last incidents undated) = Some t ->
  ~ comparable (utcnow 1%nat) t ->
  analyze_trends (store_of incidents) utcnow (Ok d) None
  = TrendsError "Trend analysis failed" None.
Proof.
  intros L E C. unfold analyze_trends, get_historical_incidents.
  cbn [bind store_of find_incidents_since try_except].
  assert (N : incidents <> []).
  { intros ->. simpl in L. lia. }
  apply Nat.ltb_ge in L. rewrite L.
  rewrite (proj2 (summary_outcome (utcnow 1%nat) incidents t N E) C).
  reflexivity.
Qed.

Lemma analysis_produced (utcnow : clock) (d : Z) (incidents : list Incident)
  (t : datetime) :
  (10 <= length incidents)%nat ->
  Forall timestamped incidents ->
  inc_createdAt (last incidents undated) = Some t ->
  comparable (utcnow 1%nat) t ->
  exists report,
    analyze_trends (store_of incidents) utcnow (Ok d) None = TrendsOf report.
Proof.
  intros L H E C. unfold analyze_trends, get_historical_incidents.
  cbn [bind store_of find_incidents_since try_except].
  assert (N : incidents <> []).
  { intros ->. simpl in L. lia. }
  apply Nat.ltb_ge in L. rewrite L.
  destruct (proj1 (summary_outcome (utcnow 1%nat) incidents t N E) C)
    as [s [-> _]].
  destruct (temporal_defined incidents H) as [tt ->].
  destruct (severity_defined incidents H) as [sv ->].
  destruct (types_defined incidents H) as [ty ->].
  destruct (hotspots_defined incidents) as [hs ->].
  destruct (predictions_defined incidents H) as [fc ->].
  destruct (recommendations_defined incidents N H) as [recs ->].
  cbn [bind try_except]. eexists. reflexivity.
Qed.

Lemma analysis_parts (utcnow : clock) (d : Z) (incidents : list Incident)
  (report : TrendReport) :
  analyze_trends (store_of incidents) utcnow (Ok d) None = TrendsOf report ->
  (10 <= length incidents)%nat /\
  _analyze_summary_stats (utcnow 1%nat) incidents = Ok (summary report) /\
  _analyze_temporal_trends incidents = Ok (temporal_trends report) /\
  _analyze_spatial_trends incidents = spatial_trends report /\
  _analyze_severity_trends incidents = Ok (severity_trends report) /\
  _analyze_type_trends incidents = Ok (type_trends report) /\
  PatternAnalyzer._identify_hotspots incidents = Ok (hotspots report) /\
  PatternAnalyzer._generate_predictions incidents = Ok (predictions report) /\
  _generate_recommendations incidents = Ok (recommendations report).
Proof.
  unfold analyze_trends, get_historical_incidents.
  cbn [bind store_of find_incidents_since try_except].
  destruct (Nat.ltb_spec (length incidents) 10) as [L | L];
    [discriminate |].
  destruct (_analyze_summary_stats (utcnow 1%nat) incidents) as [s |];
    cbn [bind try_except]; [| discriminate].
  destruct (_analyze_temporal_trends incidents) as [tt |];
    cbn [bind try_except]; [| discriminate].
  destruct (_analyze_severity_trends incidents) as [sv |];
    cbn [bind try_except]; [| discriminate].
  destruct (_analyze_type_trends incidents) as [ty |];
    cbn [bind try_except]; [| discriminate].
  destruct (PatternAnalyzer._identify_hotspots incidents) as [hs |];
    cbn [bind try_except]; [| discriminate].
  destruct (PatternAnalyzer._generate_predictions incidents) as [fc |];
    cbn [bind try_except]; [| discriminate].
  destruct (_generate_recommendations incidents) as [recs |];
    cbn [bind try_except]; [| discriminate].
  intro H. apply trends_of_eq in H. subst report.
  cbn [summary temporal_trends spatial_trends severity_trends type_trends
       hotspots predictions recommendations].
  repeat split; try reflexivity. exact L.
Qed.

(** X25.  What [analyze_trends] reports without a report: "Trend analysis
    failed" when the time range or the location cannot be parsed, when one
    of ten or more incidents has no [createdAt], or when the last
    incident's [createdAt] cannot be subtracted from the clock's reading;
    "Insufficient data for trend analysis" with the number of incidents
    when fewer than ten were found, which is what a failing store is
    reported as, with 0 incidents. *)
Theorem trend_analysis_failures (st : Store) (utcnow : clock) (d : Z)
  (loc : option (Q * Q)) :
  let incidents :=
    get_historical_incidents st (utcnow 0%nat) d (bounds_of loc) in
  (forall e location,
     analyze_trends st utcnow (Raise e) location
     = TrendsError "Trend analysis failed" None) /\
  (forall e days,
     analyze_trends st utcnow days (Some (Raise e))
     = TrendsError "Trend analysis failed" None) /\
  ((length incidents < 10)%nat ->
   analyze_trends st utcnow (Ok d) (option_map Ok loc)
   = TrendsError "Insufficient data for trend analysis"
                 (Some (length incidents))) /\
  (forall e,
     find_incidents_since st (days_before (utcnow 0%nat) d) (bounds_of loc)
     = Raise e ->
     analyze_trends st utcnow (Ok d) (option_map Ok loc)
     = TrendsError "Insufficient data for trend analysis" (Some O)) /\
  ((10 <= length incidents)%nat ->
   Exists (fun i => inc_createdAt i = None) incidents ->
   analyze_trends st utcnow (Ok d) (option_map Ok loc)
   = TrendsError "Trend analysis failed" None) /\
  (forall t,
     (10 <= length incidents)%nat ->
     inc_createdAt (last incidents undated) = Some t ->
     ~ comparable (utcnow 1%nat) t ->
     analyze_trends st utcnow (Ok d) (option_map Ok loc)
     = TrendsError "Trend analysis failed" None).
Proof.
  cbv zeta. rewrite analysis_of_found.
  split; [reflexivity |].
  split; [intros e [days | e']; reflexivity |].
  split; [apply analysis_short |].
  split.
  { intros e E.
    assert (Z : get_historical_incidents st (utcnow 0%nat) d (bounds_of loc)
                = []).
    { unfold get_historical_incidents. now rewrite E. }
    rewrite Z. apply (analysis_short utcnow d []). simpl. lia. }
  split; [apply analysis_missing |].
  intros t. apply analysis_incomparable.
Qed.

(** X26.  [analyze_trends] produces a report exactly when ten incidents or
    more were found, every one of them has its [createdAt], and that of
    the last one can be subtracted from the clock's reading.  The report
    then holds the results of the eight analyses of the incidents found. *)
Theorem trend_report_produced (st : Store) (utcnow : clock) (d : Z)
  (loc : option (Q * Q)) :
  let incidents :=
    get_historical_incidents st (utcnow 0%nat) d (bounds_of loc) in
  ((exists report,
      analyze_trends st utcnow (Ok d) (option_map Ok loc) = TrendsOf report)
   <-> (10 <= length incidents)%nat /\
       Forall timestamped incidents /\
       (forall t, inc_createdAt (last incidents undated) = Some t ->
                  comparable (utcnow 1%nat) t)) /\
  (forall report,
     analyze_trends st utcnow (Ok d) (option_map Ok loc) = TrendsOf report ->
     _analyze_summary_stats (utcnow 1%nat) incidents = Ok (summary report) /\
     _analyze_temporal_trends incidents = Ok (temporal_trends report) /\
     _analyze_spatial_trends incidents = spatial_trends report /\
     _analyze_severity_trends incidents = Ok (severity_trends report) /\
     _analyze_type_trends incidents = Ok (type_trends report) /\
     PatternAnalyzer._identify_hotspots incidents = Ok (hotspots report) /\
     PatternAnalyzer._generate_predictions incidents
     = Ok (predictions report) /\
     _generate_recommendations incidents = Ok (recommendations report)).
Proof.
  cbv zeta. rewrite analysis_of_found.
  set (incidents := get_historical_incidents st (utcnow 0%nat) d
                      (bounds_of loc)).
  split; [| intros report H; now apply analysis_parts in H].
  split.
  - intros [report H].
    destruct (analysis_parts utcnow d incidents report H) as [L _].
    split; [exact L |].
    destruct (missing_or_timestamped incidents) as [M | T].
    { rewrite (analysis_missing utcnow d incidents L M) in H.
      discriminate. }
    split; [exact T |]. intros t E.
    destruct (comparable_dec (utcnow 1%nat) t) as [C | C]; [exact C |].
    rewrite (analysis_incomparable utcnow d incidents t L E C) in H.
    discriminate.
  - intros [L [T C]].
    assert (N : incidents <> []).
    { intros Z. rewrite Z in L. simpl in L. lia. }
    assert (E : exists t, inc_createdAt (last incidents undated) = Some t).
    { rewrite Forall_forall in T.
      specialize (T (last incidents undated)).
      destruct (inc_createdAt (last incidents undated)) as [t |] eqn:E;
        [now exists t |].
      exfalso. apply T; [| exact E].
      destruct (exists_last N) as [front [final ->]].
      rewrite last_last. apply in_app_iff. right. now left. }
    destruct E as [t E].
    apply (analysis_produced utcnow d incidents t L T E (C t E)).
Qed.

End Report.

Lemma trend_analysis_failures_witness :
  TrendAnalysis.analyze_trends (nl := StandIn.rational_numpy)
    (cl := StandIn.one_pass_clusters) (cal := Notions2.weeks_of_epoch)
    Notions2.failing_store Sample.at_3am (Ok 7%Z) None
  = TrendAnalysis.TrendsError "Insufficient data for trend analysis" (Some O)
  /\
  TrendAnalysis.analyze_trends (nl := StandIn.rational_numpy)
    (cl := StandIn.one_pass_clusters) (cal := Notions2.weeks_of_epoch)
    (Notions2.store_of (Notions2.undated :: Sample.corner)) Sample.at_3am
    (Ok 7%Z) None
  = TrendAnalysis.TrendsError "Trend analysis failed" None.
Proof.
  split.
  - apply (proj1 (proj2 (proj2 (proj2
             (@trend_analysis_failures StandIn.rational_numpy
                StandIn.one_pass_clusters Notions2.weeks_of_epoch
                Notions2.failing_store Sample.at_3am 7%Z None))))
             LibraryError).
    reflexivity.
  - apply (proj1 (proj2 (proj2 (proj2 (proj2
             (@trend_analysis_failures StandIn.rational_numpy
                StandIn.one_pass_clusters Notions2.weeks_of_epoch
                (Notions2.store_of (Notions2.undated :: Sample.corner))
                Sample.at_3am 7%Z None)))))).
    + vm_compute. lia.
    + now left.
Defined.

Lemma trend_report_produced_witness :
  exists report,
    TrendAnalysis.analyze_trends (nl := StandIn.rational_numpy)
      (cl := StandIn.one_pass_clusters) (cal := Notions2.weeks_of_epoch)
      (Notions2.store_of Sample.corner) Sample.at_3am (Ok 7%Z) None
    = TrendAnalysis.TrendsOf report.
Proof.
  apply (proj2 (proj1
           (@trend_report_produced StandIn.rational_numpy
              StandIn.one_pass_clusters Notions2.weeks_of_epoch
              (Notions2.store_of Sample.corner) Sample.at_3am 7%Z None))).
  split; [vm_compute; lia |]. split.
  - apply Forall_forall. intros i Hi.
    change (In i Sample.corner) in Hi. unfold Sample.corner in Hi.
    apply in_map_iff in Hi as [k [<- _]]. discriminate.
  - intros t E. unfold Notions2.comparable. vm_compute in E.
    apply some_eq in E. subst t. simpl. tauto.
Defined.

Section TemporalTrends.
Import TrendAnalysis Notions Notions2.
Context {cal : CalendarLib}.

Lemma peak_day_named (ts : list datetime) :
  let peak_day := most_common (Py.count_by Z.eqb Datetime.weekday ts) 0%Z in
  In (if (peak_day <? 7)%Z
      then nth (Z.to_nat peak_day) day_names "Unknown"
      else "Unknown") day_names.
Proof.
  cbv zeta.
  set (peak := most_common (Py.count_by Z.eqb Datetime.weekday ts) 0%Z).
  assert (B : (0 <= peak < 7)%Z).
  { subst peak. destruct ts as [| t0 r] eqn:E; [simpl; lia |].
    rewrite <- E.
    destruct (most_common_greatest
                (Py.count_by Z.eqb Datetime.weekday ts) 0%Z) as [c [H _]].
    { apply count_by_nonempty. subst ts. discriminate. }
    apply (in_map fst) in H. cbn [fst] in H.
    apply (proj1 (count_by_keys Z.eqb Z.eqb_spec Datetime.weekday ts _))
      in H.
    apply in_map_iff in H as [t [<- _]].
    unfold Datetime.weekday. apply Z.mod_pos_bound. lia. }
  destruct (Z.ltb_spec peak 7) as [_ | G]; [| lia].
  apply nth_In. change (length day_names) with 7%nat. lia.
Qed.

(** X19.  The temporal section of a trend report needs the [createdAt] of
    every incident.  It counts every incident once by hour, once by
    weekday and once by week; its hourly distribution holds, for every
    hour, the number of incidents of that hour; the night incidents are
    those between 22:00 and 5:59 and add up with the day incidents to the
    number of incidents; the peak hour is an hour of greatest count; and
    the peak day is always one of the seven day names, never "Unknown". *)
Theorem temporal_trends_count_every_incident (incidents : list Incident) :
  (Exists (fun i => inc_createdAt i = None) incidents ->
   _analyze_temporal_trends incidents = Raise KeyError) /\
  (Forall timestamped incidents ->
   exists t,
     _analyze_temporal_trends incidents = Ok t /\
     dict_total (hourly_distribution t) = length incidents /\
     dict_total (daily_distribution t) = length incidents /\
     dict_total (weekly_trend t) = length incidents /\
     (forall h, Py.get_default Z.eqb (hourly_distribution t) h O
                = in_hour incidents h) /\
     night_incidents t = at_night incidents /\
     (night_incidents t + day_incidents t = length incidents)%nat /\
     (incidents <> [] ->
      forall h, (in_hour incidents h <= in_hour incidents (peak_hour t))%nat)
     /\
     In (peak_day t) day_names).
Proof.
  unfold _analyze_temporal_trends. split.
  - intro H. now rewrite (timestamps_missing incidents H).
  - intro H.
    destruct (timestamps_ok incidents H) as [ts E]. rewrite E. cbn [bind].
    pose proof (timestamps_length incidents ts E) as L.
    pose proof (timestamps_fields incidents ts E) as F.
    eexists. split; [reflexivity |].
    cbn [night_incidents day_incidents hourly_distribution daily_distribution
         weekly_trend peak_hour peak_day].
    split; [rewrite count_by_total; exact L |].
    split; [rewrite count_by_total; exact L |].
    split; [rewrite count_by_total; exact L |].
    split.
    { intro h. rewrite (count_by_get Z.eqb Z.eqb_spec). unfold in_hour.
      symmetry.
      apply (filter_by_timestamp (fun t => (h =? hour t)%Z) incidents ts F). }
    split.
    { pose proof (night_hours ts) as Nh. cbv zeta in Nh. rewrite Nh.
      unfold at_night. symmetry.
      apply (filter_by_timestamp
               (fun t => (22 <=? hour t)%Z || (hour t <? 6)%Z)
               incidents ts F). }
    split; [rewrite <- L; apply hours_partition |].
    split; [| apply peak_day_named].
    intros N h. apply (peak_hour_greatest incidents ts F).
    intros ->. simpl in L. destruct incidents; [congruence | discriminate].
Qed.

End TemporalTrends.

Lemma temporal_trends_count_every_incident_witness :
  TrendAnalysis._analyze_temporal_trends (cal := Notions2.weeks_of_epoch)
    [Notions2.undated] = Raise KeyError /\
  exists t,
    TrendAnalysis._analyze_temporal_trends (cal := Notions2.weeks_of_epoch)
      Sample.corner = Ok t /\
    TrendAnalysis.night_incidents t = 6%nat /\
    TrendAnalysis.day_incidents t = 4%nat /\
    In (TrendAnalysis.peak_day t) TrendAnalysis.day_names.
Proof.
  split.
  - apply (proj1 (@temporal_trends_count_every_incident
                    Notions2.weeks_of_epoch [Notions2.undated])).
    now constructor.
  - destruct (proj2 (@temporal_trends_count_every_incident
                       Notions2.weeks_of_epoch Sample.corner))
      as [t [E [_ [_ [_ [_ [N [S [_ D]]]]]]]]].
    + apply Forall_forall. intros i Hi. unfold Sample.corner in Hi.
      apply in_map_iff in Hi as [k [<- _]]. discriminate.
    + exists t. split; [exact E |].
      assert (N6 : TrendAnalysis.night_incidents t = 6%nat).
      { rewrite N. vm_compute. reflexivity. }
      split; [exact N6 |]. split; [| exact D].
      rewrite N6 in S. change (length Sample.corner) with 10%nat in S. lia.
Defined.
